(** * Detection dashboard API: a shallow embedding of the query layer

    The development follows [server.js] and the server of
    [NotificationCenter.tsx] (the Express handlers, their Joi schemas, the
    SQL they assemble and [convertToCSV]), [database.js]
    ([DatabaseService]) and, of the client, [useAlertMonitoring.ts],
    [notificationUtils.ts] and [AlertConfig.tsx].  Part I holds the
    definitions, Parts II and III the lemmas and theorems about them.

    Modelling conventions.
    - JavaScript numbers are exact rationals extended with [Infinity],
      [-Infinity] and [NaN]; the rounding of IEEE doubles is not modelled,
      so a value the code rounds from a quotient of doubles
      ([percentIncrease]) can differ from the one computed here where the
      exact quotient lies at a rounding boundary.
    - Instants (JS [Date], SQL [DATETIME]) are integers, in milliseconds.
    - A [DECIMAL(5,4)] confidence score is the integer number of its
      ten-thousandths.
    - A SQL statement is the list of its [WHERE] conjuncts, its ordering and
      its limit, next to the positional parameter list handed to
      [pool.execute]; conditions are evaluated in SQL's three-valued logic.
      Each SQL text is read by its meaning ([INTERVAL 7 DAYS] as seven
      days); whether the server's parser accepts its spelling belongs to
      [available].  Text is compared by character code, and one stable sort
      stands for every [ORDER BY], window ordering included.
    - A Joi schema here accepts every request Joi accepts; it also accepts
      numbers Joi refuses as unsafe (beyond what a double holds exactly),
      and the unknown-key error names the first such key in the order of
      the map, not of the query string. *)

From Stdlib Require Import ZArith QArith Qround List String Ascii Bool Lia Sorted.
From stdpp Require Import base option list sorting gmap strings.
Import ListNotations.

Open Scope string_scope.
Open Scope list_scope.
Open Scope Z_scope.

(** * Part I: definitions *)

(** ** JavaScript numbers *)

Module JsNum.

Inductive number : Type :=
| Fin (q : Q)
| PosInf
| NegInf
| NaN.

Definition of_Z (z : Z) : number := Fin (inject_Z z).

Definition sign (q : Q) : Z := Z.sgn (Qnum q).

Definition is_zero (q : Q) : bool := Qnum q =? 0.

Definition inf_of_sign (s : Z) : number :=
  if 0 <? s then PosInf else if s <? 0 then NegInf else NaN.

Definition add (a b : number) : number :=
  match a, b with
  | NaN, _ | _, NaN => NaN
  | Fin x, Fin y => Fin (x + y)
  | PosInf, NegInf | NegInf, PosInf => NaN
  | PosInf, _ | _, PosInf => PosInf
  | NegInf, _ | _, NegInf => NegInf
  end.

Definition neg (a : number) : number :=
  match a with
  | Fin x => Fin (- x)
  | PosInf => NegInf
  | NegInf => PosInf
  | NaN => NaN
  end.

Definition sub (a b : number) : number := add a (neg b).

Definition mul (a b : number) : number :=
  match a, b with
  | NaN, _ | _, NaN => NaN
  | Fin x, Fin y => Fin (x * y)
  | Fin x, PosInf | PosInf, Fin x => inf_of_sign (sign x)
  | Fin x, NegInf | NegInf, Fin x => inf_of_sign (- sign x)
  | PosInf, PosInf | NegInf, NegInf => PosInf
  | PosInf, NegInf | NegInf, PosInf => NegInf
  end.

(** [x / 0] is [Infinity], [-Infinity] or [NaN] by the sign of [x]; the zero
    divisors that occur are positive zeros. *)
Definition div (a b : number) : number :=
  match a, b with
  | NaN, _ | _, NaN => NaN
  | Fin x, Fin y => if is_zero y then inf_of_sign (sign x) else Fin (x / y)
  | Fin _, (PosInf | NegInf) => Fin 0
  | PosInf, Fin y => if sign y <? 0 then NegInf else PosInf
  | NegInf, Fin y => if sign y <? 0 then PosInf else NegInf
  | (PosInf | NegInf), (PosInf | NegInf) => NaN
  end.

(** [a > b]; any comparison with [NaN] is false. *)
Definition gt (a b : number) : bool :=
  match a, b with
  | NaN, _ | _, NaN => false
  | Fin x, Fin y => negb (Qle_bool x y)
  | PosInf, PosInf => false
  | PosInf, _ => true
  | _, PosInf => false
  | NegInf, _ => false
  | Fin _, NegInf => true
  end.

(** [a >= b]. *)
Definition ge (a b : number) : bool :=
  match a, b with
  | NaN, _ | _, NaN => false
  | Fin x, Fin y => Qle_bool y x
  | PosInf, _ => true
  | _, NegInf => true
  | _, PosInf => false
  | NegInf, _ => false
  end.

(** [Math.round]: the nearest integer, halves going up. *)
Definition round (a : number) : number :=
  match a with
  | Fin x => of_Z (Qfloor (x + (1 # 2)))
  | other => other
  end.


End JsNum.

Import JsNum.

Declare Scope js_scope.
Delimit Scope js_scope with js.
Infix "+" := JsNum.add : js_scope.
Infix "-" := JsNum.sub : js_scope.
Infix "*" := JsNum.mul : js_scope.
Infix "/" := JsNum.div : js_scope.
Infix ">?" := JsNum.gt : js_scope.
Infix ">=?" := JsNum.ge : js_scope.

(** ** The spike evaluator of [/api/alerts/check] *)

Module Spike.

(** A row of the daily-count query: [DATE(detected_date)] as a day number,
    [COUNT( * )], [AVG(confidence_score)]. *)
Record DailyStat : Type := {
  date : Z;
  count : Z;
  avg_confidence : option Q
}.

Record SpikeInfo : Type := {
  todayCount : number;
  avgCount : number;
  percentIncrease : number
}.

(** [dailyStats.slice(1).reduce((sum, stat) => sum + stat.count, 0)] *)
Definition sum_counts (stats : list DailyStat) : number :=
  fold_left (fun sum stat => (sum + of_Z (count stat))%js) stats (of_Z 0).

(** The block that sets [spikeDetected] and [spikeInfo]. *)
Definition detect_spike (dailyStats : list DailyStat) : bool * option SpikeInfo :=
  if (1 <? Z.of_nat (length dailyStats)) then
    match dailyStats with
    | today :: _ =>
        let todayCount := of_Z (count today) in
        let avgCount :=
          (sum_counts (drop 1 dailyStats)
           / of_Z (Z.of_nat (length dailyStats) - 1))%js in
        if (todayCount >? avgCount * Fin (3 # 2))%js then
          (true,
           Some {| todayCount := todayCount;
                   avgCount := round avgCount;
                   percentIncrease :=
                     round (((todayCount - avgCount) / avgCount) * of_Z 100)%js |})
        else (false, None)
    | [] => (false, None)
    end
  else (false, None).

End Spike.

(** ** The [deepfake_media] table *)

Module Data.

Inductive MediaType : Type := Photo | Video.

Definition media_type_name (m : MediaType) : string :=
  match m with Photo => "photo" | Video => "video" end.

(** One row of [deepfake_media]; every column but [id], [media_type] and
    [media_url] is nullable in the schema. *)
Record Detection : Type := {
  id : Z;
  media_type : MediaType;
  media_url : string;
  thumbnail_url : option string;
  title : option string;
  description : option string;
  confidence_score : option Z;
  detection_method : option string;
  source_platform : option string;
  upload_date : option Z;
  detected_date : option Z;
  file_size_mb : option Q;
  duration_seconds : option Z;
  resolution : option string;
  is_verified : option bool;
  tags : option string;
  metadata : option string
}.

(** The pool's server: the table, the instant [NOW()] denotes, and whether
    the server accepts and answers the statements sent to it. *)
Record Backend : Type := {
  table : list Detection;
  now : Z;
  available : bool
}.

Definition ms_per_hour : Z := 3600000.
Definition ms_per_day : Z := 24 * ms_per_hour.

(** [DATE(t)]: the day number of an instant. *)
Definition day_of (t : Z) : Z := t / ms_per_day.

(** The value of a score, as a rational. *)
Definition score_value (c : Z) : Q := c # 10000.

End Data.

Import Data.

(** ** SQL statements and their evaluation *)

Module Sql.

Import Spike.

(** A positional parameter, as pushed on [queryParams]. *)
Inductive Param : Type :=
| PDate (t : Z)
| PNum (x : Q)
| PInt (n : Z)
| PStr (s : string)
| PBool (b : bool).

(** The [WHERE] conjuncts the handlers write, [?] standing for the next
    parameter. *)
Inductive Cond : Type :=
| One_eq_one                    (* 1=1 *)
| Detected_between              (* detected_date BETWEEN ? AND ? *)
| Confidence_ge                 (* confidence_score >= ? *)
| Media_type_eq                 (* media_type = ? *)
| Source_platform_eq            (* source_platform = ? *)
| Is_verified_eq                (* is_verified = ? *)
| Detected_gt                   (* detected_date > ? *)
| Detected_gt_24h_ago           (* detected_date > DATE_SUB(NOW(), INTERVAL 24 HOUR) *)
| Detected_ge_7d_ago            (* detected_date >= DATE_SUB(NOW(), INTERVAL 7 DAYS) *)
| Source_platform_in (n : nat)  (* source_platform IN (?,...,?), n placeholders *)
| Is_verified_eq_1              (* is_verified = 1 *)
| Text_like.                    (* (title LIKE ? OR description LIKE ? OR tags LIKE ?) *)

Inductive Select : Type :=
| Columns          (* a column list of deepfake_media *)
| Count_all        (* COUNT( * ) as total *)
| Ranked_columns   (* ROW_NUMBER() OVER (ORDER BY confidence_score DESC,
                      detected_date DESC) as rank, then a column list *)
| Daily_counts.    (* DATE(detected_date) as date, COUNT( * ) as count,
                      AVG(confidence_score) ... GROUP BY DATE(detected_date) *)

Inductive OrderBy : Type :=
| Unordered
| Detected_desc_confidence_desc
| Confidence_desc_detected_desc
| Date_desc.

Inductive Limit : Type :=
| Unlimited
| Limit_param            (* LIMIT ? *)
| Limit_offset_params    (* LIMIT ? OFFSET ? *)
| Limit_const (n : nat). (* LIMIT n *)

Record Statement : Type := {
  select : Select;
  where_ : list Cond;
  order_by : OrderBy;
  limit_clause : Limit
}.

(** The number of placeholders of a conjunct. *)
Definition arity (c : Cond) : nat :=
  match c with
  | One_eq_one | Detected_gt_24h_ago | Detected_ge_7d_ago | Is_verified_eq_1 => 0
  | Detected_between => 2
  | Confidence_ge | Media_type_eq | Source_platform_eq | Is_verified_eq
  | Detected_gt => 1
  | Source_platform_in n => n
  | Text_like => 3
  end%nat.

Definition is_str (p : Param) : bool :=
  match p with PStr _ => true | _ => false end.

(** The parameter kinds a conjunct is executed with. *)
Definition well_typed (c : Cond) (args : list Param) : bool :=
  match c, args with
  | (One_eq_one | Detected_gt_24h_ago | Detected_ge_7d_ago | Is_verified_eq_1), [] => true
  | Detected_between, [PDate _; PDate _] => true
  | Confidence_ge, [PNum _] => true
  | Media_type_eq, [PStr _] => true
  | Source_platform_eq, [PStr _] => true
  | Is_verified_eq, [PBool _] => true
  | Detected_gt, [PDate _] => true
  | Source_platform_in n, _ => (length args =? n)%nat && forallb is_str args
  | Text_like, [PStr _; PStr _; PStr _] => true
  | _, _ => false
  end.

(** A conjunct with its parameters bound. *)
Definition Pred : Type := Cond * list Param.

(** Positional binding: each conjunct takes its placeholders' worth of
    parameters from the front of the list; the rest is returned. *)
Fixpoint bind (cs : list Cond) (ps : list Param) : option (list Pred * list Param) :=
  match cs with
  | [] => Some ([], ps)
  | c :: cs' =>
      let args := take (arity c) ps in
      if (length args =? arity c)%nat && well_typed c args then
        match bind cs' (drop (arity c) ps) with
        | Some (preds, rest) => Some ((c, args) :: preds, rest)
        | None => None
        end
      else None
  end.

(** *** Three-valued conditions; [None] is SQL's [NULL]. *)

Definition and3 (a b : option bool) : option bool :=
  match a, b with
  | Some false, _ | _, Some false => Some false
  | Some true, Some true => Some true
  | _, _ => None
  end.

Definition or3 (a b : option bool) : option bool :=
  match a, b with
  | Some true, _ | _, Some true => Some true
  | Some false, Some false => Some false
  | _, _ => None
  end.

(** [text LIKE pattern]: [%] matches any run of characters, [_] any one
    character, a backslash takes the next character literally; the
    comparison is by character code. *)
Fixpoint like (pattern : string) : string -> bool :=
  match pattern with
  | EmptyString => fun text => match text with EmptyString => true | _ => false end
  | String "%" p =>
      fix skip (text : string) : bool :=
        like p text
        || match text with EmptyString => false | String _ t => skip t end
  | String "_" p =>
      fun text => match text with EmptyString => false | String _ t => like p t end
  | String "\" (String c p) =>
      fun text =>
        match text with
        | EmptyString => false
        | String d t => Ascii.eqb c d && like p t
        end
  | String c p =>
      fun text =>
        match text with
        | EmptyString => false
        | String d t => Ascii.eqb c d && like p t
        end
  end.

Definition like3 (column : option string) (pattern : string) : option bool :=
  match column with
  | Some text => Some (like pattern text)
  | None => None
  end.

Definition str_of (p : Param) : string :=
  match p with PStr s => s | _ => EmptyString end.

(** The truth value of a bound conjunct on a row, at the server instant
    [now]. *)
Definition eval_pred (now : Z) (p : Pred) (d : Detection) : option bool :=
  match p with
  | (One_eq_one, _) => Some true
  | (Detected_between, [PDate a; PDate b]) =>
      t ← detected_date d; Some ((a <=? t) && (t <=? b))
  | (Confidence_ge, [PNum m]) =>
      c ← confidence_score d; Some (Qle_bool m (score_value c))
  | (Media_type_eq, [PStr s]) =>
      Some (String.eqb (media_type_name (media_type d)) s)
  | (Source_platform_eq, [PStr s]) =>
      p ← source_platform d; Some (String.eqb p s)
  | (Is_verified_eq, [PBool b]) =>
      v ← is_verified d; Some (Bool.eqb v b)
  | (Detected_gt, [PDate a]) =>
      t ← detected_date d; Some (a <? t)
  | (Detected_gt_24h_ago, _) =>
      t ← detected_date d; Some (now - 24 * ms_per_hour <? t)
  | (Detected_ge_7d_ago, _) =>
      t ← detected_date d; Some (now - 7 * ms_per_day <=? t)
  | (Source_platform_in _, args) =>
      p ← source_platform d; Some (existsb (String.eqb p) (map str_of args))
  | (Is_verified_eq_1, _) =>
      v ← is_verified d; Some v
  | (Text_like, [PStr p1; PStr p2; PStr p3]) =>
      or3 (or3 (like3 (title d) p1) (like3 (description d) p2)) (like3 (tags d) p3)
  | _ => None
  end.

(** The conjunction of the [WHERE] clause. *)
Definition eval_where (now : Z) (preds : list Pred) (d : Detection) : option bool :=
  fold_right (fun p acc => and3 (eval_pred now p d) acc) (Some true) preds.

(** A row is selected when the clause is true, not when it is false or
    [NULL]. *)
Definition selected (now : Z) (preds : list Pred) (d : Detection) : bool :=
  match eval_where now preds d with Some true => true | _ => false end.

(** A conjunct holds on a row when it is true there. *)
Definition holds (now : Z) (p : Pred) (d : Detection) : bool :=
  match eval_pred now p d with Some true => true | _ => false end.

(** *** Ordering, grouping and limits *)

(** Stable insertion sort; [ge x y] says that [x] may stand before [y]. *)
Fixpoint insert_by {A : Type} (ge : A -> A -> bool) (x : A) (l : list A) : list A :=
  match l with
  | [] => [x]
  | y :: l' => if ge x y then x :: l else y :: insert_by ge x l'
  end.

Definition sort_by {A : Type} (ge : A -> A -> bool) (l : list A) : list A :=
  fold_right (insert_by ge) [] l.

(** Descending order on a nullable column: [NULL] sorts after every value. *)
Definition desc_ge (a b : option Z) : bool :=
  match a, b with
  | _, None => true
  | None, Some _ => false
  | Some x, Some y => y <=? x
  end.

(** [ORDER BY k1 DESC, k2 DESC]. *)
Definition lex_desc_ge {A : Type} (k1 k2 : A -> option Z) (a b : A) : bool :=
  if negb (desc_ge (k1 b) (k1 a)) then true
  else if negb (desc_ge (k1 a) (k1 b)) then false
  else desc_ge (k2 a) (k2 b).

Definition order_ge (o : OrderBy) : Detection -> Detection -> bool :=
  match o with
  | Detected_desc_confidence_desc => lex_desc_ge detected_date confidence_score
  | Confidence_desc_detected_desc => lex_desc_ge confidence_score detected_date
  | Unordered | Date_desc => fun _ _ => true
  end.

(** With no [ORDER BY] the rows come in table order. *)
Definition order_rows (o : OrderBy) (rows : list Detection) : list Detection :=
  match o with
  | Unordered | Date_desc => rows
  | _ => sort_by (order_ge o) rows
  end.

(** [ROW_NUMBER() OVER (ORDER BY confidence_score DESC, detected_date DESC)]:
    the rows in window order, numbered from [first]. *)
Fixpoint number_from (first : Z) (rows : list Detection) : list (Z * Detection) :=
  match rows with
  | [] => []
  | d :: rows' => (first, d) :: number_from (first + 1) rows'
  end.

Definition row_number (rows : list Detection) : list (Z * Detection) :=
  number_from 1 (sort_by (order_ge Confidence_desc_detected_desc) rows).

Definition order_ranked (o : OrderBy) (rows : list (Z * Detection)) : list (Z * Detection) :=
  match o with
  | Unordered | Date_desc => rows
  | _ => sort_by (fun a b => order_ge o (snd a) (snd b)) rows
  end.

(** [GROUP BY DATE(detected_date)]: groups in order of first occurrence; rows
    with a [NULL] date form no group here since the only grouped statement
    filters them out. *)
Fixpoint group_insert (day : Z) (d : Detection) (groups : list (Z * list Detection))
  : list (Z * list Detection) :=
  match groups with
  | [] => [(day, [d])]
  | (k, g) :: groups' =>
      if day =? k then (k, g ++ [d]) :: groups'
      else (k, g) :: group_insert day d groups'
  end.

Definition group_step (groups : list (Z * list Detection)) (d : Detection)
  : list (Z * list Detection) :=
  match detected_date d with
  | Some t => group_insert (day_of t) d groups
  | None => groups
  end.

Definition group_by_day (rows : list Detection) : list (Z * list Detection) :=
  fold_left group_step rows [].

(** [AVG(confidence_score)] over a group: [NULL] scores are skipped, and the
    average of nothing is [NULL]. *)
Definition avg_score (g : list Detection) : option Q :=
  let scores : list Z := omap confidence_score g in
  match scores with
  | [] => None
  | _ =>
      let sum := fold_right Z.add 0 scores in
      let n := Z.of_nat (length scores) in
      Some (inject_Z sum / inject_Z n / inject_Z 10000)%Q
  end.

Definition daily_stat (group : Z * list Detection) : DailyStat :=
  {| date := fst group;
     count := Z.of_nat (length (snd group));
     avg_confidence := avg_score (snd group) |}.

Definition order_daily (o : OrderBy) (rows : list DailyStat) : list DailyStat :=
  match o with
  | Date_desc => sort_by (fun a b => date b <=? date a) rows
  | _ => rows
  end.

(** The parameters left for [LIMIT]/[OFFSET]: the row cap, if any, and the
    number of rows skipped.  Parameters left over, missing or of the wrong
    kind make the statement fail. *)
Definition bind_limit (l : Limit) (rest : list Param) : option (option nat * nat) :=
  match l, rest with
  | Unlimited, [] => Some (None, 0%nat)
  | Limit_const n, [] => Some (Some n, 0%nat)
  | Limit_param, [PInt n] =>
      if 0 <=? n then Some (Some (Z.to_nat n), 0%nat) else None
  | Limit_offset_params, [PInt n; PInt m] =>
      if (0 <=? n) && (0 <=? m) then Some (Some (Z.to_nat n), Z.to_nat m) else None
  | _, _ => None
  end.

Definition paginate {A : Type} (cap : option nat) (offset : nat) (rows : list A) : list A :=
  match cap with
  | Some n => take n (drop offset rows)
  | None => drop offset rows
  end.

Inductive ResultSet : Type :=
| Rows (rows : list Detection)
| Total (total : Z)
| Ranked (rows : list (Z * Detection))
| Daily (rows : list DailyStat).

(** The rows of the table the bound [WHERE] clause selects. *)
Definition matching (db : Backend) (preds : list Pred) : list Detection :=
  List.filter (selected (now db) preds) (table db).

(** What a statement returns from the rows its [WHERE] clause selected. *)
Definition result_set (s : Select) (o : OrderBy) (cap : option nat) (offset : nat)
  (rows : list Detection) : ResultSet :=
  match s with
  | Columns => Rows (paginate cap offset (order_rows o rows))
  | Count_all => Total (Z.of_nat (length rows))
  | Ranked_columns => Ranked (paginate cap offset (order_ranked o (row_number rows)))
  | Daily_counts =>
      Daily (paginate cap offset (order_daily o (map daily_stat (group_by_day rows))))
  end.

(** [pool.execute(statement, params)]; [None] is a rejected promise. *)
Definition execute (db : Backend) (st : Statement) (params : list Param)
  : option ResultSet :=
  if available db then
    '(preds, rest) ← bind (where_ st) params;
    '(cap, offset) ← bind_limit (limit_clause st) rest;
    Some (result_set (select st) (order_by st) cap offset (matching db preds))
  else None.

End Sql.

(** ** Request validation, after Joi *)

Module Joi.

(** A value of [req.query].  Joi coerces the text according to the schema of
    its key; the value carries what each coercion yields: the text itself
    when the value is a single text, the instant when the text is an
    ISO-8601 date, the number when it is a numeral, the boolean when it
    spells one. *)
Record QueryValue : Type := {
  as_string : option string;
  as_date : option Z;
  as_number : option Q;
  as_boolean : option bool
}.

Abbreviation Query := (gmap string QueryValue).

Inductive Reason : Type :=
| Any_required        (* the key is required and absent *)
| Any_only            (* not one of the allowed values *)
| Any_ref             (* the referenced key holds no date *)
| Date_format         (* not an ISO-8601 date *)
| Date_min            (* earlier than the referenced date *)
| String_base         (* not a text *)
| String_empty        (* the empty text *)
| Number_base         (* not a number *)
| Number_integer      (* not an integer *)
| Number_min
| Number_max
| Boolean_base        (* not a boolean *)
| Object_unknown.     (* a key the schema does not list *)

Record ValidationError : Type := {
  key : string;
  reason : Reason
}.

(** [{ error, value }] of [schema.validate]: the first error aborts. *)
Inductive Validation (A : Type) : Type :=
| Valid (value : A)
| Rejected (error : ValidationError).

Arguments Valid {A} value.
Arguments Rejected {A} error.

#[export] Instance validation_ret : MRet Validation := @Valid.

#[export] Instance validation_bind : MBind Validation :=
  fun A B f m =>
    match m with
    | Valid a => f a
    | Rejected e => Rejected e
    end.

Definition reject {A : Type} (k : string) (r : Reason) : Validation A :=
  Rejected {| key := k; reason := r |}.

(** A rule checks the value found under a key. *)
Definition Rule (A : Type) : Type := string -> QueryValue -> Validation A.

(** [.required()], [.optional()], [.default(d)] *)
Definition required {A : Type} (k : string) (rule : Rule A) (q : Query) : Validation A :=
  match q !! k with
  | Some v => rule k v
  | None => reject k Any_required
  end.

Definition optional {A : Type} (k : string) (rule : Rule A) (q : Query)
  : Validation (option A) :=
  match q !! k with
  | Some v => a ← rule k v; mret (Some a)
  | None => Valid None
  end.

Definition with_default {A : Type} (k : string) (rule : Rule A) (d : A) (q : Query)
  : Validation A :=
  match q !! k with
  | Some v => rule k v
  | None => Valid d
  end.

(** [Joi.date().iso()] *)
Definition date_iso : Rule Z :=
  fun k v =>
    match as_date v with
    | Some t => Valid t
    | None => reject k Date_format
    end.

(** [Joi.date().iso().min(Joi.ref(...))]; [ref] is the date under the
    referenced key, if that key is present. *)
Definition date_iso_min (ref : option Z) : Rule Z :=
  fun k v =>
    t ← date_iso k v;
    match ref with
    | Some m => if m <=? t then Valid t else reject k Date_min
    | None => reject k Any_ref
    end.

Definition nonempty (s : string) : bool :=
  match s with EmptyString => false | String _ _ => true end.

(** [Joi.string()]; also [Joi.string().min(1)], the empty text being
    refused already. *)
Definition string_ : Rule string :=
  fun k v =>
    match as_string v with
    | Some s => if nonempty s then Valid s else reject k String_empty
    | None => reject k String_base
    end.

(** [Joi.string().valid(...)] *)
Definition string_valid (allowed : list string) : Rule string :=
  fun k v =>
    match as_string v with
    | Some s => if existsb (String.eqb s) allowed then Valid s else reject k Any_only
    | None => reject k Any_only
    end.

(** [Joi.number().min(lo).max(hi)] *)
Definition number_between (lo hi : Q) : Rule Q :=
  fun k v =>
    match as_number v with
    | Some x =>
        if negb (Qle_bool lo x) then reject k Number_min
        else if negb (Qle_bool x hi) then reject k Number_max
        else Valid x
    | None => reject k Number_base
    end.

Definition is_integer (x : Q) : bool := (Qden (Qred x) =? 1)%positive.

(** [Joi.number().integer().min(lo)], with [.max(hi)] when given. *)
Definition integer_between (lo : Z) (hi : option Z) : Rule Z :=
  fun k v =>
    match as_number v with
    | Some x =>
        if negb (is_integer x) then reject k Number_integer
        else
          let n := Qnum (Qred x) in
          if n <? lo then reject k Number_min
          else
            match hi with
            | Some h => if h <? n then reject k Number_max else Valid n
            | None => Valid n
            end
    | None => reject k Number_base
    end.

(** [Joi.boolean()] *)
Definition boolean : Rule bool :=
  fun k v =>
    match as_boolean v with
    | Some b => Valid b
    | None => reject k Boolean_base
    end.

(** Keys outside the schema are refused, after the listed keys passed. *)
Definition known_keys (allowed : list string) (q : Query) : Validation unit :=
  match List.filter (fun k => negb (existsb (String.eqb k) allowed))
          (map fst (map_to_list q)) with
  | [] => Valid tt
  | k :: _ => reject k Object_unknown
  end.

End Joi.

Import Joi.

(** ** Asynchronous handler bodies *)

Module Handler.

Import Sql Spike.

(** One [pool.execute] call: the statement and its parameters. *)
Definition Call : Type := Statement * list Param.

(** A body run against the backend: the calls it issued, in order, and its
    value, or [None] when an exception was thrown. *)
Definition Exec (A : Type) : Type := Backend -> list Call * option A.

#[export] Instance exec_ret : MRet Exec := fun A a _ => ([], Some a).

#[export] Instance exec_bind : MBind Exec :=
  fun A B f m db =>
    match m db with
    | (calls, Some a) => let '(calls', b) := f a db in (calls ++ calls', b)
    | (calls, None) => (calls, None)
    end.

Definition throw {A : Type} : Exec A := fun _ => ([], None).

Definition pool_execute (call : Call) : Exec ResultSet :=
  fun db => ([call], execute db (fst call) (snd call)).

(** The statement under construction and its parameter array. *)
Definition select_where (s : Select) (conds : list Cond) (params : list Param) : Call :=
  ({| select := s; where_ := conds; order_by := Unordered; limit_clause := Unlimited |},
   params).

(** [query += ' AND ...'; queryParams.push(...)] *)
Definition and_where (c : Cond) (args : list Param) (call : Call) : Call :=
  ({| select := select (fst call);
      where_ := where_ (fst call) ++ [c];
      order_by := order_by (fst call);
      limit_clause := limit_clause (fst call) |},
   snd call ++ args).

(** [query += ' ORDER BY ... LIMIT ...'; queryParams.push(...)] *)
Definition order_limit (o : OrderBy) (l : Limit) (args : list Param) (call : Call) : Call :=
  ({| select := select (fst call);
      where_ := where_ (fst call);
      order_by := o;
      limit_clause := l |},
   snd call ++ args).

(** The conjuncts of a call bind exactly its parameters, to [preds]. *)
Definition bound (call : Call) (preds : list Pred) : Prop :=
  bind (where_ (fst call)) (snd call) = Some (preds, []).

Definition when_ (condition : bool) (f : Call -> Call) (call : Call) : Call :=
  if condition then f call else call.

(** [if (x)] on an optional text: absent and empty are falsy. *)
Definition truthy (x : option string) : bool :=
  match x with Some s => nonempty s | None => false end.

(** [if (mediaType !== 'all') { ... AND media_type = ? }] *)
Definition and_media_type (mediaType : string) : Call -> Call :=
  when_ (negb (String.eqb mediaType "all")) (and_where Media_type_eq [PStr mediaType]).

(** [if (platform) { ... AND source_platform = ? }] *)
Definition and_platform (platform : option string) : Call -> Call :=
  when_ (truthy platform) (and_where Source_platform_eq [PStr (default EmptyString platform)]).

(** [if (verified !== undefined) { ... AND is_verified = ? }] *)
Definition and_verified (verified : option bool) : Call -> Call :=
  match verified with
  | Some b => and_where Is_verified_eq [PBool b]
  | None => fun call => call
  end.

(** [if (startDate && endDate) { ... AND detected_date BETWEEN ? AND ? }] *)
Definition and_dates (startDate endDate : option Z) : Call -> Call :=
  match startDate, endDate with
  | Some s, Some e => and_where Detected_between [PDate s; PDate e]
  | _, _ => fun call => call
  end.

(** The conjuncts those steps add, with their parameters. *)
Definition media_type_preds (mediaType : string) : list Pred :=
  if negb (String.eqb mediaType "all") then [(Media_type_eq, [PStr mediaType])] else [].

Definition platform_preds (platform : option string) : list Pred :=
  if truthy platform then [(Source_platform_eq, [PStr (default EmptyString platform)])]
  else [].

Definition verified_preds (verified : option bool) : list Pred :=
  match verified with
  | Some b => [(Is_verified_eq, [PBool b])]
  | None => []
  end.

Definition dates_preds (startDate endDate : option Z) : list Pred :=
  match startDate, endDate with
  | Some s, Some e => [(Detected_between, [PDate s; PDate e])]
  | _, _ => []
  end.

Record Pagination : Type := {
  total : Z;
  limit : Z;
  offset : Z;
  hasMore : bool
}.

(** The payloads of the modelled endpoints. *)
Inductive Body : Type :=
| Deepfakes_body (data : list Detection) (pagination : Pagination)
| Rankings_body (rankings : list (Z * Detection)) (period : Z * Z) (mediaType : string)
| Search_body (results : list Detection) (query : string) (total : Z)
| Alerts_body (alerts : list Detection) (totalAlerts : Z) (spikeDetected : bool)
    (spikeInfo : option SpikeInfo) (checkTime : Z).

(** What the handler sends: [res.json(...)], [res.status(400).json(...)] with
    the first validation error, or [res.status(500).json(...)]. *)
Inductive Response : Type :=
| Ok (body : Body)
| Bad_request (error : ValidationError)
| Internal_server_error.

(** The frame every handler shares: validate, answer 400 on an error and
    return; otherwise run the body, answering 500 if it throws. *)
Definition endpoint {V : Type} (validate : Query -> Validation V)
  (body : V -> Exec Body) (q : Query) (db : Backend) : list Call * Response :=
  match validate q with
  | Rejected error => ([], Bad_request error)
  | Valid value =>
      match body value db with
      | (calls, Some b) => (calls, Ok b)
      | (calls, None) => (calls, Internal_server_error)
      end
  end.

End Handler.

Import Handler.

(** ** [GET /api/deepfakes] *)

Module Deepfakes.

Import Sql.

Record Value : Type := {
  startDate : Z;
  endDate : Z;
  mediaType : string;
  limit : Z;
  offset : Z;
  minConfidence : Q;
  platform : option string;
  verified : option bool
}.

Definition dateRangeSchema (q : Query) : Validation Value :=
  startDate ← required "startDate" date_iso q;
  endDate ← required "endDate" (date_iso_min (Some startDate)) q;
  mediaType ← with_default "mediaType" (string_valid ["photo"; "video"; "all"]) "all" q;
  limit ← with_default "limit" (integer_between 1 (Some 1000)) 100 q;
  offset ← with_default "offset" (integer_between 0 None) 0 q;
  minConfidence ← with_default "minConfidence" (number_between 0 1) 0%Q q;
  platform ← optional "platform" string_ q;
  verified ← optional "verified" boolean q;
  _ ← known_keys ["startDate"; "endDate"; "mediaType"; "limit"; "offset";
                   "minConfidence"; "platform"; "verified"] q;
  mret {| startDate := startDate; endDate := endDate; mediaType := mediaType;
          limit := limit; offset := offset; minConfidence := minConfidence;
          platform := platform; verified := verified |}.

(** [query] and [queryParams] *)
Definition data_query (v : Value) : Call :=
  order_limit Detected_desc_confidence_desc Limit_offset_params
    [PInt (limit v); PInt (offset v)]
    (and_verified (verified v)
       (and_platform (platform v)
          (and_media_type (mediaType v)
             (select_where Columns [Detected_between; Confidence_ge]
                [PDate (startDate v); PDate (endDate v); PNum (minConfidence v)])))).

(** [countQuery] and [countParams] *)
Definition count_query (v : Value) : Call :=
  and_verified (verified v)
    (and_platform (platform v)
       (and_media_type (mediaType v)
          (select_where Count_all [Detected_between; Confidence_ge]
             [PDate (startDate v); PDate (endDate v); PNum (minConfidence v)]))).

(** The conjuncts of both statements, with their parameters. *)
Definition preds (v : Value) : list Pred :=
  (([(Detected_between, [PDate (startDate v); PDate (endDate v)]);
     (Confidence_ge, [PNum (minConfidence v)])]
      ++ media_type_preds (mediaType v))
     ++ platform_preds (platform v))
    ++ verified_preds (verified v).

Definition body (v : Value) : Exec Body :=
  rows ← pool_execute (data_query v);
  countResult ← pool_execute (count_query v);
  match rows, countResult with
  | Rows rows, Total total =>
      mret (Deepfakes_body rows
              {| Handler.total := total;
                 Handler.limit := limit v;
                 Handler.offset := offset v;
                 hasMore := offset v + limit v <? total |})
  | _, _ => throw
  end.

Definition handler : Query -> Backend -> list Call * Response :=
  endpoint dateRangeSchema body.

End Deepfakes.

(** ** [GET /api/rankings] *)

Module Rankings.

Import Sql.

Record Value : Type := {
  startDate : Z;
  endDate : Z;
  mediaType : string;
  limit : Z
}.

Definition schema (q : Query) : Validation Value :=
  startDate ← required "startDate" date_iso q;
  endDate ← required "endDate" (date_iso_min (Some startDate)) q;
  mediaType ← with_default "mediaType" (string_valid ["photo"; "video"; "all"]) "all" q;
  limit ← with_default "limit" (integer_between 1 (Some 50)) 10 q;
  _ ← known_keys ["startDate"; "endDate"; "mediaType"; "limit"] q;
  mret {| startDate := startDate; endDate := endDate; mediaType := mediaType;
          limit := limit |}.

Definition query (v : Value) : Call :=
  order_limit Confidence_desc_detected_desc Limit_param [PInt (limit v)]
    (and_media_type (mediaType v)
       (select_where Ranked_columns [Detected_between]
          [PDate (startDate v); PDate (endDate v)])).

(** The conjuncts of the statement, with their parameters. *)
Definition preds (v : Value) : list Pred :=
  [(Detected_between, [PDate (startDate v); PDate (endDate v)])]
    ++ media_type_preds (mediaType v).

Definition body (v : Value) : Exec Body :=
  rows ← pool_execute (query v);
  match rows with
  | Ranked rows => mret (Rankings_body rows (startDate v, endDate v) (mediaType v))
  | _ => throw
  end.

Definition handler : Query -> Backend -> list Call * Response :=
  endpoint schema body.

End Rankings.

(** ** [GET /api/search] *)

Module Search.

Import Sql.

Record Value : Type := {
  query : string;
  startDate : option Z;
  endDate : option Z;
  mediaType : string;
  minConfidence : Q;
  platform : option string;
  verified : option bool;
  limit : Z
}.

Definition schema (q : Query) : Validation Value :=
  query ← required "query" string_ q;
  startDate ← optional "startDate" date_iso q;
  endDate ← optional "endDate" (date_iso_min startDate) q;
  mediaType ← with_default "mediaType" (string_valid ["photo"; "video"; "all"]) "all" q;
  minConfidence ← with_default "minConfidence" (number_between 0 1) 0%Q q;
  platform ← optional "platform" string_ q;
  verified ← optional "verified" boolean q;
  limit ← with_default "limit" (integer_between 1 (Some 100)) 50 q;
  _ ← known_keys ["query"; "startDate"; "endDate"; "mediaType"; "minConfidence";
                   "platform"; "verified"; "limit"] q;
  mret {| query := query; startDate := startDate; endDate := endDate;
          mediaType := mediaType; minConfidence := minConfidence;
          platform := platform; verified := verified; limit := limit |}.

(** [`%${searchQuery}%`] *)
Definition searchPattern (searchQuery : string) : string :=
  "%" +:+ searchQuery +:+ "%".

(** The call before [ORDER BY ... LIMIT ?] is appended. *)
Definition search_where (v : Value) : Call :=
  let p := PStr (searchPattern (query v)) in
  and_verified (verified v)
    (and_platform (platform v)
       (and_media_type (mediaType v)
          (and_dates (startDate v) (endDate v)
             (select_where Columns [Text_like; Confidence_ge]
                [p; p; p; PNum (minConfidence v)])))).

Definition search_query (v : Value) : Call :=
  order_limit Confidence_desc_detected_desc Limit_param [PInt (limit v)]
    (search_where v).

(** The conjuncts of the statement, with their parameters. *)
Definition preds (v : Value) : list Pred :=
  let p := PStr (searchPattern (query v)) in
  (((([(Text_like, [p; p; p])] ++ [(Confidence_ge, [PNum (minConfidence v)])])
       ++ dates_preds (startDate v) (endDate v))
      ++ media_type_preds (mediaType v))
     ++ platform_preds (platform v))
    ++ verified_preds (verified v).

Definition body (v : Value) : Exec Body :=
  rows ← pool_execute (search_query v);
  match rows with
  | Rows rows => mret (Search_body rows (query v) (Z.of_nat (length rows)))
  | _ => throw
  end.

Definition handler : Query -> Backend -> list Call * Response :=
  endpoint schema body.

End Search.

(** ** [GET /api/alerts/check] *)

Module Alerts.

Import Sql Spike.

Record Value : Type := {
  minConfidence : Q;
  lastCheckTime : option Z;
  platforms : option string;
  verifiedOnly : option bool
}.

Definition schema (q : Query) : Validation Value :=
  minConfidence ← with_default "minConfidence" (number_between 0 1) (9 # 10)%Q q;
  lastCheckTime ← optional "lastCheckTime" date_iso q;
  platforms ← optional "platforms" string_ q;
  verifiedOnly ← optional "verifiedOnly" boolean q;
  _ ← known_keys ["minConfidence"; "lastCheckTime"; "platforms"; "verifiedOnly"] q;
  mret {| minConfidence := minConfidence; lastCheckTime := lastCheckTime;
          platforms := platforms; verifiedOnly := verifiedOnly |}.

(** [s.split(',')] *)
Fixpoint split_commas (s : string) : list string :=
  match s with
  | EmptyString => [EmptyString]
  | String c s' =>
      if Ascii.eqb c "," then EmptyString :: split_commas s'
      else
        match split_commas s' with
        | piece :: pieces => String c piece :: pieces
        | [] => [String c EmptyString]
        end
  end.

(** [if (lastCheckTime) { detected_date > ? } else { last 24 hours }] *)
Definition and_since (lastCheckTime : option Z) : Call -> Call :=
  match lastCheckTime with
  | Some t => and_where Detected_gt [PDate t]
  | None => and_where Detected_gt_24h_ago []
  end.

(** [if (platforms) { source_platform IN (?,...) }] *)
Definition and_platforms (platforms : option string) : Call -> Call :=
  match platforms with
  | Some s =>
      let platformList := split_commas s in
      when_ (nonempty s)
        (and_where (Source_platform_in (length platformList)) (map PStr platformList))
  | None => fun call => call
  end.

(** [if (verifiedOnly) { is_verified = 1 }] *)
Definition and_verified_only (verifiedOnly : option bool) : Call -> Call :=
  when_ (default false verifiedOnly) (and_where Is_verified_eq_1 []).

(** The call before [ORDER BY ... LIMIT 50] is appended. *)
Definition alerts_where (v : Value) : Call :=
  and_verified_only (verifiedOnly v)
    (and_platforms (platforms v)
       (and_since (lastCheckTime v)
          (select_where Columns [Confidence_ge] [PNum (minConfidence v)]))).

Definition alerts_query (v : Value) : Call :=
  order_limit Detected_desc_confidence_desc (Limit_const 50) [] (alerts_where v).

Definition daily_query : Call :=
  order_limit Date_desc Unlimited []
    (select_where Daily_counts [Detected_ge_7d_ago] []).

(** The conjuncts of the alert query, with their parameters. *)
Definition since_pred (lastCheckTime : option Z) : Pred :=
  match lastCheckTime with
  | Some t => (Detected_gt, [PDate t])
  | None => (Detected_gt_24h_ago, [])
  end.

Definition platforms_preds (platforms : option string) : list Pred :=
  match platforms with
  | Some s =>
      if nonempty s then
        [(Source_platform_in (length (split_commas s)), map PStr (split_commas s))]
      else []
  | None => []
  end.

Definition verified_only_preds (verifiedOnly : option bool) : list Pred :=
  if default false verifiedOnly then [(Is_verified_eq_1, [])] else [].

Definition alerts_preds (v : Value) : list Pred :=
  (([(Confidence_ge, [PNum (minConfidence v)])] ++ [since_pred (lastCheckTime v)])
     ++ platforms_preds (platforms v))
    ++ verified_only_preds (verifiedOnly v).

(** The rows of the daily-count query. *)
Definition daily_rows (db : Backend) : list DailyStat :=
  order_daily Date_desc
    (map daily_stat (group_by_day (matching db [(Detected_ge_7d_ago, [])]))).

(** [clock] is the instant [new Date()] reads when the response is built. *)
Definition body (clock : Z) (v : Value) : Exec Body :=
  alerts ← pool_execute (alerts_query v);
  dailyStats ← pool_execute daily_query;
  match alerts, dailyStats with
  | Rows alerts, Daily dailyStats =>
      let '(spikeDetected, spikeInfo) := detect_spike dailyStats in
      mret (Alerts_body alerts (Z.of_nat (length alerts)) spikeDetected spikeInfo clock)
  | _, _ => throw
  end.

Definition handler (clock : Z) : Query -> Backend -> list Call * Response :=
  endpoint schema (body clock).

End Alerts.

(** ** The other schemas that require both dates *)

Module DateRange.

(** [/api/stats], [/api/platforms] *)
Definition period_schema (q : Query) : Validation (Z * Z) :=
  startDate ← required "startDate" date_iso q;
  endDate ← required "endDate" (date_iso_min (Some startDate)) q;
  _ ← known_keys ["startDate"; "endDate"] q;
  mret (startDate, endDate).

(** [/api/export/stats], [/api/export/platforms] *)
Definition export_schema (q : Query) : Validation (Z * Z * string) :=
  startDate ← required "startDate" date_iso q;
  endDate ← required "endDate" (date_iso_min (Some startDate)) q;
  format ← with_default "format" (string_valid ["csv"; "json"]) "csv" q;
  _ ← known_keys ["startDate"; "endDate"; "format"] q;
  mret (startDate, endDate, format).

(** [/api/export/deepfakes] *)
Definition export_deepfakes_schema (q : Query) : Validation (Z * Z * string * string * Q) :=
  startDate ← required "startDate" date_iso q;
  endDate ← required "endDate" (date_iso_min (Some startDate)) q;
  format ← with_default "format" (string_valid ["csv"; "json"]) "csv" q;
  mediaType ← with_default "mediaType" (string_valid ["photo"; "video"; "all"]) "all" q;
  minConfidence ← with_default "minConfidence" (number_between 0 1) 0%Q q;
  _ ← known_keys ["startDate"; "endDate"; "format"; "mediaType"; "minConfidence"] q;
  mret (startDate, endDate, format, mediaType, minConfidence).

End DateRange.

(** ** [DatabaseService] of [database.js] *)

Module DatabaseService.

Import Sql.

(** The [filters] object; an absent property is [None]. *)
Record Filters : Type := {
  startDate : option Z;
  endDate : option Z;
  mediaType : option string;
  limit : option Z;
  offset : option Z;
  minConfidence : option Q;
  platform : option string;
  verified : option bool
}.

(** [if (minConfidence > 0) { ... AND confidence_score >= ? }] *)
Definition and_confidence (minConfidence : Q) : Call -> Call :=
  when_ (negb (Qle_bool minConfidence 0)) (and_where Confidence_ge [PNum minConfidence]).

(** The call before [ORDER BY ... LIMIT ? OFFSET ?] is appended. *)
Definition getDeepfakeMedia_where (filters : Filters) : Call :=
  let mediaType := default "all" (mediaType filters) in
  let minConfidence := default 0%Q (minConfidence filters) in
  and_verified (verified filters)
    (and_platform (platform filters)
       (and_media_type mediaType
          (and_confidence minConfidence
             (and_dates (startDate filters) (endDate filters)
                (select_where Columns [One_eq_one] []))))).

Definition getDeepfakeMedia_query (filters : Filters) : Call :=
  let limit := default 100 (limit filters) in
  let offset := default 0 (offset filters) in
  order_limit Detected_desc_confidence_desc Limit_offset_params [PInt limit; PInt offset]
    (getDeepfakeMedia_where filters).

(** The conjuncts of the statement, with their parameters. *)
Definition confidence_preds (minConfidence : Q) : list Pred :=
  if negb (Qle_bool minConfidence 0) then [(Confidence_ge, [PNum minConfidence])]
  else [].

Definition preds (filters : Filters) : list Pred :=
  ((((([(One_eq_one, [])] : list Pred)
        ++ dates_preds (startDate filters) (endDate filters))
       ++ confidence_preds (default 0%Q (minConfidence filters)))
      ++ media_type_preds (default "all" (mediaType filters)))
     ++ platform_preds (platform filters))
    ++ verified_preds (verified filters).

Definition getDeepfakeMedia (filters : Filters) : Exec (list Detection) :=
  rows ← pool_execute (getDeepfakeMedia_query filters);
  match rows with
  | Rows rows => mret rows
  | _ => throw
  end.

End DatabaseService.

(** ** [convertToCSV] *)

Module Csv.

Definition comma : ascii := ",".
Definition quote : ascii := "034".
Definition newline : ascii := "010".

(** A property value of a result row.  [Other] stands for a value that is
    not a text (a number, a boolean, a date) and carries what [String(value)]
    renders it as; an absent property is [undefined]. *)
Inductive JsValue : Type :=
| Null
| Str (s : string)
| Other (rendered : string).

Abbreviation Row := (gmap string JsValue).

(** [String(value)] *)
Definition to_String (v : JsValue) : string :=
  match v with
  | Null => "null"
  | Str s => s
  | Other rendered => rendered
  end.

(** [s.includes(c)] for a one-character [c] *)
Fixpoint includes (s : string) (c : ascii) : bool :=
  match s with
  | EmptyString => false
  | String d s' => Ascii.eqb d c || includes s' c
  end.

(** [s.replace] of every double quote by two *)
Fixpoint double_quotes (s : string) : string :=
  match s with
  | EmptyString => EmptyString
  | String c s' =>
      if Ascii.eqb c quote then String quote (String quote (double_quotes s'))
      else String c (double_quotes s')
  end.

Definition needs_quoting (s : string) : bool :=
  includes s comma || includes s quote || includes s newline.

(** The callback of [headers.map]: the text of one cell. *)
Definition csv_field (value : option JsValue) : string :=
  match value with
  | None | Some Null => EmptyString
  | Some v =>
      let stringValue := to_String v in
      if needs_quoting stringValue then
        String quote (double_quotes stringValue +:+ String quote EmptyString)
      else stringValue
  end.

(** [pieces.join(sep)] *)
Fixpoint join (sep : ascii) (pieces : list string) : string :=
  match pieces with
  | [] => EmptyString
  | [piece] => piece
  | piece :: rest => piece +:+ String sep (join sep rest)
  end.

(** [data] is [None] when the argument is [null] or [undefined]. *)
Definition convertToCSV (data : option (list Row)) (headers : list string) : string :=
  match data with
  | None | Some [] => EmptyString
  | Some rows =>
      let csvHeaders := join comma headers in
      let csvRows :=
        map (fun row => join comma (map (fun header => csv_field (row !! header)) headers))
          rows in
      join newline (csvHeaders :: csvRows)
  end.

(** *** A reader for the produced text

    The round trip is stated against a reader of comma-separated text in the
    usual convention: records end at a line feed, fields at a comma; a field
    that opens with a double quote runs to the closing double quote, a
    doubled double quote inside standing for one. *)

Inductive ReaderState : Type :=
| Field_start
| In_plain
| In_quoted
| After_quote.

Definition snoc (s : string) (c : ascii) : string :=
  s +:+ String c EmptyString.

Fixpoint read (st : ReaderState) (field : string) (record : list string)
  (records : list (list string)) (input : string) : list (list string) :=
  match input with
  | EmptyString => records ++ [record ++ [field]]
  | String c rest =>
      match st with
      | In_quoted =>
          if Ascii.eqb c quote then read After_quote field record records rest
          else read In_quoted (snoc field c) record records rest
      | After_quote =>
          if Ascii.eqb c quote then read In_quoted (snoc field quote) record records rest
          else if Ascii.eqb c comma then
            read Field_start EmptyString (record ++ [field]) records rest
          else if Ascii.eqb c newline then
            read Field_start EmptyString [] (records ++ [record ++ [field]]) rest
          else read In_plain (snoc field c) record records rest
      | Field_start =>
          if Ascii.eqb c quote then read In_quoted EmptyString record records rest
          else if Ascii.eqb c comma then
            read Field_start EmptyString (record ++ [field]) records rest
          else if Ascii.eqb c newline then
            read Field_start EmptyString [] (records ++ [record ++ [field]]) rest
          else read In_plain (snoc field c) record records rest
      | In_plain =>
          if Ascii.eqb c comma then
            read Field_start EmptyString (record ++ [field]) records rest
          else if Ascii.eqb c newline then
            read Field_start EmptyString [] (records ++ [record ++ [field]]) rest
          else read In_plain (snoc field c) record records rest
      end
  end.

(** The records of a text; the empty text holds none. *)
Definition parse_csv (text : string) : list (list string) :=
  match text with
  | EmptyString => []
  | _ => read Field_start EmptyString [] [] text
  end.

(** The text a cell stands for: nothing for [null] and [undefined]. *)
Definition cell_text (value : option JsValue) : string :=
  match value with
  | None | Some Null => EmptyString
  | Some v => to_String v
  end.

(** A text as it is written in a cell. *)
Definition csv_text (s : string) : string :=
  if needs_quoting s then String quote (double_quotes s +:+ String quote EmptyString)
  else s.

(** What follows a field: the end of the text, a comma or a line feed. *)
Definition at_boundary (rest : string) : bool :=
  match rest with
  | EmptyString => true
  | String c _ => Ascii.eqb c comma || Ascii.eqb c newline
  end.

(** What follows a record: the end of the text or a line feed. *)
Definition at_record_end (rest : string) : bool :=
  match rest with
  | EmptyString => true
  | String c _ => Ascii.eqb c newline
  end.

(** The reader's move at a boundary, once [field] is complete. *)
Definition close_field (field : string) (record : list string)
  (records : list (list string)) (rest : string) : list (list string) :=
  match rest with
  | EmptyString => records ++ [record ++ [field]]
  | String c rest' =>
      if Ascii.eqb c comma then
        read Field_start EmptyString (record ++ [field]) records rest'
      else read Field_start EmptyString [] (records ++ [record ++ [field]]) rest'
  end.

(** The reader's move at the end of a record, once [record] is complete. *)
Definition close_record (record : list string) (records : list (list string))
  (rest : string) : list (list string) :=
  match rest with
  | EmptyString => records ++ [record]
  | String _ rest' => read Field_start EmptyString [] (records ++ [record]) rest'
  end.

(** The line of a record. *)
Definition csv_line (cells : list string) : string :=
  join comma (map csv_text cells).

(** A header needs no quoting. *)
Definition plain (header : string) : bool := negb (needs_quoting header).

(** The texts of the cells of a row. *)
Definition row_texts (headers : list string) (row : Row) : list string :=
  map (fun header => cell_text (row !! header)) headers.

End Csv.

(** ** The specification's notions, in its own terms

    These definitions follow the wording of the specification, not the code;
    Part II compares the code with them. *)

Module Reference.

Import Sql Spike.

(** The arithmetic mean of the counts of some days. *)
Definition total_count (stats : list DailyStat) : Z :=
  fold_right (fun stat acc => count stat + acc) 0 stats.

Definition mean_count (stats : list DailyStat) : Q :=
  (inject_Z (total_count stats) / inject_Z (Z.of_nat (length stats)))%Q.

(** A day of the window with a given count. *)
Definition day_with (day count : Z) : DailyStat :=
  {| date := day; count := count; avg_confidence := None |}.

(** Today at 300 after six days at 100. *)
Definition week_300_after_100s : list DailyStat :=
  [day_with 6 300; day_with 5 100; day_with 4 100; day_with 3 100;
   day_with 2 100; day_with 1 100; day_with 0 100].

(** Dates are inclusive bounds on the detected date. *)
Definition in_range (startDate endDate : Z) (d : Detection) : bool :=
  match detected_date d with
  | Some t => (startDate <=? t) && (t <=? endDate)
  | None => false
  end.

(** The confidence floor: [confidenceScore >= minConfidence]. *)
Definition confident (minConfidence : Q) (d : Detection) : bool :=
  match confidence_score d with
  | Some c => Qle_bool minConfidence (score_value c)
  | None => false
  end.

(** [all] means no type predicate. *)
Definition of_type (mediaType : string) (d : Detection) : bool :=
  String.eqb mediaType "all" || String.eqb (media_type_name (media_type d)) mediaType.

(** Optional exact match on the platform. *)
Definition on_platform (platform : option string) (d : Detection) : bool :=
  match platform with
  | None => true
  | Some p =>
      match source_platform d with
      | Some p' => String.eqb p' p
      | None => false
      end
  end.

(** Optional exact match on the verification flag. *)
Definition verified_as (verified : option bool) (d : Detection) : bool :=
  match verified with
  | None => true
  | Some b =>
      match is_verified d with
      | Some b' => Bool.eqb b' b
      | None => false
      end
  end.

(** The filter of a list request. *)
Definition list_filter (v : Deepfakes.Value) (d : Detection) : bool :=
  in_range (Deepfakes.startDate v) (Deepfakes.endDate v) d
  && confident (Deepfakes.minConfidence v) d
  && of_type (Deepfakes.mediaType v) d
  && on_platform (Deepfakes.platform v) d
  && verified_as (Deepfakes.verified v) d.

(** The filters of a list request, handed to [DatabaseService]. *)
Definition filters_of (v : Deepfakes.Value) : DatabaseService.Filters :=
  {| DatabaseService.startDate := Some (Deepfakes.startDate v);
     DatabaseService.endDate := Some (Deepfakes.endDate v);
     DatabaseService.mediaType := Some (Deepfakes.mediaType v);
     DatabaseService.limit := Some (Deepfakes.limit v);
     DatabaseService.offset := Some (Deepfakes.offset v);
     DatabaseService.minConfidence := Some (Deepfakes.minConfidence v);
     DatabaseService.platform := Deepfakes.platform v;
     DatabaseService.verified := Deepfakes.verified v |}.

(** The record has a score, and it is not negative. *)
Definition scored (d : Detection) : bool :=
  match confidence_score d with
  | Some c => 0 <=? c
  | None => false
  end.

(** The filter of a rankings request. *)
Definition rankings_filter (v : Rankings.Value) (d : Detection) : bool :=
  in_range (Rankings.startDate v) (Rankings.endDate v) d
  && of_type (Rankings.mediaType v) d.

(** The keyword occurs in a text column. *)
Definition has_keyword (keyword : string) (column : option string) : bool :=
  match column with
  | Some text => like ("%" +:+ keyword +:+ "%") text
  | None => false
  end.

Definition mentions (keyword : string) (d : Detection) : bool :=
  has_keyword keyword (title d)
  || has_keyword keyword (description d)
  || has_keyword keyword (tags d).

(** The filter of a search request; the dates apply when both are given. *)
Definition search_filter (v : Search.Value) (d : Detection) : bool :=
  mentions (Search.query v) d
  && confident (Search.minConfidence v) d
  && match Search.startDate v, Search.endDate v with
     | Some s, Some e => in_range s e d
     | _, _ => true
     end
  && of_type (Search.mediaType v) d
  && on_platform (Search.platform v) d
  && verified_as (Search.verified v) d.

(** Order on nullable keys, [NULL] lowest. *)
Definition key_le (a b : option Z) : Prop :=
  match a, b with
  | None, _ => True
  | Some _, None => False
  | Some x, Some y => x <= y
  end.

Definition key_lt (a b : option Z) : Prop := key_le a b /\ a <> b.

(** Confidence descending, ties broken by detected date descending. *)
Definition ranks_before (a b : Detection) : Prop :=
  key_lt (confidence_score b) (confidence_score a)
  \/ (confidence_score a = confidence_score b
      /\ key_le (detected_date b) (detected_date a)).

(** The days on which the trailing seven-day window holds a detection. *)
Definition in_window (now : Z) (d : Detection) : option Z :=
  t ← detected_date d;
  if now - 7 * ms_per_day <=? t then Some (day_of t) else None.

Definition window_days (db : Backend) : list Z :=
  omap (in_window (now db)) (table db).

End Reference.

(** ** Sample data *)

Module Examples.

Definition detection (id : Z) (type : MediaType) (title : string) (score : option Z)
  (platform : option string) (detected : Z) (verified : option bool) : Detection :=
  {| id := id; media_type := type; media_url := "https://example.com/media";
     thumbnail_url := None; title := Some title; description := None;
     confidence_score := score; detection_method := None;
     source_platform := platform; upload_date := None;
     detected_date := Some detected; file_size_mb := None;
     duration_seconds := None; resolution := None; is_verified := verified;
     tags := None; metadata := None |}.

(** Four detections on days 10, 10, 11 and 12; the second has no score. *)
Definition rows : list Detection :=
  [detection 1 Photo "fake news" (Some 9500) (Some "weibo") (10 * ms_per_day) (Some true);
   detection 2 Video "other fake" None (Some "douyin") (10 * ms_per_day + 5) (Some false);
   detection 3 Photo "fake 3" (Some 9500) (Some "weibo") (11 * ms_per_day) None;
   detection 4 Photo "nothing" (Some 1000) None (12 * ms_per_day) (Some false)].

(** The server shortly after the start of day 12, and six days later, when
    only day 12 is left in the seven-day window. *)
Definition backend : Backend :=
  {| table := rows; now := 12 * ms_per_day + 100; available := true |}.

Definition later_backend : Backend :=
  {| table := rows; now := 18 * ms_per_day + 100; available := true |}.

Definition date_value (t : Z) : QueryValue :=
  {| as_string := Some "2024-01-15"; as_date := Some t; as_number := None;
     as_boolean := None |}.

Definition number_value (x : Q) : QueryValue :=
  {| as_string := Some "1"; as_date := None; as_number := Some x;
     as_boolean := None |}.

Definition text_value (s : string) : QueryValue :=
  {| as_string := Some s; as_date := None; as_number := None; as_boolean := None |}.

(** [?startDate=...&endDate=...] over days 0 to 20 *)
Definition period_query : Query :=
  <["startDate" := date_value 0]> (<["endDate" := date_value (20 * ms_per_day)]> ∅).

(** The same with the dates the wrong way round. *)
Definition reversed_query : Query :=
  <["startDate" := date_value (20 * ms_per_day)]> (<["endDate" := date_value 0]> ∅).

(** [?query=fake&limit=1] *)
Definition search_query : Query :=
  <["query" := text_value "fake"]> (<["limit" := number_value 1]> ∅).

(** An exported row whose title holds a comma. *)
Definition breaking_row : Csv.Row :=
  <["title" := Csv.Str "Breaking, fake"]> (<["id" := Csv.Other "1"]> ∅).

End Examples.

(** ** [DatabaseService.getTopDeepfakes] *)

Module TopDeepfakes.

Import Sql.

(** [mediaType = 'all'] and [limit = 10] are the defaults of absent
    arguments. *)
Definition getTopDeepfakes_query (startDate endDate : Z) (mediaType : option string)
  (limit : option Z) : Call :=
  let mediaType := default "all" mediaType in
  let limit := default 10 limit in
  order_limit Confidence_desc_detected_desc Limit_param [PInt limit]
    (and_media_type mediaType
       (select_where Columns [Detected_between] [PDate startDate; PDate endDate])).

(** [rows.map((row, index) => ({ ...row, rank: index + 1 }))] *)
Definition add_ranks (rows : list Detection) : list (Z * Detection) :=
  imap (fun index row => (Z.of_nat index + 1, row)) rows.

Definition getTopDeepfakes (startDate endDate : Z) (mediaType : option string)
  (limit : option Z) : Exec (list (Z * Detection)) :=
  rows ← pool_execute (getTopDeepfakes_query startDate endDate mediaType limit);
  match rows with
  | Rows rows => mret (add_ranks rows)
  | _ => throw
  end.

End TopDeepfakes.

(** ** Further notions used to state properties *)

Module Notions.

Import Sql.

(** Detected date descending, ties broken by confidence descending. *)
Definition newest_first (a b : Detection) : Prop :=
  Reference.key_lt (detected_date b) (detected_date a)
  \/ (detected_date a = detected_date b
      /\ Reference.key_le (confidence_score b) (confidence_score a)).

(** A keyword none of whose characters [LIKE] reads specially. *)
Fixpoint literal (keyword : string) : bool :=
  match keyword with
  | EmptyString => true
  | String c rest =>
      negb (Ascii.eqb c "%") && negb (Ascii.eqb c "_") && negb (Ascii.eqb c "\")
      && literal rest
  end.

(** [keyword] occurs in [text]. *)
Definition occurs_in (keyword text : string) : Prop :=
  exists before after, text = before +:+ keyword +:+ after.

(** [keyword] occurs in a text column of the record. *)
Definition occurs_in_record (keyword : string) (d : Detection) : Prop :=
  exists text,
    (title d = Some text \/ description d = Some text \/ tags d = Some text)
    /\ occurs_in keyword text.

(** A list request for another page of the same filters. *)
Definition page_of (v : Deepfakes.Value) (limit offset : Z) : Deepfakes.Value :=
  {| Deepfakes.startDate := Deepfakes.startDate v;
     Deepfakes.endDate := Deepfakes.endDate v;
     Deepfakes.mediaType := Deepfakes.mediaType v;
     Deepfakes.limit := limit;
     Deepfakes.offset := offset;
     Deepfakes.minConfidence := Deepfakes.minConfidence v;
     Deepfakes.platform := Deepfakes.platform v;
     Deepfakes.verified := Deepfakes.verified v |}.

End Notions.

(** ** Further sample data *)

Module MoreExamples.

(** The sample table behind a server that does not answer. *)
Definition down_backend : Backend :=
  {| table := Examples.rows; now := 12 * ms_per_day + 100; available := false |}.

(** The list request of the sample period, as validated. *)
Definition period_value : Deepfakes.Value :=
  {| Deepfakes.startDate := 0; Deepfakes.endDate := 20 * ms_per_day;
     Deepfakes.mediaType := "all"; Deepfakes.limit := 100;
     Deepfakes.offset := 0; Deepfakes.minConfidence := 0%Q;
     Deepfakes.platform := None; Deepfakes.verified := None |}.

(** [?startDate=...&endDate=...&limit=l&offset=o] over the sample period *)
Definition page_query (limit offset : Z) : Query :=
  <["limit" := Examples.number_value (inject_Z limit)]>
    (<["offset" := Examples.number_value (inject_Z offset)]> Examples.period_query).

End MoreExamples.

(** ** The alert monitor of the client ([useAlertMonitoring], [AlertConfig]) *)

Module AlertClient.

Import Spike.

Record AlertSettings : Type := {
  enabled : bool;
  minConfidence : number;       (* 0-100 *)
  checkInterval : number;       (* minutes *)
  platforms : list string;
  verifiedOnly : bool;
  enableSound : bool;
  enableBrowserNotifications : bool;
  spikeDetection : bool;
  spikeThreshold : number       (* percentage *)
}.

(** [if (alertSettings.platforms.length > 0)
       params.append('platforms', alertSettings.platforms.join(','))] *)
Definition platforms_param (settings : AlertSettings) : option string :=
  if (0 <? Z.of_nat (length (platforms settings))) then
    Some (Csv.join Csv.comma (platforms settings))
  else None.

End AlertClient.

(** ** Notifications of the client ([notificationUtils], [useAlertMonitoring]) *)

Module Notifications.

Inductive NotificationType : Type := High_confidence | Spike | Verified | Platform.

Inductive Priority : Type := Low | Medium | High | Critical.

(** [data] is the opaque payload, as text. *)
Record Notification : Type := {
  id : string;
  type : NotificationType;
  title : string;
  message : string;
  timestamp : string;
  data : option string;
  read : bool;
  priority : Priority
}.

(** The text [localStorage] holds under ['notifications'], by what
    [JSON.parse] makes of it: an array of notifications, which is what
    [storeNotification] writes; a value that is no array (an object, a
    number, a text, [true], [false], [null]); or nothing, since parsing
    throws.  An array holding values that are no notifications is not
    modelled. *)
Inductive Stored : Type :=
| Array (notifications : list Notification)
| Not_array
| Unparsable.

(** [None] is an absent item, or the empty text: both are falsy. *)
Definition Storage : Type := option Stored.

(** [storeNotification]: the new notification goes first and the array is
    cut to 100.  On a value that is no array [unshift] is no function, and
    on an unparsable text [JSON.parse] throws: the [catch] leaves the
    storage as it was.  [setItem] is taken to succeed. *)
Definition storeNotification (notification : Notification) (storage : Storage)
  : Storage :=
  match storage with
  | Some Unparsable => storage
  | Some Not_array => storage
  | Some (Array notifications) => Some (Array (take 100 (notification :: notifications)))
  | None => Some (Array (take 100 [notification]))
  end.

(** Storing several notifications, one after another. *)
Definition store_each (notifications : list Notification) (storage : Storage) : Storage :=
  fold_left (fun storage notification => storeNotification notification storage)
    notifications storage.

(** What [loadNotifications] returns: a list of notifications, or the parsed
    value that is no array. *)
Inductive Loaded : Type :=
| Listed (notifications : list Notification)
| Other_value.

(** [loadNotifications]: whatever the stored text parses to, and [[]] when
    there is none or parsing throws. *)
Definition loadNotifications (storage : Storage) : Loaded :=
  match storage with
  | Some (Array notifications) => Listed notifications
  | Some Not_array => Other_value
  | Some Unparsable | None => Listed []
  end.

(** The storage holds what the code itself writes: nothing, or an array. *)
Definition holds_array (storage : Storage) : bool :=
  match storage with
  | None | Some (Array _) => true
  | Some Not_array | Some Unparsable => false
  end.

(** The state of the hook: the [notifications] it shows and the storage. *)
Record State : Type := {
  notifications : Loaded;
  storage : Storage
}.

(** The effect run on mount: [setNotifications(loadNotifications())]. *)
Definition mount (storage : Storage) : State :=
  {| notifications := loadNotifications storage; storage := storage |}.

(** [{ ...notif, read: true }] *)
Definition mark (notif : Notification) : Notification :=
  {| id := id notif; type := type notif; title := title notif;
     message := message notif; timestamp := timestamp notif; data := data notif;
     read := true; priority := priority notif |}.

(** The callbacks of the hook as they act on the shown notifications and
    the storage, each updater run once; the browser notification, the sound
    and the in-app message of [addNotification] are left out.  On a state
    that is no list, [[notification, ...prev]] and [prev.map] throw or, for
    a text, leave a list that holds no notifications: [None], and the state
    is followed no further. *)
Definition addNotification (notification : Notification) (st : State) : option State :=
  match notifications st with
  | Listed prev =>
      Some {| notifications := Listed (notification :: prev);
              storage := storeNotification notification (storage st) |}
  | Other_value => None
  end.

Definition markAsRead (target : string) (st : State) : option State :=
  match notifications st with
  | Listed prev =>
      Some {| notifications :=
                Listed (map (fun notif =>
                               if String.eqb (id notif) target then mark notif else notif)
                          prev);
              storage := storage st |}
  | Other_value => None
  end.

Definition markAllAsRead (st : State) : option State :=
  match notifications st with
  | Listed prev => Some {| notifications := Listed (map mark prev); storage := storage st |}
  | Other_value => None
  end.

(** [setNotifications([]); localStorage.removeItem('notifications')] *)
Definition clearAll (st : State) : option State :=
  Some {| notifications := Listed []; storage := None |}.

(** The actions of a session, and their effect in order. *)
Inductive Action : Type :=
| Add (notification : Notification)
| Mark_as_read (target : string)
| Mark_all_as_read
| Clear_all.

Definition act (a : Action) (st : State) : option State :=
  match a with
  | Add notification => addNotification notification st
  | Mark_as_read target => markAsRead target st
  | Mark_all_as_read => markAllAsRead st
  | Clear_all => clearAll st
  end.

Fixpoint run (actions : list Action) (st : State) : option State :=
  match actions with
  | [] => Some st
  | a :: actions' => st' ← act a st; run actions' st'
  end.

Definition session (storage : Storage) (actions : list Action) : option State :=
  run actions (mount storage).

(** [shown] is [added] with, possibly, its read flag set. *)
Definition as_added (added shown : Notification) : Prop :=
  shown = added \/ shown = mark added.

End Notifications.

(** Sample notifications. *)

Module NotificationExamples.

Import Notifications.

Definition alert (id : string) : Notification :=
  {| id := id; type := High_confidence; title := "High-Confidence Deepfake Detected";
     message := "New video detected on X with 97.0% confidence";
     timestamp := "2025-01-03T10:00:00.000Z"; data := None; read := false;
     priority := Critical |}.

(** A storage at its cap: 100 notifications, the one named by character 1
    first and the one named by character 100 last. *)
Definition full_storage : Storage :=
  Some (Array (map (fun code => alert (String (ascii_of_nat code) EmptyString))
                 (seq 1 100))).

(** Two notifications arrive, one is read, and a third arrives. *)
Definition visit : list Action :=
  [Add (alert "alert-1"); Add (alert "alert-2"); Mark_as_read "alert-1";
   Add (alert "alert-3")].

End NotificationExamples.

(** ** Aggregated statements *)

Module Aggregates.

Import Sql.

Section Grouping.

Context {K : Type} `{EqDecision K}.

(** [GROUP BY key]: the groups in order of first occurrence, each with its
    rows in table order; [NULL] is a key like any other. *)
Fixpoint group_insert_by (k : K) (d : Detection) (groups : list (K * list Detection))
  : list (K * list Detection) :=
  match groups with
  | [] => [(k, [d])]
  | (k', g) :: groups' =>
      if bool_decide (k = k') then (k', g ++ [d]) :: groups'
      else (k', g) :: group_insert_by k d groups'
  end.

Definition group_by (key : Detection -> K) (rows : list Detection)
  : list (K * list Detection) :=
  fold_left (fun groups d => group_insert_by (key d) d groups) rows [].

End Grouping.

(** The rows a group holds: those whose key is the group's. *)
Definition keyed {K : Type} `{EqDecision K} (key : Detection -> K) (k : K)
  (d : Detection) : bool :=
  bool_decide (key d = k).

(** [COUNT( * )] *)
Definition count_all (g : list Detection) : Z := Z.of_nat (length g).

(** [COUNT(CASE WHEN p THEN 1 END)] *)
Definition count_case (p : Detection -> bool) (g : list Detection) : Z :=
  Z.of_nat (length (List.filter p g)).

(** [media_type = 'photo'], [media_type = 'video'], [is_verified = 1],
    [confidence_score >= 0.9] *)
Definition is_photo (d : Detection) : bool :=
  match media_type d with Photo => true | Video => false end.

Definition is_video (d : Detection) : bool :=
  match media_type d with Photo => false | Video => true end.

Definition verified (d : Detection) : bool :=
  match is_verified d with Some true => true | _ => false end.

Definition high_confidence (d : Detection) : bool :=
  match confidence_score d with Some c => 9000 <=? c | None => false end.

(** [MAX(confidence_score)] and [MIN(confidence_score)]: [NULL] scores are
    skipped, and the extreme of nothing is [NULL]. *)
Definition max_score (g : list Detection) : option Z :=
  match omap confidence_score g with
  | [] => None
  | c :: scores => Some (fold_right Z.max c scores)
  end.

Definition min_score (g : list Detection) : option Z :=
  match omap confidence_score g with
  | [] => None
  | c :: scores => Some (fold_right Z.min c scores)
  end.

(** [WHERE detected_date BETWEEN ? AND ?] bound to [[startDate, endDate]]. *)
Definition in_period (startDate endDate : Z) : list Pred :=
  [(Detected_between, [PDate startDate; PDate endDate])].

(** [SUM] of a column of the answer. *)
Definition sum_of {A : Type} (column : A -> Z) (rows : list A) : Z :=
  fold_right Z.add 0 (map column rows).

(** What a handler sends. *)
Inductive Reply (A : Type) : Type :=
| Json (body : A)
| Status_400 (error : ValidationError)
| Status_500.

Arguments Json {A} body.
Arguments Status_400 {A} error.
Arguments Status_500 {A}.

End Aggregates.

(** [/api/platforms] and [getPlatformStats] *)

Module PlatformStats.

Import Sql Aggregates.

Record PlatformStat : Type := {
  source_platform : option string;
  total_count : Z;
  photos_count : Z;
  videos_count : Z;
  avg_confidence : option Q;
  max_confidence : option Z;
  verified_count : Z
}.

Definition platform_stat (group : option string * list Detection) : PlatformStat :=
  {| source_platform := fst group;
     total_count := count_all (snd group);
     photos_count := count_case is_photo (snd group);
     videos_count := count_case is_video (snd group);
     avg_confidence := avg_score (snd group);
     max_confidence := max_score (snd group);
     verified_count := count_case verified (snd group) |}.

(** [GROUP BY source_platform ORDER BY total_count DESC] *)
Definition platform_rows (rows : list Detection) : list PlatformStat :=
  sort_by (fun a b => total_count b <=? total_count a)
    (map platform_stat (group_by Data.source_platform rows)).

(** The statement both the handler and the service send. *)
Definition platform_statistics (startDate endDate : Z) (db : Backend)
  : option (list PlatformStat) :=
  if available db then Some (platform_rows (matching db (in_period startDate endDate)))
  else None.

Definition getPlatformStats (startDate endDate : Z) (db : Backend)
  : option (list PlatformStat) :=
  platform_statistics startDate endDate db.

(** The body is [{ platforms, period: { startDate, endDate } }]. *)
Definition handler (q : Query) (db : Backend) : Reply (list PlatformStat * (Z * Z)) :=
  match DateRange.period_schema q with
  | Rejected error => Status_400 error
  | Valid (startDate, endDate) =>
      match platform_statistics startDate endDate db with
      | Some rows => Json (rows, (startDate, endDate))
      | None => Status_500
      end
  end.

End PlatformStats.

(** [getRealTimeStats], the [realtime_stats] of [/api/stats] *)

Module RealTimeStats.

Import Sql Aggregates.

Record RealTimeStat : Type := {
  date : option Z;
  photos_count : Z;
  videos_count : Z;
  avg_confidence : option Q;
  total_count : Z
}.

(** [DATE(detected_date)] *)
Definition day (d : Detection) : option Z := day_of <$> detected_date d.

Definition realtime_stat (group : option Z * list Detection) : RealTimeStat :=
  {| date := fst group;
     photos_count := count_case is_photo (snd group);
     videos_count := count_case is_video (snd group);
     avg_confidence := avg_score (snd group);
     total_count := count_all (snd group) |}.

(** Ascending order on a nullable column: [NULL] sorts before every value. *)
Definition asc_ge (a b : option Z) : bool :=
  match a, b with
  | None, _ => true
  | Some _, None => false
  | Some x, Some y => x <=? y
  end.

(** [GROUP BY DATE(detected_date) ORDER BY date ASC] *)
Definition realtime_rows (rows : list Detection) : list RealTimeStat :=
  sort_by (fun a b => asc_ge (date a) (date b))
    (map realtime_stat (group_by day rows)).

Definition getRealTimeStats (startDate endDate : Z) (db : Backend)
  : option (list RealTimeStat) :=
  if available db then Some (realtime_rows (matching db (in_period startDate endDate)))
  else None.

End RealTimeStats.

(** [getSummaryStats] *)

Module SummaryStats.

Import Sql Aggregates.

Record Summary : Type := {
  total_deepfakes : Z;
  total_photos : Z;
  total_videos : Z;
  avg_confidence : option Q;
  max_confidence : option Z;
  min_confidence : option Z;
  verified_count : Z;
  platforms_count : Z
}.

(** [COUNT(DISTINCT source_platform)]: [NULL] is not counted. *)
Definition count_distinct_platforms (rows : list Detection) : Z :=
  Z.of_nat (length (remove_dups (omap source_platform rows))).

(** A statement of aggregates without [GROUP BY] answers one row, which is
    [rows[0]]. *)
Definition summary (rows : list Detection) : Summary :=
  {| total_deepfakes := count_all rows;
     total_photos := count_case is_photo rows;
     total_videos := count_case is_video rows;
     avg_confidence := avg_score rows;
     max_confidence := max_score rows;
     min_confidence := min_score rows;
     verified_count := count_case verified rows;
     platforms_count := count_distinct_platforms rows |}.

Definition getSummaryStats (startDate endDate : Z) (db : Backend) : option Summary :=
  if available db then Some (summary (matching db (in_period startDate endDate)))
  else None.

End SummaryStats.

(** [/api/platforms/list] *)

Module PlatformNames.

Import Sql Aggregates.

(** [SELECT DISTINCT source_platform ... WHERE source_platform IS NOT NULL
    ORDER BY source_platform ASC] *)
Definition platform_names (table : list Detection) : list string :=
  sort_by String.leb (remove_dups (omap source_platform table)).

(** [rows.map(row => row.source_platform)] leaves the names as they are. *)
Definition handler (db : Backend) : Reply (list string) :=
  if available db then Json (platform_names (table db)) else Status_500.

End PlatformNames.

(** [/api/monitoring/recent] *)

Module Monitoring.

Import Sql Aggregates.

Record Summary : Type := {
  total_count : Z;
  photo_count : Z;
  video_count : Z;
  avg_confidence : option Q;
  max_confidence : option Z;
  high_confidence_count : Z
}.

Record PlatformCount : Type := {
  source_platform : option string;
  count : Z
}.

(** [period] holds the hours of the text [Last ${hours} hours]; [timestamp]
    is the instant [new Date()] reads. *)
Record Body : Type := {
  period : Z;
  summary : Summary;
  platforms : list PlatformCount;
  timestamp : Z
}.

Definition schema (q : Query) : Validation Z :=
  hours ← with_default "hours" (integer_between 1 (Some 168)) 24 q;
  _ ← known_keys ["hours"] q;
  mret hours.

(** [detected_date >= DATE_SUB(NOW(), INTERVAL ? HOUR)] bound to [[hours]]. *)
Definition recent (now hours : Z) (d : Detection) : bool :=
  match detected_date d with
  | Some t => now - hours * ms_per_hour <=? t
  | None => false
  end.

Definition recent_rows (hours : Z) (db : Backend) : list Detection :=
  List.filter (recent (now db) hours) (table db).

Definition recent_summary (rows : list Detection) : Summary :=
  {| total_count := count_all rows;
     photo_count := count_case is_photo rows;
     video_count := count_case is_video rows;
     avg_confidence := avg_score rows;
     max_confidence := max_score rows;
     high_confidence_count := count_case high_confidence rows |}.

Definition platform_count (group : option string * list Detection) : PlatformCount :=
  {| source_platform := fst group; count := count_all (snd group) |}.

(** [GROUP BY source_platform ORDER BY count DESC LIMIT 5] *)
Definition platform_breakdown (rows : list Detection) : list PlatformCount :=
  take 5 (sort_by (fun a b => count b <=? count a)
            (map platform_count (group_by Data.source_platform rows))).

Definition handler (clock : Z) (q : Query) (db : Backend) : Reply Body :=
  match schema q with
  | Rejected error => Status_400 error
  | Valid hours =>
      if available db then
        Json {| period := hours;
                summary := recent_summary (recent_rows hours db);
                platforms := platform_breakdown (recent_rows hours db);
                timestamp := clock |}
      else Status_500
  end.

End Monitoring.

(** Counting records of the table, and orders of an answer's rows. *)

Module Tally.

Definition tally (p : Detection -> bool) (table : list Detection) : Z :=
  Z.of_nat (length (List.filter p table)).

Definition both (p q : Detection -> bool) (d : Detection) : bool := p d && q d.

Definition platform_is (platform : option string) (d : Detection) : bool :=
  bool_decide (source_platform d = platform).

Definition detected_on (day : Z) (d : Detection) : bool :=
  bool_decide (day_of <$> detected_date d = Some day).

Definition scored_as (c : Z) (d : Detection) : bool :=
  bool_decide (confidence_score d = Some c).

Definition decreasing {A : Type} (column : A -> Z) (rows : list A) : Prop :=
  Sorted (fun a b => column b <= column a) rows.

Definition increasing (days : list Z) : Prop := Sorted Z.lt days.

(** Text in strictly ascending order of character codes. *)
Definition alphabetical (names : list string) : Prop :=
  Sorted (fun a b => String.leb a b = true /\ a <> b) names.

(** [highest] is the greatest score among the records and [average] is not
    above it; both are [NULL] when no record has a score. *)
Definition highest_score (records : list Detection) (highest : option Z)
  (average : option Q) : Prop :=
  match highest with
  | None => average = None /\ forall d, d ∈ records -> confidence_score d = None
  | Some hi =>
      (exists a, average = Some a /\ (a <= score_value hi)%Q)
      /\ (exists d, d ∈ records /\ confidence_score d = Some hi)
      /\ forall d c, d ∈ records -> confidence_score d = Some c -> c <= hi
  end.

Definition lowest_score (records : list Detection) (lowest : option Z)
  (average : option Q) : Prop :=
  match lowest with
  | None => average = None /\ forall d, d ∈ records -> confidence_score d = None
  | Some lo =>
      (exists a, average = Some a /\ (score_value lo <= a)%Q)
      /\ (exists d, d ∈ records /\ confidence_score d = Some lo)
      /\ forall d c, d ∈ records -> confidence_score d = Some c -> lo <= c
  end.

End Tally.

(** Rows of the answers over the sample table. *)

Module AggregateExamples.

Definition weibo : PlatformStats.PlatformStat :=
  PlatformStats.platform_stat
    (Some "weibo",
     [Examples.detection 1 Photo "fake news" (Some 9500) (Some "weibo")
        (10 * ms_per_day) (Some true);
      Examples.detection 3 Photo "fake 3" (Some 9500) (Some "weibo")
        (11 * ms_per_day) None]).

Definition platform_rows : list PlatformStats.PlatformStat :=
  PlatformStats.platform_rows Examples.rows.

End AggregateExamples.

(** Requests for the monitoring endpoint. *)

Module MonitoringExamples.

(** [?hours=48] and the request without parameters *)
Definition two_days : Query := <["hours" := Examples.number_value 48]> ∅.

Definition no_parameters : Query := ∅.

End MonitoringExamples.

(** Tables and requests for the alert check. *)

Module AlertExamples.

(** The sample table with two more verified detections, on a platform
    outside the watched ones and on a watched one. *)
Definition watched_backend : Backend :=
  {| table :=
       Examples.rows
       ++ [Examples.detection 5 Video "clip" (Some 9900) (Some "bilibili")
             (11 * ms_per_day + 7) (Some true);
           Examples.detection 6 Photo "forged" (Some 9700) (Some "douyin")
             (12 * ms_per_day) (Some true)];
     now := 12 * ms_per_day + 100;
     available := true |}.

Definition bool_value (b : bool) : QueryValue :=
  {| as_string := Some (if b then "true" else "false"); as_date := None;
     as_number := None; as_boolean := Some b |}.

(** [?minConfidence=0&lastCheckTime=...&platforms=weibo,douyin&verifiedOnly=true],
    the watermark at instant 0 *)
Definition watch_query : Query :=
  <["platforms" := Examples.text_value "weibo,douyin"]>
    (<["verifiedOnly" := bool_value true]>
       (<["lastCheckTime" := Examples.date_value 0]>
          (<["minConfidence" := Examples.number_value 0]> ∅))).

Definition watch_value : Alerts.Value :=
  {| Alerts.minConfidence := 0%Q; Alerts.lastCheckTime := Some 0;
     Alerts.platforms := Some "weibo,douyin"; Alerts.verifiedOnly := Some true |}.

(** The request without parameters, as validated. *)
Definition default_value : Alerts.Value :=
  {| Alerts.minConfidence := (9 # 10)%Q; Alerts.lastCheckTime := None;
     Alerts.platforms := None; Alerts.verifiedOnly := None |}.

(** Sixty detections in the last minute of day 12, each a millisecond after
    the one before. *)
Definition burst : list Detection :=
  map (fun i => Examples.detection (Z.of_nat i) Photo "burst" (Some 9500) (Some "weibo")
                  (12 * ms_per_day + Z.of_nat i) (Some true))
    (seq 1 60).

Definition busy_backend : Backend :=
  {| table := burst; now := 12 * ms_per_day + 100; available := true |}.


End AlertExamples.

(** * Part II: properties *)

Import Sql Spike.

(** ** Sorting *)

Section Sorting.

Context {A : Type} (ge : A -> A -> bool).

Let R (x y : A) : Prop := ge x y = true.

Lemma insert_by_Permutation (x : A) (l : list A) :
  insert_by ge x l ≡ₚ x :: l.
Proof.
  induction l as [|y l IH]; simpl; [done|].
  destruct (ge x y); [done|].
  rewrite IH. apply perm_swap.
Qed.

Lemma sort_by_Permutation (l : list A) : sort_by ge l ≡ₚ l.
Proof.
  induction l as [|x l IH]; simpl; [done|].
  rewrite insert_by_Permutation. by rewrite IH.
Qed.

Lemma length_sort_by (l : list A) : length (sort_by ge l) = length l.
Proof. by rewrite sort_by_Permutation. Qed.

Lemma elem_of_sort_by (x : A) (l : list A) : x ∈ sort_by ge l ↔ x ∈ l.
Proof. by rewrite sort_by_Permutation. Qed.

(** A list already in order is left as it is. *)
Lemma sort_by_sorted_id (l : list A) : Sorted R l -> sort_by ge l = l.
Proof.
  induction 1 as [|x l Hl IH Hhd]; simpl; [done|].
  rewrite IH. destruct Hhd as [|y l' Hxy]; simpl; [done|].
  unfold R in Hxy. by rewrite Hxy.
Qed.

Hypothesis ge_total : forall x y, ge x y = false -> ge y x = true.

Lemma insert_by_HdRel (a x : A) (l : list A) :
  R a x -> HdRel R a l -> HdRel R a (insert_by ge x l).
Proof.
  intros Hax Hal. destruct l as [|y l]; simpl; [by constructor|].
  destruct (ge x y); constructor; [done|]. by inversion Hal.
Qed.

Lemma insert_by_Sorted (x : A) (l : list A) :
  Sorted R l -> Sorted R (insert_by ge x l).
Proof.
  induction 1 as [|y l Hl IH Hhd]; simpl.
  - repeat constructor.
  - destruct (ge x y) eqn:Hxy.
    + constructor; [by constructor|]. by constructor.
    + constructor; [done|]. apply insert_by_HdRel; [|done].
      by apply ge_total.
Qed.

Lemma sort_by_Sorted (l : list A) : Sorted R (sort_by ge l).
Proof.
  induction l as [|x l IH]; simpl; [constructor|].
  by apply insert_by_Sorted.
Qed.

End Sorting.

Lemma StronglySorted_impl {A : Type} (R R' : A -> A -> Prop) (l : list A) :
  (forall a b, R a b -> R' a b) -> StronglySorted R l -> StronglySorted R' l.
Proof.
  intros Himpl. induction 1 as [|a l Hl IH Ha]; constructor; [done|].
  eapply Forall_impl; [exact Ha|]. intros. by apply Himpl.
Qed.

(** The descending order on nullable keys. *)

Lemma desc_ge_total (a b : option Z) : desc_ge a b = false -> desc_ge b a = true.
Proof. destruct a, b; simpl; try done. intros. lia. Qed.

Lemma desc_ge_trans (a b c : option Z) :
  desc_ge a b = true -> desc_ge b c = true -> desc_ge a c = true.
Proof. destruct a, b, c; simpl; try done. intros. lia. Qed.

Lemma desc_ge_refl (a : option Z) : desc_ge a a = true.
Proof. destruct a; simpl; [lia|done]. Qed.

Lemma lex_desc_ge_total {A : Type} (k1 k2 : A -> option Z) (a b : A) :
  lex_desc_ge k1 k2 a b = false -> lex_desc_ge k1 k2 b a = true.
Proof.
  unfold lex_desc_ge.
  destruct (desc_ge (k1 b) (k1 a)) eqn:E1, (desc_ge (k1 a) (k1 b)) eqn:E2;
    simpl; try done.
  apply desc_ge_total.
Qed.

Lemma lex_desc_ge_trans {A : Type} (k1 k2 : A -> option Z) (a b c : A) :
  lex_desc_ge k1 k2 a b = true -> lex_desc_ge k1 k2 b c = true ->
  lex_desc_ge k1 k2 a c = true.
Proof.
  unfold lex_desc_ge.
  destruct (k1 a) as [x|], (k1 b) as [y|], (k1 c) as [z|]; simpl;
    repeat match goal with
      | |- context [?u <=? ?w] => destruct (Z.leb_spec u w); simpl
      end;
    try done; try lia; apply desc_ge_trans.
Qed.

Lemma order_ge_total (o : OrderBy) (a b : Detection) :
  order_ge o a b = false -> order_ge o b a = true.
Proof. destruct o; simpl; try done; apply lex_desc_ge_total. Qed.

(** ** Binding parameters *)

Lemma bind_app_rest (cs : list Cond) (ps rest : list Param) (preds : list Pred)
  (r : list Param) :
  bind cs ps = Some (preds, r) -> bind cs (ps ++ rest) = Some (preds, r ++ rest).
Proof.
  revert ps preds. induction cs as [|c cs IH]; intros ps preds H; simpl in *.
  - by simplify_eq.
  - destruct (_ && _) eqn:Hc; [|done].
    apply andb_prop in Hc as [Hlen Hty]. apply Nat.eqb_eq in Hlen.
    assert (arity c <= length ps)%nat as Hle.
    { rewrite length_take in Hlen. lia. }
    rewrite take_app_le by done. rewrite drop_app_le by done.
    rewrite Hlen, Nat.eqb_refl, Hty. simpl.
    destruct (bind cs (drop (arity c) ps)) as [[preds' r']|] eqn:Hb; [|done].
    simplify_eq. by rewrite (IH _ _ Hb).
Qed.

Lemma bind_app (cs cs' : list Cond) (ps r : list Param) (preds : list Pred) :
  bind cs ps = Some (preds, r) ->
  bind (cs ++ cs') ps
  = '(preds', r') ← bind cs' r; Some (preds ++ preds', r').
Proof.
  revert ps preds. induction cs as [|c cs IH]; intros ps preds H; simpl in *.
  - simplify_eq. by destruct (bind cs' r) as [[??]|].
  - destruct (_ && _); [|done].
    destruct (bind cs (drop (arity c) ps)) as [[preds0 r0]|] eqn:Hb; [|done].
    simplify_eq. rewrite (IH _ _ Hb).
    by destruct (bind cs' r) as [[??]|].
Qed.

Lemma bind_one (c : Cond) (args : list Param) :
  length args = arity c -> well_typed c args = true ->
  bind [c] args = Some ([(c, args)], []).
Proof.
  intros Hlen Hty. simpl.
  rewrite take_ge by lia. rewrite drop_ge by lia.
  by rewrite Hlen, Nat.eqb_refl, Hty.
Qed.

Lemma bound_select_where (s : Select) (conds : list Cond) (params : list Param)
  (preds : list Pred) :
  bind conds params = Some (preds, []) -> bound (select_where s conds params) preds.
Proof. done. Qed.

Lemma bound_and_where (c : Cond) (args : list Param) (call : Call) (preds : list Pred) :
  length args = arity c -> well_typed c args = true ->
  bound call preds -> bound (and_where c args call) (preds ++ [(c, args)]).
Proof.
  unfold bound. intros Hlen Hty Hb. simpl.
  apply (bind_app_rest _ _ args) in Hb. simpl in Hb.
  rewrite (bind_app _ _ _ _ _ Hb). by rewrite bind_one.
Qed.

Lemma bound_order_limit (o : OrderBy) (l : Limit) (args : list Param) (call : Call)
  (preds : list Pred) :
  bound call preds ->
  bind (where_ (fst (order_limit o l args call))) (snd (order_limit o l args call))
  = Some (preds, args).
Proof. unfold bound. intros Hb. simpl. by apply (bind_app_rest _ _ args) in Hb. Qed.

(** A statement whose conjuncts are bound and whose limit parameters fit
    returns the result set of the selected rows. *)
Lemma execute_order_limit (db : Backend) (o : OrderBy) (l : Limit) (args : list Param)
  (call : Call) (preds : list Pred) (cap : option nat) (offset : nat) :
  available db = true -> bound call preds -> bind_limit l args = Some (cap, offset) ->
  execute db (fst (order_limit o l args call)) (snd (order_limit o l args call))
  = Some (result_set (select (fst call)) o cap offset (matching db preds)).
Proof.
  intros Hup Hb Hl. unfold execute. rewrite Hup.
  rewrite (bound_order_limit o l args _ _ Hb). simpl. by rewrite Hl.
Qed.

Lemma execute_bound (db : Backend) (call : Call) (preds : list Pred) :
  available db = true -> bound call preds ->
  limit_clause (fst call) = Unlimited ->
  execute db (fst call) (snd call)
  = Some (result_set (select (fst call)) (order_by (fst call)) None 0 (matching db preds)).
Proof.
  intros Hup Hb Hl. unfold execute. rewrite Hup, Hb. simpl. by rewrite Hl.
Qed.

(** ** Selection *)

Lemma selected_cons (now : Z) (p : Pred) (preds : list Pred) (d : Detection) :
  selected now (p :: preds) d = holds now p d && selected now preds d.
Proof.
  unfold selected, holds. simpl.
  by destruct (eval_pred now p d) as [[]|], (eval_where now preds d) as [[]|].
Qed.

Lemma selected_forallb (now : Z) (preds : list Pred) (d : Detection) :
  selected now preds d = forallb (fun p => holds now p d) preds.
Proof.
  induction preds as [|p preds IH]; [done|].
  rewrite selected_cons, IH. done.
Qed.

Lemma selected_app (now : Z) (preds preds' : list Pred) (d : Detection) :
  selected now (preds ++ preds') d = selected now preds d && selected now preds' d.
Proof. rewrite !selected_forallb. apply forallb_app. Qed.

Lemma selected_holds (now : Z) (preds : list Pred) (p : Pred) (d : Detection) :
  selected now preds d = true -> p ∈ preds -> holds now p d = true.
Proof.
  rewrite selected_forallb, forallb_forall. intros H Hin.
  apply H. by apply list_elem_of_In.
Qed.

Lemma elem_of_matching (db : Backend) (preds : list Pred) (d : Detection) :
  d ∈ matching db preds <-> d ∈ table db /\ selected (now db) preds d = true.
Proof. unfold matching. rewrite !list_elem_of_In. apply filter_In. Qed.

Lemma elem_of_paginate {A : Type} (cap : option nat) (offset : nat) (l : list A) (x : A) :
  x ∈ paginate cap offset l -> x ∈ l.
Proof.
  unfold paginate. destruct cap; intros H.
  - by apply subseteq_take, subseteq_drop in H.
  - by apply subseteq_drop in H.
Qed.

(** ** The spike evaluator *)

Import Reference.

Lemma of_Z_add (a b : Z) : (of_Z a + of_Z b)%js = of_Z (a + b).
Proof.
  unfold of_Z, JsNum.add, Qplus, inject_Z. simpl. by rewrite !Z.mul_1_r.
Qed.

Lemma sum_counts_from (stats : list DailyStat) (a : Z) :
  fold_left (fun sum stat => (sum + of_Z (count stat))%js) stats (of_Z a)
  = of_Z (a + total_count stats).
Proof.
  revert a. induction stats as [|s stats IH]; intros a; cbn [fold_left total_count fold_right].
  - by rewrite Z.add_0_r.
  - rewrite of_Z_add, IH. f_equal. fold (total_count stats). lia.
Qed.

Lemma sum_counts_total (stats : list DailyStat) :
  sum_counts stats = of_Z (total_count stats).
Proof. unfold sum_counts. by rewrite sum_counts_from. Qed.

Lemma is_zero_inject_Z (n : Z) : is_zero (inject_Z n) = (n =? 0).
Proof. done. Qed.


(** With at least one day of history the quotient is the mean. *)
Lemma average_is_mean (today : DailyStat) (history : list DailyStat) :
  (1 <= length history)%nat ->
  (sum_counts (drop 1 (today :: history))
   / of_Z (Z.of_nat (length (today :: history)) - 1))%js
  = Fin (mean_count history).
Proof.
  intros Hlen. simpl drop. rewrite sum_counts_total.
  replace (Z.of_nat (length (today :: history)) - 1)
    with (Z.of_nat (length history)) by (simpl length; lia).
  unfold JsNum.div, of_Z. rewrite is_zero_inject_Z.
  destruct (Z.eqb_spec (Z.of_nat (length history)) 0) as [H0|_]; [lia|done].
Qed.

(** The evaluator on a window with history, in terms of the mean. *)
Lemma detect_spike_history (today : DailyStat) (history : list DailyStat) :
  (1 <= length history)%nat ->
  detect_spike (today :: history)
  = let avg := Fin (mean_count history) in
    if (of_Z (count today) >? avg * Fin (3 # 2))%js then
      (true,
       Some {| todayCount := of_Z (count today);
               avgCount := round avg;
               percentIncrease :=
                 round (((of_Z (count today) - avg) / avg) * of_Z 100)%js |})
    else (false, None).
Proof.
  intros Hlen. unfold detect_spike.
  destruct (Z.ltb_spec 1 (Z.of_nat (length (today :: history)))) as [_|H];
    [|simpl length in H; lia].
  by rewrite (average_is_mean today history Hlen).
Qed.

(** Fewer than two days: no determination. *)
Lemma detect_spike_short (dailyStats : list DailyStat) :
  (length dailyStats < 2)%nat -> detect_spike dailyStats = (false, None).
Proof.
  intros Hlen. unfold detect_spike.
  destruct (Z.ltb_spec 1 (Z.of_nat (length dailyStats))); [lia|done].
Qed.


(** The block of the evaluator has no test of its own for an average of 0:
    on rows with a history of counts 0, which the daily-count query cannot
    return since each of its rows counts the detections of a day that has
    some, it would report a spike with an infinite [percentIncrease]. *)
Lemma evaluator_rests_on_the_query :
  let dailyStats := [day_with 1 5; day_with 0 0] in
  (mean_count (drop 1 dailyStats) == 0)%Q
  /\ detect_spike dailyStats
     = (true, Some {| todayCount := of_Z 5;
                      avgCount := of_Z 0;
                      percentIncrease := PosInf |}).
Proof. split; reflexivity. Qed.

(** ** Grouping by day *)

Lemma group_by_day_fold (rows : list Detection) :
  group_by_day rows = fold_left group_step rows [].
Proof. done. Qed.


Lemma elem_of_group_insert_keys (k day : Z) (d : Detection)
  (groups : list (Z * list Detection)) :
  k ∈ map fst (group_insert day d groups) <-> k = day \/ k ∈ map fst groups.
Proof.
  induction groups as [|[k' g] groups IH]; simpl.
  - rewrite list_elem_of_singleton, elem_of_nil. tauto.
  - destruct (Z.eqb_spec day k') as [->|Hne]; simpl.
    + rewrite elem_of_cons. tauto.
    + rewrite !elem_of_cons, IH. tauto.
Qed.

Lemma group_insert_NoDup (day : Z) (d : Detection) (groups : list (Z * list Detection)) :
  NoDup (map fst groups) -> NoDup (map fst (group_insert day d groups)).
Proof.
  induction groups as [|[k g] groups IH]; simpl; intros Hnd.
  - apply NoDup_singleton.
  - apply NoDup_cons in Hnd as [Hk Hnd].
    destruct (Z.eqb_spec day k) as [->|Hne]; simpl.
    + by apply NoDup_cons.
    + apply NoDup_cons. split; [|by apply IH].
      rewrite elem_of_group_insert_keys. intros [->|?]; done.
Qed.


Lemma group_fold_NoDup (rows : list Detection) (acc : list (Z * list Detection)) :
  NoDup (map fst acc) -> NoDup (map fst (fold_left group_step rows acc)).
Proof.
  revert acc. induction rows as [|d rows IH]; intros acc Hacc; simpl; [done|].
  apply IH. unfold group_step. destruct (detected_date d); [|done].
  by apply group_insert_NoDup.
Qed.

Lemma group_fold_keys (rows : list Detection) (acc : list (Z * list Detection)) (k : Z) :
  k ∈ map fst (fold_left group_step rows acc) ->
  k ∈ map fst acc
  \/ exists d t, d ∈ rows /\ detected_date d = Some t /\ k = day_of t.
Proof.
  revert acc. induction rows as [|d rows IH]; intros acc Hk; simpl in *; [by left|].
  apply IH in Hk as [Hk|(d' & t & Hd' & Ht & ->)].
  - unfold group_step in Hk. destruct (detected_date d) as [t|] eqn:Ht; [|by left].
    apply elem_of_group_insert_keys in Hk as [->|Hk]; [|by left].
    right. exists d, t. by rewrite elem_of_cons; auto.
  - right. exists d', t. rewrite elem_of_cons. auto.
Qed.


(** A row selected by the daily-count query lies in the window. *)
Lemma daily_window_row (db : Backend) (d : Detection) (t : Z) :
  d ∈ matching db [(Detected_ge_7d_ago, [])] -> detected_date d = Some t ->
  day_of t ∈ window_days db.
Proof.
  rewrite elem_of_matching. intros [Hin Hsel] Ht.
  unfold window_days. apply list_elem_of_omap. exists d. split; [done|].
  unfold in_window. rewrite Ht. simpl.
  rewrite selected_cons in Hsel. apply andb_prop in Hsel as [Hh _].
  unfold holds in Hh. simpl in Hh. rewrite Ht in Hh. simpl in Hh.
  by destruct (now db - 7 * ms_per_day <=? t).
Qed.

Lemma length_le_1_of_equal {A : Type} (l : list A) :
  NoDup l -> (forall a b, a ∈ l -> b ∈ l -> a = b) -> (length l <= 1)%nat.
Proof.
  intros Hnd Heq. destruct l as [|a [|b l]]; simpl; [lia|lia|].
  exfalso. apply NoDup_cons in Hnd as [Ha _]. apply Ha.
  rewrite (Heq a b); [left| |]; rewrite !elem_of_cons; auto.
Qed.

Lemma few_distinct_all_equal {A : Type} `{EqDecision A} (l : list A) :
  (length (remove_dups l) < 2)%nat -> forall a b, a ∈ l -> b ∈ l -> a = b.
Proof.
  intros Hlen a b Ha Hb.
  apply elem_of_remove_dups in Ha, Hb.
  destruct (remove_dups l) as [|x [|y l']]; simpl in Hlen.
  - by apply elem_of_nil in Ha.
  - apply list_elem_of_singleton in Ha, Hb. congruence.
  - lia.
Qed.

(** With fewer than two distinct days in the window, the daily-count query
    returns at most one row. *)
Lemma daily_rows_short (db : Backend) :
  (length (remove_dups (window_days db)) < 2)%nat ->
  (length (Alerts.daily_rows db) < 2)%nat.
Proof.
  intros Hfew. unfold Alerts.daily_rows, order_daily.
  rewrite length_sort_by, length_map.
  rewrite <- (length_map fst).
  apply Nat.lt_succ_r, length_le_1_of_equal.
  - rewrite group_by_day_fold. apply group_fold_NoDup. simpl. constructor.
  - intros a b Ha Hb.
    apply (few_distinct_all_equal _ Hfew).
    + rewrite group_by_day_fold in Ha.
      apply group_fold_keys in Ha as [Ha|(d & t & Hd & Ht & ->)];
        [by apply elem_of_nil in Ha|].
      by apply (daily_window_row db d t).
    + rewrite group_by_day_fold in Hb.
      apply group_fold_keys in Hb as [Hb|(d & t & Hd & Ht & ->)];
        [by apply elem_of_nil in Hb|].
      by apply (daily_window_row db d t).
Qed.

(** The daily-count query returns the most recent day first. *)
Lemma daily_rows_desc (db : Backend) :
  StronglySorted (fun a b => date b <= date a) (Alerts.daily_rows db).
Proof.
  unfold Alerts.daily_rows, order_daily.
  apply (StronglySorted_impl (fun a b => (date b <=? date a) = true)).
  { intros a b. apply Z.leb_le. }
  apply Sorted_StronglySorted.
  - intros a b c Hab Hbc. apply Z.leb_le in Hab, Hbc. apply Z.leb_le. lia.
  - apply sort_by_Sorted. intros a b Hab.
    apply Z.leb_gt in Hab. apply Z.leb_le. lia.
Qed.

(** C4.  On every window with at least one day of history besides its first
    day, the evaluator declares a spike exactly when the first day's count
    exceeds 1.5 times the arithmetic mean of the other days' counts, and it
    reports spike information exactly when it declares a spike; the first
    day of the rows the daily-count query returns is the most recent one;
    on today = 300 after six days at 100 the evaluator reports a spike with
    avgCount = 100 and percentIncrease = 200. *)
Theorem spike_iff_today_exceeds_mean (today : DailyStat) (history : list DailyStat) :
  (1 <= length history)%nat ->
  (fst (detect_spike (today :: history)) = true
   <-> (mean_count history * (3 # 2) < inject_Z (count today))%Q)
  /\ (fst (detect_spike (today :: history)) = false
      <-> snd (detect_spike (today :: history)) = None)
  /\ (forall db first others,
        Alerts.daily_rows db = first :: others ->
        Forall (fun stat => date stat <= date first) others)
  /\ detect_spike week_300_after_100s
     = (true, Some {| todayCount := of_Z 300;
                      avgCount := of_Z 100;
                      percentIncrease := of_Z 200 |}).
Proof.
  intros Hlen.
  assert (forall db first others,
             Alerts.daily_rows db = first :: others ->
             Forall (fun stat => date stat <= date first) others) as Hrecent.
  { intros db first others Heq. pose proof (daily_rows_desc db) as H.
    rewrite Heq in H. by apply StronglySorted_inv in H as [_ H]. }
  rewrite (detect_spike_history today history Hlen).
  cbv zeta. unfold JsNum.mul, JsNum.gt, of_Z.
  destruct (Qle_bool (inject_Z (count today)) (mean_count history * (3 # 2)))
    eqn:Hle; simpl.
  - apply Qle_bool_iff in Hle. repeat split; try done.
    intros Hlt. by apply Qlt_not_le in Hlt.
  - repeat split; try done.
    intros _. apply Qnot_le_lt. intros Hle'.
    apply Qle_bool_iff in Hle'. congruence.
Qed.

Lemma spike_iff_today_exceeds_mean_witness :
  (1 <= length [day_with 0 100])%nat
  /\ (fst (detect_spike [day_with 1 120; day_with 0 100]) = true
      <-> (mean_count [day_with 0 100] * (3 # 2) < inject_Z 120)%Q).
Proof.
  split; [simpl; lia|].
  apply (spike_iff_today_exceeds_mean (day_with 1 120) [day_with 0 100]).
  simpl; lia.
Defined.

(** ** Running the alert check *)

Lemma exec_bind_run {B : Type} (call : Call) (f : ResultSet -> Exec B) (db : Backend)
  (r : ResultSet) :
  execute db (fst call) (snd call) = Some r ->
  (pool_execute call ≫= f) db = let '(calls, b) := f r db in (call :: calls, b).
Proof.
  intros H. unfold mbind, exec_bind, pool_execute. by rewrite H.
Qed.

Lemma forallb_is_str (l : list string) : forallb is_str (map PStr l) = true.
Proof. by induction l. Qed.

Lemma alerts_where_bound (v : Alerts.Value) :
  bound (Alerts.alerts_where v) (Alerts.alerts_preds v).
Proof.
  unfold Alerts.alerts_where, Alerts.alerts_preds.
  assert (bound (Alerts.and_platforms (Alerts.platforms v)
       (Alerts.and_since (Alerts.lastCheckTime v)
          (select_where Columns [Confidence_ge] [PNum (Alerts.minConfidence v)])))
          (([(Confidence_ge, [PNum (Alerts.minConfidence v)])] ++ [Alerts.since_pred (Alerts.lastCheckTime v)])
     ++ Alerts.platforms_preds (Alerts.platforms v))) as H.
  { assert (bound (Alerts.and_since (Alerts.lastCheckTime v)
          (select_where Columns [Confidence_ge] [PNum (Alerts.minConfidence v)]))
          ([(Confidence_ge, [PNum (Alerts.minConfidence v)])] ++ [Alerts.since_pred (Alerts.lastCheckTime v)])) as H.
    { unfold Alerts.and_since, Alerts.since_pred.
      destruct (Alerts.lastCheckTime v); by apply bound_and_where. }
    unfold Alerts.and_platforms, Alerts.platforms_preds, when_.
    destruct (Alerts.platforms v) as [s|]; [|by rewrite app_nil_r].
    destruct (nonempty s); [|by rewrite app_nil_r].
    apply bound_and_where; [by rewrite length_map| |done].
    simpl. rewrite length_map, Nat.eqb_refl. apply forallb_is_str. }
  unfold Alerts.and_verified_only, Alerts.verified_only_preds, when_.
  destruct (default false (Alerts.verifiedOnly v)); [|by rewrite app_nil_r].
  by apply bound_and_where.
Qed.

Lemma select_alerts_where (v : Alerts.Value) :
  select (fst (Alerts.alerts_where v)) = Columns.
Proof.
  unfold Alerts.alerts_where, Alerts.and_verified_only, Alerts.and_platforms,
    Alerts.and_since, when_.
  by destruct (default false _), (Alerts.platforms v) as [s|],
    (Alerts.lastCheckTime v); try destruct (nonempty s).
Qed.

Lemma alerts_handler_runs (clock : Z) (q : Query) (v : Alerts.Value) (db : Backend) :
  Alerts.schema q = Valid v -> available db = true ->
  Alerts.handler clock q db
  = ([Alerts.alerts_query v; Alerts.daily_query],
     let alerts :=
       paginate (Some 50%nat) 0
         (order_rows Detected_desc_confidence_desc (matching db (Alerts.alerts_preds v))) in
     Ok (Alerts_body alerts (Z.of_nat (length alerts))
           (fst (detect_spike (Alerts.daily_rows db)))
           (snd (detect_spike (Alerts.daily_rows db))) clock)).
Proof.
  intros Hv Hup. unfold Alerts.handler, endpoint. rewrite Hv.
  unfold Alerts.body.
  erewrite exec_bind_run; cycle 1.
  { unfold Alerts.alerts_query. apply execute_order_limit; [done| |done].
    apply alerts_where_bound. }
  erewrite exec_bind_run; cycle 1.
  { unfold Alerts.daily_query. apply execute_order_limit; [done| |done]. done. }
  rewrite select_alerts_where. unfold Alerts.daily_rows.
  simpl. unfold matching at 2. simpl.
  by destruct (detect_spike _).
Qed.






(** C3.  On every valid alert check answered by the backend, the handler
    returns an alert list in which each detection is dated strictly after
    [lastCheckTime] when one was supplied, strictly after 24 hours before
    the server's present instant otherwise, and has a confidence score of
    at least [minConfidence]. *)
Theorem alerts_after_watermark
  (clock : Z) (q : Query) (v : Alerts.Value) (db : Backend) :
  Alerts.schema q = Valid v -> available db = true ->
  exists alerts spikeDetected spikeInfo,
    Alerts.handler clock q db
    = ([Alerts.alerts_query v; Alerts.daily_query],
       Ok (Alerts_body alerts (Z.of_nat (length alerts)) spikeDetected spikeInfo clock))
    /\ forall d, d ∈ alerts ->
         (exists t, detected_date d = Some t
                    /\ match Alerts.lastCheckTime v with
                       | Some T => T < t
                       | None => now db - 24 * ms_per_hour < t
                       end)
         /\ (exists c, confidence_score d = Some c
                       /\ (Alerts.minConfidence v <= score_value c)%Q).
Proof.
  intros Hv Hup. rewrite (alerts_handler_runs clock q v db Hv Hup). cbv zeta.
  eexists _, _, _. split; [reflexivity|].
  intros d Hd. apply elem_of_paginate in Hd.
  unfold order_rows in Hd. rewrite elem_of_sort_by in Hd.
  apply elem_of_matching in Hd as [_ Hsel]. split.
  - assert (holds (now db) (Alerts.since_pred (Alerts.lastCheckTime v)) d = true) as H.
    { apply (selected_holds _ _ _ _ Hsel). unfold Alerts.alerts_preds.
      rewrite !elem_of_app, !list_elem_of_singleton. auto. }
    unfold holds, Alerts.since_pred in H.
    destruct (Alerts.lastCheckTime v) as [T|]; simpl in H;
      destruct (detected_date d) as [t|]; simpl in H; try done;
      exists t; (split; [done|]).
    + destruct (Z.ltb_spec T t); [done|done].
    + destruct (Z.ltb_spec (now db - 24 * ms_per_hour) t); [done|done].
  - assert (holds (now db) (Confidence_ge, [PNum (Alerts.minConfidence v)]) d = true)
      as H.
    { apply (selected_holds _ _ _ _ Hsel). unfold Alerts.alerts_preds.
      rewrite !elem_of_app, !list_elem_of_singleton. auto. }
    unfold holds in H. simpl in H.
    destruct (confidence_score d) as [c|]; simpl in H; [|done].
    exists c. split; [done|]. apply Qle_bool_iff.
    by destruct (Qle_bool _ _).
Qed.

Lemma alerts_after_watermark_witness :
  exists alerts spikeDetected spikeInfo,
    Alerts.handler 0 (<["lastCheckTime" := Examples.date_value (10 * ms_per_day)]> ∅)
      Examples.backend
    = ([Alerts.alerts_query
          {| Alerts.minConfidence := (9 # 10)%Q;
             Alerts.lastCheckTime := Some (10 * ms_per_day);
             Alerts.platforms := None; Alerts.verifiedOnly := None |};
        Alerts.daily_query],
       Ok (Alerts_body alerts (Z.of_nat (length alerts)) spikeDetected spikeInfo 0))
    /\ forall d, d ∈ alerts ->
         (exists t, detected_date d = Some t /\ 10 * ms_per_day < t)
         /\ (exists c, confidence_score d = Some c /\ ((9 # 10) <= score_value c)%Q).
Proof.
  apply (alerts_after_watermark 0
           (<["lastCheckTime" := Examples.date_value (10 * ms_per_day)]> ∅)
           {| Alerts.minConfidence := (9 # 10)%Q;
              Alerts.lastCheckTime := Some (10 * ms_per_day);
              Alerts.platforms := None; Alerts.verifiedOnly := None |}
           Examples.backend); reflexivity.
Defined.

(** C5.  When the trailing window holds detections on fewer than two
    distinct days, a valid alert check answered by the backend is a normal
    response carrying the alerts and the check time, with [spikeDetected]
    false and no [spikeInfo]. *)
Theorem no_spike_below_two_days
  (clock : Z) (q : Query) (v : Alerts.Value) (db : Backend) :
  Alerts.schema q = Valid v -> available db = true ->
  (length (remove_dups (window_days db)) < 2)%nat ->
  exists alerts,
    Alerts.handler clock q db
    = ([Alerts.alerts_query v; Alerts.daily_query],
       Ok (Alerts_body alerts (Z.of_nat (length alerts)) false None clock)).
Proof.
  intros Hv Hup Hfew. rewrite (alerts_handler_runs clock q v db Hv Hup). cbv zeta.
  rewrite (detect_spike_short _ (daily_rows_short db Hfew)).
  by eexists.
Qed.

Lemma no_spike_below_two_days_witness :
  (length (remove_dups (window_days Examples.later_backend)) < 2)%nat
  /\ exists alerts,
       Alerts.handler 77 ∅ Examples.later_backend
       = ([Alerts.alerts_query
             {| Alerts.minConfidence := (9 # 10)%Q; Alerts.lastCheckTime := None;
                Alerts.platforms := None; Alerts.verifiedOnly := None |};
           Alerts.daily_query],
          Ok (Alerts_body alerts (Z.of_nat (length alerts)) false None 77)).
Proof.
  split; [vm_compute; lia|].
  apply (no_spike_below_two_days 77 ∅ _ Examples.later_backend);
    [reflexivity|reflexivity|vm_compute; lia].
Defined.

(** ** Validated values *)

Ltac valid_step H :=
  match type of H with
  | mbind _ ?m = Valid _ =>
      let E := fresh "E" in
      destruct m eqn:E; [cbn [mbind validation_bind] in H|discriminate H]
  end.

Lemma integer_between_lower (k : string) (lo : Z) (hi : option Z) (d : Z) (q : Query)
  (n : Z) :
  lo <= d -> with_default k (integer_between lo hi) d q = Valid n -> lo <= n.
Proof.
  unfold with_default, integer_between. intros Hd.
  destruct (q !! k) as [x|]; [|intros [= <-]; done].
  destruct (as_number x) as [y|]; [|done].
  destruct (is_integer y); simpl; [|done].
  destruct (Z.ltb_spec (Qnum (Qred y)) lo); [done|].
  destruct hi as [h|]; [destruct (h <? Qnum (Qred y))|];
    try done; by intros [= <-].
Qed.

Lemma number_between_lower (k : string) (lo hi d : Q) (q : Query) (x : Q) :
  (lo <= d)%Q -> with_default k (number_between lo hi) d q = Valid x -> (lo <= x)%Q.
Proof.
  unfold with_default, number_between. intros Hd.
  destruct (q !! k) as [y|]; [|intros [= <-]; done].
  destruct (as_number y) as [z|]; [|done].
  destruct (Qle_bool lo z) eqn:Hlo; simpl; [|done].
  destruct (Qle_bool z hi); simpl; [|done].
  intros [= <-]. by apply Qle_bool_iff.
Qed.

Lemma optional_string_nonempty (k : string) (q : Query) (s : string) :
  optional k string_ q = Valid (Some s) -> nonempty s = true.
Proof.
  unfold optional, string_.
  destruct (q !! k) as [x|]; [|done].
  destruct (as_string x) as [y|]; [|done].
  destruct (nonempty y) eqn:Hy; simpl; [|done]. by intros [= <-].
Qed.

Lemma optional_string_truthy (k : string) (q : Query) (p : option string) :
  optional k string_ q = Valid p -> truthy p = bool_decide (is_Some p).
Proof.
  destruct p as [s|]; [|done]. intros H. simpl.
  by rewrite (optional_string_nonempty k q s H).
Qed.

(** ** The conjuncts the shared steps bind *)

Lemma bound_and_media_type (mediaType : string) (call : Call) (preds : list Pred) :
  bound call preds ->
  bound (and_media_type mediaType call) (preds ++ media_type_preds mediaType).
Proof.
  unfold and_media_type, media_type_preds, when_. intros Hb.
  destruct (negb _); [by apply bound_and_where|by rewrite app_nil_r].
Qed.

Lemma bound_and_platform (platform : option string) (call : Call) (preds : list Pred) :
  bound call preds ->
  bound (and_platform platform call) (preds ++ platform_preds platform).
Proof.
  unfold and_platform, platform_preds, when_. intros Hb.
  destruct (truthy _); [by apply bound_and_where|by rewrite app_nil_r].
Qed.

Lemma bound_and_verified (verified : option bool) (call : Call) (preds : list Pred) :
  bound call preds ->
  bound (and_verified verified call) (preds ++ verified_preds verified).
Proof.
  unfold and_verified, verified_preds. intros Hb.
  destruct verified; [by apply bound_and_where|by rewrite app_nil_r].
Qed.

Lemma bound_and_dates (startDate endDate : option Z) (call : Call) (preds : list Pred) :
  bound call preds ->
  bound (and_dates startDate endDate call) (preds ++ dates_preds startDate endDate).
Proof.
  unfold and_dates, dates_preds. intros Hb.
  destruct startDate, endDate; try by rewrite app_nil_r.
  by apply bound_and_where.
Qed.

Lemma select_and_media_type (mediaType : string) (call : Call) :
  select (fst (and_media_type mediaType call)) = select (fst call).
Proof. unfold and_media_type, when_. by destruct (negb _). Qed.

Lemma select_and_platform (platform : option string) (call : Call) :
  select (fst (and_platform platform call)) = select (fst call).
Proof. unfold and_platform, when_. by destruct (truthy _). Qed.

Lemma select_and_verified (verified : option bool) (call : Call) :
  select (fst (and_verified verified call)) = select (fst call).
Proof. unfold and_verified. by destruct verified. Qed.

Lemma select_and_dates (startDate endDate : option Z) (call : Call) :
  select (fst (and_dates startDate endDate call)) = select (fst call).
Proof. unfold and_dates. by destruct startDate, endDate. Qed.

Lemma limit_and_media_type (mediaType : string) (call : Call) :
  limit_clause (fst (and_media_type mediaType call)) = limit_clause (fst call).
Proof. unfold and_media_type, when_. by destruct (negb _). Qed.

Lemma limit_and_platform (platform : option string) (call : Call) :
  limit_clause (fst (and_platform platform call)) = limit_clause (fst call).
Proof. unfold and_platform, when_. by destruct (truthy _). Qed.

Lemma limit_and_verified (verified : option bool) (call : Call) :
  limit_clause (fst (and_verified verified call)) = limit_clause (fst call).
Proof. unfold and_verified. by destruct verified. Qed.

Lemma order_and_media_type (mediaType : string) (call : Call) :
  order_by (fst (and_media_type mediaType call)) = order_by (fst call).
Proof. unfold and_media_type, when_. by destruct (negb _). Qed.

Lemma order_and_platform (platform : option string) (call : Call) :
  order_by (fst (and_platform platform call)) = order_by (fst call).
Proof. unfold and_platform, when_. by destruct (truthy _). Qed.

Lemma order_and_verified (verified : option bool) (call : Call) :
  order_by (fst (and_verified verified call)) = order_by (fst call).
Proof. unfold and_verified. by destruct verified. Qed.

(** ** What the conjuncts mean *)

Lemma selected_between (now s e : Z) (d : Detection) :
  selected now [(Detected_between, [PDate s; PDate e])] d = in_range s e d.
Proof.
  unfold selected, in_range. simpl.
  destruct (detected_date d); simpl; [|done].
  by destruct (_ && _).
Qed.

Lemma selected_confidence (now : Z) (m : Q) (d : Detection) :
  selected now [(Confidence_ge, [PNum m])] d = confident m d.
Proof.
  unfold selected, confident. simpl.
  destruct (confidence_score d); simpl; [|done].
  by destruct (Qle_bool _ _).
Qed.

Lemma selected_media_type (now : Z) (mediaType : string) (d : Detection) :
  selected now (media_type_preds mediaType) d = of_type mediaType d.
Proof.
  unfold selected, media_type_preds, of_type.
  destruct (String.eqb mediaType "all"); simpl; [done|].
  by destruct (String.eqb _ _).
Qed.

Lemma selected_platform (now : Z) (platform : option string) (d : Detection) :
  truthy platform = bool_decide (is_Some platform) ->
  selected now (platform_preds platform) d = on_platform platform d.
Proof.
  unfold selected, platform_preds, on_platform. intros ->.
  destruct platform as [p|]; simpl; [|done].
  destruct (source_platform d); simpl; [|done].
  by destruct (String.eqb _ _).
Qed.

Lemma selected_verified (now : Z) (verified : option bool) (d : Detection) :
  selected now (verified_preds verified) d = verified_as verified d.
Proof.
  unfold selected, verified_preds, verified_as.
  destruct verified as [b|]; simpl; [|done].
  destruct (is_verified d); simpl; [|done].
  by destruct (Bool.eqb _ _).
Qed.

(** ** [GET /api/deepfakes] *)

Lemma deepfakes_where_bound (s : Select) (v : Deepfakes.Value) :
  bound
    (and_verified (Deepfakes.verified v)
       (and_platform (Deepfakes.platform v)
          (and_media_type (Deepfakes.mediaType v)
             (select_where s [Detected_between; Confidence_ge]
                [PDate (Deepfakes.startDate v); PDate (Deepfakes.endDate v);
                 PNum (Deepfakes.minConfidence v)]))))
    (Deepfakes.preds v).
Proof.
  apply bound_and_verified, bound_and_platform, bound_and_media_type.
  by apply bound_select_where.
Qed.

Lemma deepfakes_valid (q : Query) (v : Deepfakes.Value) :
  Deepfakes.dateRangeSchema q = Valid v ->
  1 <= Deepfakes.limit v /\ 0 <= Deepfakes.offset v
  /\ (0 <= Deepfakes.minConfidence v)%Q
  /\ truthy (Deepfakes.platform v) = bool_decide (is_Some (Deepfakes.platform v)).
Proof.
  intros H. unfold Deepfakes.dateRangeSchema in H. repeat valid_step H.
  injection H as <-. simpl.
  split; [eapply integer_between_lower; [|exact E2]; lia|].
  split; [eapply integer_between_lower; [|exact E3]; lia|].
  split; [eapply number_between_lower; [|exact E4]; done|].
  by apply (optional_string_truthy _ _ _ E5).
Qed.

Lemma deepfakes_selected (now : Z) (v : Deepfakes.Value) (d : Detection) :
  truthy (Deepfakes.platform v) = bool_decide (is_Some (Deepfakes.platform v)) ->
  selected now (Deepfakes.preds v) d = list_filter v d.
Proof.
  intros Hp. unfold Deepfakes.preds, list_filter.
  rewrite !selected_app.
  change [(Detected_between, ?a); ?b] with ([(Detected_between, a)] ++ [b]).
  rewrite selected_app, selected_between, selected_confidence,
    selected_media_type, selected_platform, selected_verified by done.
  done.
Qed.

Lemma deepfakes_matching (db : Backend) (v : Deepfakes.Value) :
  truthy (Deepfakes.platform v) = bool_decide (is_Some (Deepfakes.platform v)) ->
  matching db (Deepfakes.preds v) = List.filter (list_filter v) (table db).
Proof.
  intros Hp. unfold matching. apply List.filter_ext.
  intros d. by apply deepfakes_selected.
Qed.

Lemma list_handler_runs (q : Query) (v : Deepfakes.Value) (db : Backend) :
  Deepfakes.dateRangeSchema q = Valid v -> available db = true ->
  let matches := List.filter (list_filter v) (table db) in
  let total := Z.of_nat (length matches) in
  Deepfakes.handler q db
  = ([Deepfakes.data_query v; Deepfakes.count_query v],
     Ok (Deepfakes_body
           (take (Z.to_nat (Deepfakes.limit v))
              (drop (Z.to_nat (Deepfakes.offset v))
                 (sort_by (order_ge Detected_desc_confidence_desc) matches)))
           {| total := total;
              limit := Deepfakes.limit v;
              offset := Deepfakes.offset v;
              hasMore := Deepfakes.offset v + Deepfakes.limit v <? total |})).
Proof.
  intros Hv Hup matches total.
  destruct (deepfakes_valid q v Hv) as (Hlimit & Hoffset & _ & Hplatform).
  unfold Deepfakes.handler, endpoint. rewrite Hv. unfold Deepfakes.body.
  erewrite exec_bind_run; cycle 1.
  { unfold Deepfakes.data_query.
    apply execute_order_limit; [done|apply deepfakes_where_bound|].
    simpl. destruct (Z.leb_spec 0 (Deepfakes.limit v)); [|lia].
    destruct (Z.leb_spec 0 (Deepfakes.offset v)); [|lia]. done. }
  erewrite exec_bind_run; cycle 1.
  { apply execute_bound; [done|apply deepfakes_where_bound|].
    unfold Deepfakes.count_query.
    by rewrite limit_and_verified, limit_and_platform, limit_and_media_type. }
  unfold Deepfakes.count_query.
  rewrite !select_and_verified, !select_and_platform, !select_and_media_type.
  rewrite (deepfakes_matching db v Hplatform).
  done.
Qed.

(** C2.  On every valid list request answered by the backend, the data
    statement and the count statement bind the same conjuncts to the same
    parameters, and these select exactly the records the request's filters
    describe; the response holds the requested page of those records in
    order, [total] is the number of records matching the filters with no
    limit or offset, and [hasMore] is [offset + limit < total]. *)
Theorem list_total_counts_matches (q : Query) (v : Deepfakes.Value) (db : Backend) :
  Deepfakes.dateRangeSchema q = Valid v -> available db = true ->
  let matches := List.filter (list_filter v) (table db) in
  let total := Z.of_nat (length matches) in
  (exists preds,
      bind (where_ (fst (Deepfakes.data_query v))) (snd (Deepfakes.data_query v))
      = Some (preds, [PInt (Deepfakes.limit v); PInt (Deepfakes.offset v)])
      /\ bind (where_ (fst (Deepfakes.count_query v))) (snd (Deepfakes.count_query v))
         = Some (preds, [])
      /\ forall d, selected (now db) preds d = list_filter v d)
  /\ Deepfakes.handler q db
     = ([Deepfakes.data_query v; Deepfakes.count_query v],
        Ok (Deepfakes_body
              (take (Z.to_nat (Deepfakes.limit v))
                 (drop (Z.to_nat (Deepfakes.offset v))
                    (sort_by (order_ge Detected_desc_confidence_desc) matches)))
              {| total := total;
                 limit := Deepfakes.limit v;
                 offset := Deepfakes.offset v;
                 hasMore := Deepfakes.offset v + Deepfakes.limit v <? total |})).
Proof.
  intros Hv Hup matches total.
  destruct (deepfakes_valid q v Hv) as (Hlimit & Hoffset & _ & Hplatform).
  split.
  - exists (Deepfakes.preds v). split; [|split].
    + apply bound_order_limit, deepfakes_where_bound.
    + apply deepfakes_where_bound.
    + intros d. by apply deepfakes_selected.
  - by apply list_handler_runs.
Qed.

Lemma list_total_counts_matches_witness :
  let v := {| Deepfakes.startDate := 0; Deepfakes.endDate := 20 * ms_per_day;
              Deepfakes.mediaType := "all"; Deepfakes.limit := 100;
              Deepfakes.offset := 0; Deepfakes.minConfidence := 0%Q;
              Deepfakes.platform := None; Deepfakes.verified := None |} in
  Deepfakes.dateRangeSchema Examples.period_query = Valid v
  /\ available Examples.backend = true
  /\ exists data,
       Deepfakes.handler Examples.period_query Examples.backend
       = ([Deepfakes.data_query v; Deepfakes.count_query v],
          Ok (Deepfakes_body data
                {| total := 3; limit := 100; offset := 0; hasMore := false |})).
Proof.
  intros v. split; [reflexivity|]. split; [reflexivity|].
  destruct (list_total_counts_matches Examples.period_query v Examples.backend
              eq_refl eq_refl) as [_ H].
  rewrite H. by eexists.
Defined.

(** ** [GET /api/search] *)

Lemma search_where_bound (v : Search.Value) :
  bound (Search.search_where v) (Search.preds v).
Proof.
  unfold Search.search_where, Search.preds. cbv zeta.
  apply bound_and_verified, bound_and_platform, bound_and_media_type,
    bound_and_dates.
  by apply bound_select_where.
Qed.

Lemma select_search_where (v : Search.Value) :
  select (fst (Search.search_where v)) = Columns.
Proof.
  unfold Search.search_where. cbv zeta.
  by rewrite select_and_verified, select_and_platform, select_and_media_type,
    select_and_dates.
Qed.

Lemma search_valid (q : Query) (v : Search.Value) :
  Search.schema q = Valid v ->
  1 <= Search.limit v
  /\ truthy (Search.platform v) = bool_decide (is_Some (Search.platform v)).
Proof.
  intros H. unfold Search.schema in H. repeat valid_step H.
  injection H as <-. simpl.
  split; [eapply integer_between_lower; [|exact E6]; lia|].
  by apply (optional_string_truthy _ _ _ E4).
Qed.

#[local] Arguments like : simpl never.

Lemma selected_text_like (now : Z) (keyword : string) (d : Detection) :
  let p := PStr (Search.searchPattern keyword) in
  selected now [(Text_like, [p; p; p])] d = mentions keyword d.
Proof.
  unfold selected, mentions, has_keyword, Search.searchPattern. simpl.
  destruct (title d) as [t|], (description d) as [e|], (tags d) as [g|]; simpl;
    repeat match goal with |- context [like ?p ?x] => destruct (like p x) end;
    done.
Qed.

Lemma selected_dates (now : Z) (s e : option Z) (d : Detection) :
  selected now (dates_preds s e) d
  = match s, e with
    | Some s, Some e => in_range s e d
    | _, _ => true
    end.
Proof. destruct s, e; try done. apply selected_between. Qed.

Lemma search_selected (now : Z) (v : Search.Value) (d : Detection) :
  truthy (Search.platform v) = bool_decide (is_Some (Search.platform v)) ->
  selected now (Search.preds v) d = search_filter v d.
Proof.
  intros Hp. unfold Search.preds, search_filter. cbv zeta.
  rewrite !selected_app.
  rewrite selected_text_like, selected_confidence, selected_dates,
    selected_media_type, selected_platform, selected_verified by done.
  done.
Qed.

(** C6, as stated, fails: with two records matching the keyword and
    [limit = 1], the response's [total] is 1. *)
Lemma search_total_is_capped :
  let v := {| Search.query := "fake"; Search.startDate := None;
              Search.endDate := None; Search.mediaType := "all";
              Search.minConfidence := 0%Q; Search.platform := None;
              Search.verified := None; Search.limit := 1 |} in
  Search.schema Examples.search_query = Valid v
  /\ length (List.filter (search_filter v) (table Examples.backend)) = 2%nat
  /\ exists result,
       Search.handler Examples.search_query Examples.backend
       = ([Search.search_query v], Ok (Search_body [result] "fake" 1)).
Proof.
  intros v. split; [reflexivity|]. split; [reflexivity|].
  eexists. reflexivity.
Qed.

(** C6, amended.  On every valid search request answered by the backend,
    [results] is the first [limit] records, in order, of those matching the
    full filter (keyword, confidence floor, dates when both are given,
    media type, platform, verification), and [total] is the number of
    records in [results]: the smaller of [limit] and the number of matching
    records. *)
Theorem search_total_is_page_size (q : Query) (v : Search.Value) (db : Backend) :
  Search.schema q = Valid v -> available db = true ->
  let matches := List.filter (search_filter v) (table db) in
  let results :=
    take (Z.to_nat (Search.limit v))
      (sort_by (order_ge Confidence_desc_detected_desc) matches) in
  Search.handler q db
  = ([Search.search_query v],
     Ok (Search_body results (Search.query v) (Z.of_nat (length results))))
  /\ Z.of_nat (length results)
     = Z.min (Search.limit v) (Z.of_nat (length matches)).
Proof.
  intros Hv Hup matches results.
  destruct (search_valid q v Hv) as [Hlimit Hplatform].
  split.
  - unfold Search.handler, endpoint. rewrite Hv. unfold Search.body.
    erewrite exec_bind_run; cycle 1.
    { unfold Search.search_query.
      apply execute_order_limit; [done|apply search_where_bound|].
      simpl. by destruct (Z.leb_spec 0 (Search.limit v)); [|lia]. }
    rewrite select_search_where. unfold matching.
    rewrite (List.filter_ext _ _ (fun d => search_selected (now db) v d Hplatform)).
    done.
  - unfold results. rewrite length_take, length_sort_by. lia.
Qed.

Lemma search_total_is_page_size_witness :
  let v := {| Search.query := "fake"; Search.startDate := None;
              Search.endDate := None; Search.mediaType := "all";
              Search.minConfidence := 0%Q; Search.platform := None;
              Search.verified := None; Search.limit := 1 |} in
  Search.schema Examples.search_query = Valid v
  /\ available Examples.backend = true
  /\ exists results,
       Search.handler Examples.search_query Examples.backend
       = ([Search.search_query v],
          Ok (Search_body results "fake" (Z.of_nat (length results))))
       /\ Z.of_nat (length results) = 1.
Proof.
  intros v. split; [reflexivity|]. split; [reflexivity|].
  destruct (search_total_is_page_size Examples.search_query v Examples.backend
              eq_refl eq_refl) as [H1 H2].
  eexists. split; [exact H1|exact H2].
Defined.

(** ** [GET /api/rankings] *)

Lemma desc_ge_key_le (a b : option Z) : desc_ge a b = true <-> key_le b a.
Proof.
  destruct a as [x|], b as [y|]; simpl; try done.
  apply Z.leb_le.
Qed.

(** The comparator of [ORDER BY confidence_score DESC, detected_date DESC]
    is the ranking order. *)
Lemma ranking_order_ge (a b : Detection) :
  order_ge Confidence_desc_detected_desc a b = true <-> ranks_before a b.
Proof.
  unfold order_ge, lex_desc_ge, ranks_before, key_lt.
  destruct (desc_ge (confidence_score b) (confidence_score a)) eqn:E1; simpl.
  - destruct (desc_ge (confidence_score a) (confidence_score b)) eqn:E2; simpl.
    + rewrite desc_ge_key_le.
      apply desc_ge_key_le in E1, E2.
      assert (confidence_score a = confidence_score b) as Heq.
      { destruct (confidence_score a), (confidence_score b); simpl in *;
          try done. f_equal. lia. }
      split; [by right|]. intros [[_ Hne]|[_ H]]; [congruence|done].
    + split; [done|]. intros [[Hle _]|[Heq _]].
      * apply desc_ge_key_le in Hle. congruence.
      * rewrite Heq, desc_ge_refl in E2. done.
  - split; [|done]. intros _. left.
    apply desc_ge_total in E1 as E2. apply desc_ge_key_le in E2.
    split; [done|]. intros Heq. rewrite Heq, desc_ge_refl in E1. done.
Qed.

Lemma sort_by_ranking_order (rows : list Detection) :
  StronglySorted ranks_before (sort_by (order_ge Confidence_desc_detected_desc) rows).
Proof.
  apply (StronglySorted_impl
           (fun a b => order_ge Confidence_desc_detected_desc a b = true)).
  { intros a b. apply ranking_order_ge. }
  apply Sorted_StronglySorted.
  - intros a b c. apply lex_desc_ge_trans.
  - apply sort_by_Sorted. apply order_ge_total.
Qed.

Lemma map_snd_number_from (first : Z) (rows : list Detection) :
  map snd (number_from first rows) = rows.
Proof.
  revert first. induction rows as [|d rows IH]; intros first; simpl; [done|].
  by rewrite IH.
Qed.

Lemma lookup_number_from (first : Z) (rows : list Detection) (i : nat)
  (r : Z * Detection) :
  number_from first rows !! i = Some r -> fst r = first + Z.of_nat i.
Proof.
  revert first i. induction rows as [|d rows IH]; intros first i; simpl; [done|].
  destruct i as [|i]; simpl.
  - intros [= <-]. simpl. lia.
  - intros H. apply IH in H. lia.
Qed.

Lemma number_from_Sorted (R : Detection -> Detection -> Prop) (first : Z)
  (rows : list Detection) :
  Sorted R rows -> Sorted (fun a b => R (snd a) (snd b)) (number_from first rows).
Proof.
  intros H. revert first. induction H as [|d rows Hs IH Hhd]; intros first; simpl.
  - constructor.
  - constructor; [apply IH|].
    destruct Hhd; simpl; by constructor.
Qed.

(** The final [ORDER BY] leaves the numbered rows where the window put them. *)
Lemma order_ranked_row_number (rows : list Detection) :
  order_ranked Confidence_desc_detected_desc (row_number rows) = row_number rows.
Proof.
  unfold order_ranked, row_number.
  apply sort_by_sorted_id.
  apply (number_from_Sorted
           (fun a b => order_ge Confidence_desc_detected_desc a b = true)).
  apply sort_by_Sorted, order_ge_total.
Qed.

Lemma rankings_valid (q : Query) (v : Rankings.Value) :
  Rankings.schema q = Valid v -> 1 <= Rankings.limit v.
Proof.
  intros H. unfold Rankings.schema in H. repeat valid_step H.
  injection H as <-. simpl.
  eapply integer_between_lower; [|exact E2]; lia.
Qed.

Lemma rankings_where_bound (v : Rankings.Value) :
  bound
    (and_media_type (Rankings.mediaType v)
       (select_where Ranked_columns [Detected_between]
          [PDate (Rankings.startDate v); PDate (Rankings.endDate v)]))
    (Rankings.preds v).
Proof. apply bound_and_media_type. by apply bound_select_where. Qed.

Lemma rankings_selected (now : Z) (v : Rankings.Value) (d : Detection) :
  selected now (Rankings.preds v) d = rankings_filter v d.
Proof.
  unfold Rankings.preds, rankings_filter.
  by rewrite selected_app, selected_between, selected_media_type.
Qed.

(** C7.  On every valid rankings request answered by the backend, the
    returned rows are the first [limit] records of the period and media
    type in order of confidence descending, ties broken by detected date
    descending (an absent value ranking lowest), and row [i] of the
    response, counted from 0, carries rank [i + 1]. *)
Theorem rankings_ordered_and_numbered (q : Query) (v : Rankings.Value) (db : Backend) :
  Rankings.schema q = Valid v -> available db = true ->
  exists rankings,
    Rankings.handler q db
    = ([Rankings.query v],
       Ok (Rankings_body rankings (Rankings.startDate v, Rankings.endDate v)
             (Rankings.mediaType v)))
    /\ map snd rankings
       = take (Z.to_nat (Rankings.limit v))
           (sort_by (order_ge Confidence_desc_detected_desc)
              (List.filter (rankings_filter v) (table db)))
    /\ StronglySorted ranks_before (map snd rankings)
    /\ forall (i : nat) (r : Z * Detection),
         rankings !! i = Some r -> fst r = Z.of_nat i + 1.
Proof.
  intros Hv Hup. pose proof (rankings_valid q v Hv) as Hlimit.
  unfold Rankings.handler, endpoint. rewrite Hv. unfold Rankings.body.
  erewrite exec_bind_run; cycle 1.
  { unfold Rankings.query.
    apply execute_order_limit; [done|apply rankings_where_bound|].
    simpl. by destruct (Z.leb_spec 0 (Rankings.limit v)); [|lia]. }
  rewrite select_and_media_type. cbn [select select_where fst result_set].
  rewrite order_ranked_row_number. unfold paginate. rewrite drop_0.
  unfold matching.
  rewrite (List.filter_ext _ _ (rankings_selected (now db) v)).
  eexists. split; [reflexivity|]. split; [|split].
  - unfold row_number. by rewrite <- firstn_map, map_snd_number_from.
  - unfold row_number. rewrite <- firstn_map, map_snd_number_from.
    eapply StronglySorted_app_1_l. rewrite take_drop.
    apply sort_by_ranking_order.
  - intros i r Hr. apply lookup_take_Some in Hr as [Hr _].
    apply lookup_number_from in Hr. lia.
Qed.

Lemma rankings_ordered_and_numbered_witness :
  let v := {| Rankings.startDate := 0; Rankings.endDate := 20 * ms_per_day;
              Rankings.mediaType := "all"; Rankings.limit := 10 |} in
  Rankings.schema Examples.period_query = Valid v
  /\ available Examples.backend = true
  /\ exists rankings,
       Rankings.handler Examples.period_query Examples.backend
       = ([Rankings.query v],
          Ok (Rankings_body rankings (0, 20 * ms_per_day) "all"))
       /\ StronglySorted ranks_before (map snd rankings)
       /\ forall (i : nat) (r : Z * Detection),
            rankings !! i = Some r -> fst r = Z.of_nat i + 1.
Proof.
  intros v. split; [reflexivity|]. split; [reflexivity|].
  destruct (rankings_ordered_and_numbered Examples.period_query v Examples.backend
              eq_refl eq_refl) as (rankings & H1 & _ & H2 & H3).
  exists rankings. split; [exact H1|]. split; [exact H2|exact H3].
Defined.

(** ** Requests with the dates reversed *)

Lemma reversed_dates_fail (q : Query) (vs ve : QueryValue) (s e : Z) :
  q !! "startDate" = Some vs -> as_date vs = Some s ->
  q !! "endDate" = Some ve -> as_date ve = Some e ->
  e < s ->
  required "startDate" date_iso q = Valid s
  /\ required "endDate" (date_iso_min (Some s)) q
     = Rejected {| key := "endDate"; reason := Date_min |}.
Proof.
  intros Hs Hds He Hde Hlt.
  unfold required, date_iso_min, date_iso. rewrite Hs, He, Hds, Hde. simpl.
  split; [done|]. by destruct (Z.leb_spec s e); [lia|].
Qed.

(** C8.  A request whose [endDate] is a date earlier than its [startDate]
    is answered with a validation error on [endDate] and no statement is
    executed, whatever its other parameters and whatever the backend: by
    the list and rankings handlers, and by the handler frame under each of
    the other schemas that require both dates (statistics, platforms and
    the three exports), whatever the body behind the frame. *)
Theorem reversed_dates_rejected (q : Query) (vs ve : QueryValue) (s e : Z) :
  q !! "startDate" = Some vs -> as_date vs = Some s ->
  q !! "endDate" = Some ve -> as_date ve = Some e ->
  e < s ->
  let rejection := Bad_request {| key := "endDate"; reason := Date_min |} in
  (forall db, Deepfakes.handler q db = ([], rejection))
  /\ (forall db, Rankings.handler q db = ([], rejection))
  /\ (forall body db, endpoint DateRange.period_schema body q db = ([], rejection))
  /\ (forall body db, endpoint DateRange.export_schema body q db = ([], rejection))
  /\ (forall body db,
        endpoint DateRange.export_deepfakes_schema body q db = ([], rejection)).
Proof.
  intros Hs Hds He Hde Hlt rejection.
  destruct (reversed_dates_fail q vs ve s e Hs Hds He Hde Hlt) as [H1 H2].
  repeat split; intros;
    unfold Deepfakes.handler, Rankings.handler, endpoint,
      Deepfakes.dateRangeSchema, Rankings.schema, DateRange.period_schema,
      DateRange.export_schema, DateRange.export_deepfakes_schema;
    by rewrite H1; cbn [mbind validation_bind]; rewrite H2.
Qed.

Lemma reversed_dates_rejected_witness :
  0 < 20 * ms_per_day
  /\ forall db,
       Deepfakes.handler Examples.reversed_query db
       = ([], Bad_request {| key := "endDate"; reason := Date_min |}).
Proof.
  split; [reflexivity|].
  apply (reversed_dates_rejected Examples.reversed_query
           (Examples.date_value (20 * ms_per_day)) (Examples.date_value 0)
           (20 * ms_per_day) 0);
    reflexivity.
Defined.

(** ** [DatabaseService.getDeepfakeMedia] against [GET /api/deepfakes] *)

Lemma bound_and_confidence (m : Q) (call : Call) (preds : list Pred) :
  bound call preds ->
  bound (DatabaseService.and_confidence m call)
    (preds ++ DatabaseService.confidence_preds m).
Proof.
  unfold DatabaseService.and_confidence, DatabaseService.confidence_preds, when_.
  intros Hb. destruct (negb _); [by apply bound_and_where|by rewrite app_nil_r].
Qed.

Lemma select_and_confidence (m : Q) (call : Call) :
  select (fst (DatabaseService.and_confidence m call)) = select (fst call).
Proof. unfold DatabaseService.and_confidence, when_. by destruct (negb _). Qed.

Lemma getDeepfakeMedia_where_bound (filters : DatabaseService.Filters) :
  bound (DatabaseService.getDeepfakeMedia_where filters)
    (DatabaseService.preds filters).
Proof.
  unfold DatabaseService.getDeepfakeMedia_where, DatabaseService.preds. cbv zeta.
  apply bound_and_verified, bound_and_platform, bound_and_media_type,
    bound_and_confidence, bound_and_dates.
  by apply bound_select_where.
Qed.

Lemma select_getDeepfakeMedia_where (filters : DatabaseService.Filters) :
  select (fst (DatabaseService.getDeepfakeMedia_where filters)) = Columns.
Proof.
  unfold DatabaseService.getDeepfakeMedia_where. cbv zeta.
  by rewrite select_and_verified, select_and_platform, select_and_media_type,
    select_and_confidence, select_and_dates.
Qed.

(** With a positive floor the service binds the endpoint's conjuncts after
    its leading [1=1]. *)
Lemma service_preds_positive (v : Deepfakes.Value) :
  Qle_bool (Deepfakes.minConfidence v) 0 = false ->
  DatabaseService.preds (filters_of v) = (One_eq_one, []) :: Deepfakes.preds v.
Proof.
  intros Hm. unfold DatabaseService.preds, Deepfakes.preds, dates_preds,
    DatabaseService.confidence_preds. simpl. by rewrite Hm.
Qed.

(** With a floor of 0 it binds them without the confidence conjunct. *)
Lemma service_preds_zero (v : Deepfakes.Value) :
  Qle_bool (Deepfakes.minConfidence v) 0 = true ->
  DatabaseService.preds (filters_of v)
  = ((([(One_eq_one, []);
        (Detected_between, [PDate (Deepfakes.startDate v); PDate (Deepfakes.endDate v)])]
         ++ media_type_preds (Deepfakes.mediaType v))
        ++ platform_preds (Deepfakes.platform v))
       ++ verified_preds (Deepfakes.verified v)).
Proof.
  intros Hm. unfold DatabaseService.preds, dates_preds,
    DatabaseService.confidence_preds. simpl. by rewrite Hm.
Qed.

Lemma confident_of_scored (m : Q) (d : Detection) :
  Qle_bool m 0 = true -> scored d = true -> confident m d = true.
Proof.
  unfold scored, confident. intros Hm Hs.
  destruct (confidence_score d) as [c|]; [|done].
  apply Z.leb_le in Hs. apply Qle_bool_iff in Hm. apply Qle_bool_iff.
  eapply Qle_trans; [exact Hm|].
  unfold score_value, Qle. simpl. lia.
Qed.

Lemma service_selected (now : Z) (v : Deepfakes.Value) (d : Detection) :
  negb (Qle_bool (Deepfakes.minConfidence v) 0) || scored d = true ->
  selected now (DatabaseService.preds (filters_of v)) d
  = selected now (Deepfakes.preds v) d.
Proof.
  intros Hc. destruct (Qle_bool (Deepfakes.minConfidence v) 0) eqn:Hm.
  - simpl in Hc. rewrite (service_preds_zero v Hm). unfold Deepfakes.preds.
    rewrite !selected_app.
    change [(One_eq_one, ?a); ?b] with ([(One_eq_one, a)] ++ [b]).
    change [(Detected_between, ?a); ?b] with ([(Detected_between, a)] ++ [b]).
    rewrite !selected_app, selected_confidence.
    rewrite (confident_of_scored _ _ Hm Hc).
    by rewrite andb_true_r.
  - by rewrite (service_preds_positive v Hm), selected_cons.
Qed.

(** C10, as stated, fails: with the default floor of 0 the record without a
    score is returned by the service and not by the endpoint. *)
Lemma unscored_record_listed_by_service_only :
  let v := {| Deepfakes.startDate := 0; Deepfakes.endDate := 20 * ms_per_day;
              Deepfakes.mediaType := "all"; Deepfakes.limit := 100;
              Deepfakes.offset := 0; Deepfakes.minConfidence := 0%Q;
              Deepfakes.platform := None; Deepfakes.verified := None |} in
  Deepfakes.dateRangeSchema Examples.period_query = Valid v
  /\ (exists data pagination,
        Deepfakes.handler Examples.period_query Examples.backend
        = ([Deepfakes.data_query v; Deepfakes.count_query v],
           Ok (Deepfakes_body data pagination))
        /\ map id data = [4; 3; 1])
  /\ (exists rows,
        DatabaseService.getDeepfakeMedia (filters_of v) Examples.backend
        = ([DatabaseService.getDeepfakeMedia_query (filters_of v)], Some rows)
        /\ map id rows = [4; 3; 2; 1]
        /\ map confidence_score rows = [Some 1000; Some 9500; None; Some 9500]).
Proof.
  intros v. split; [reflexivity|]. split.
  - eexists _, _. split; reflexivity.
  - eexists. split; [reflexivity|]. split; reflexivity.
Qed.

(** C10, amended.  For a validated list request the endpoint and
    [DatabaseService.getDeepfakeMedia], given the same filters, return the
    same rows whenever [minConfidence] is positive or every record of the
    table has a score that is not negative.  (At [minConfidence = 0] the
    service leaves the confidence conjunct out.) *)
Theorem list_builders_agree (q : Query) (v : Deepfakes.Value) (db : Backend) :
  Deepfakes.dateRangeSchema q = Valid v -> available db = true ->
  negb (Qle_bool (Deepfakes.minConfidence v) 0) || forallb scored (table db) = true ->
  exists data pagination,
    Deepfakes.handler q db
    = ([Deepfakes.data_query v; Deepfakes.count_query v],
       Ok (Deepfakes_body data pagination))
    /\ DatabaseService.getDeepfakeMedia (filters_of v) db
       = ([DatabaseService.getDeepfakeMedia_query (filters_of v)], Some data)
    /\ (Qle_bool (Deepfakes.minConfidence v) 0 = false ->
        DatabaseService.preds (filters_of v) = (One_eq_one, []) :: Deepfakes.preds v).
Proof.
  intros Hv Hup Hc.
  destruct (deepfakes_valid q v Hv) as (Hlimit & Hoffset & _ & Hplatform).
  rewrite (list_handler_runs q v db Hv Hup).
  eexists _, _. split; [reflexivity|]. split; [|apply service_preds_positive].
  unfold DatabaseService.getDeepfakeMedia.
  erewrite exec_bind_run; cycle 1.
  { unfold DatabaseService.getDeepfakeMedia_query. cbv zeta.
    apply execute_order_limit; [done|apply getDeepfakeMedia_where_bound|].
    simpl. destruct (Z.leb_spec 0 (Deepfakes.limit v)); [|lia].
    destruct (Z.leb_spec 0 (Deepfakes.offset v)); [|lia]. done. }
  rewrite select_getDeepfakeMedia_where. simpl.
  do 5 f_equal. rewrite <- (deepfakes_matching db v Hplatform).
  unfold matching. apply List.filter_ext_in. intros d Hd.
  apply service_selected.
  apply orb_prop in Hc as [->|Hall]; [done|].
  rewrite forallb_forall in Hall. rewrite (Hall d Hd). apply orb_true_r.
Qed.

Lemma list_builders_agree_witness :
  let q := <["minConfidence" := Examples.number_value (1 # 2)]> Examples.period_query in
  let v := {| Deepfakes.startDate := 0; Deepfakes.endDate := 20 * ms_per_day;
              Deepfakes.mediaType := "all"; Deepfakes.limit := 100;
              Deepfakes.offset := 0; Deepfakes.minConfidence := (1 # 2)%Q;
              Deepfakes.platform := None; Deepfakes.verified := None |} in
  Deepfakes.dateRangeSchema q = Valid v
  /\ negb (Qle_bool (Deepfakes.minConfidence v) 0)
     || forallb scored (table Examples.backend) = true
  /\ exists data pagination,
       Deepfakes.handler q Examples.backend
       = ([Deepfakes.data_query v; Deepfakes.count_query v],
          Ok (Deepfakes_body data pagination))
       /\ DatabaseService.getDeepfakeMedia (filters_of v) Examples.backend
          = ([DatabaseService.getDeepfakeMedia_query (filters_of v)], Some data).
Proof.
  intros q v. split; [reflexivity|]. split; [reflexivity|].
  destruct (list_builders_agree q v Examples.backend eq_refl eq_refl eq_refl)
    as (data & pagination & H1 & H2 & _).
  exists data, pagination. split; [exact H1|exact H2].
Defined.

(** ** [convertToCSV] and its reader *)

Section CsvRoundTrip.

Import Csv.

Lemma append_nil_l (s : string) : EmptyString +:+ s = s.
Proof. done. Qed.

Lemma append_cons (c : ascii) (s t : string) : String c s +:+ t = String c (s +:+ t).
Proof. done. Qed.

Lemma append_nil_r (s : string) : s +:+ EmptyString = s.
Proof.
  induction s as [|c s IH]; [done|]. by rewrite append_cons, IH.
Qed.

Lemma append_assoc (a b c : string) : (a +:+ b) +:+ c = a +:+ (b +:+ c).
Proof.
  induction a as [|x a IH]; [done|]. by rewrite !append_cons, IH.
Qed.

Lemma snoc_append (f : string) (c : ascii) (s : string) :
  snoc f c +:+ s = f +:+ String c s.
Proof. unfold snoc. by rewrite append_assoc, append_cons, append_nil_l. Qed.

Lemma needs_quoting_cons (c : ascii) (s : string) :
  needs_quoting (String c s) = false ->
  Ascii.eqb c comma = false /\ Ascii.eqb c quote = false
  /\ Ascii.eqb c newline = false /\ needs_quoting s = false.
Proof.
  unfold needs_quoting. simpl. intros H.
  apply orb_false_elim in H as [H Hn]. apply orb_false_elim in H as [Hc Hq].
  apply orb_false_elim in Hn as [? ?]. apply orb_false_elim in Hc as [? ?].
  apply orb_false_elim in Hq as [? ?].
  repeat split; try done. by repeat (apply orb_false_intro).
Qed.

(** At a boundary the reader closes the field, in whichever state a
    complete field leaves it. *)
Lemma read_boundary (st : ReaderState) (field : string) (record : list string)
  (records : list (list string)) (rest : string) :
  st <> In_quoted -> at_boundary rest = true ->
  read st field record records rest = close_field field record records rest.
Proof.
  intros Hst Hb. destruct rest as [|c rest]; [by destruct st|].
  simpl in Hb. apply orb_prop in Hb as [Hc|Hn].
  - apply Ascii.eqb_eq in Hc as ->. by destruct st.
  - apply Ascii.eqb_eq in Hn as ->. by destruct st.
Qed.

Lemma read_plain (s : string) (field : string) (record : list string)
  (records : list (list string)) (rest : string) :
  needs_quoting s = false ->
  read In_plain field record records (s +:+ rest)
  = read In_plain (field +:+ s) record records rest.
Proof.
  revert field. induction s as [|c s IH]; intros field Hs.
  - by rewrite append_nil_r.
  - apply needs_quoting_cons in Hs as (Hc & _ & Hn & Hs).
    rewrite append_cons. simpl.
    rewrite Hc, Hn, (IH _ Hs). by rewrite snoc_append.
Qed.

Lemma read_quoted (s : string) (field : string) (record : list string)
  (records : list (list string)) (rest : string) :
  read In_quoted field record records (double_quotes s +:+ String quote rest)
  = read After_quote (field +:+ s) record records rest.
Proof.
  revert field. induction s as [|c s IH]; intros field.
  - rewrite append_nil_r. simpl double_quotes. rewrite append_nil_l.
    simpl. by rewrite ?Ascii.eqb_refl.
  - simpl double_quotes. destruct (Ascii.eqb c quote) eqn:Hq.
    + apply Ascii.eqb_eq in Hq as ->. rewrite !append_cons. simpl.
      rewrite ?Ascii.eqb_refl, IH. by rewrite snoc_append.
    + rewrite append_cons. simpl. rewrite Hq, IH. by rewrite snoc_append.
Qed.

(** Reading a cell gives back its text. *)
Lemma read_csv_text (s : string) (record : list string)
  (records : list (list string)) (rest : string) :
  at_boundary rest = true ->
  read Field_start EmptyString record records (csv_text s +:+ rest)
  = close_field s record records rest.
Proof.
  intros Hb. unfold csv_text. destruct (needs_quoting s) eqn:Hs.
  - rewrite append_cons, append_assoc, append_cons, append_nil_l. simpl.
    rewrite ?Ascii.eqb_refl, read_quoted, append_nil_l. by apply read_boundary.
  - destruct s as [|c s].
    + rewrite append_nil_l. by apply read_boundary.
    + apply needs_quoting_cons in Hs as (Hc & Hq & Hn & Hs).
      rewrite append_cons. simpl.
      rewrite Hq, Hc, Hn, (read_plain _ _ _ _ _ Hs).
      unfold snoc. rewrite append_nil_l, append_cons, append_nil_l.
      by apply read_boundary.
Qed.

Lemma at_record_end_boundary (rest : string) :
  at_record_end rest = true -> at_boundary rest = true.
Proof. destruct rest; simpl; [done|]. intros ->. apply orb_true_r. Qed.

Lemma close_field_record_end (field : string) (record : list string)
  (records : list (list string)) (rest : string) :
  at_record_end rest = true ->
  close_field field record records rest = close_record (record ++ [field]) records rest.
Proof.
  destruct rest as [|c rest]; simpl; [done|].
  intros Hn. apply Ascii.eqb_eq in Hn as ->. done.
Qed.

(** Reading a line gives back its cells. *)
Lemma read_csv_line (cells : list string) (record : list string)
  (records : list (list string)) (rest : string) :
  (1 <= length cells)%nat -> at_record_end rest = true ->
  read Field_start EmptyString record records (csv_line cells +:+ rest)
  = close_record (record ++ cells) records rest.
Proof.
  revert record. induction cells as [|c cells IH]; intros record Hlen Hr;
    [simpl in Hlen; lia|].
  destruct cells as [|c' cells].
  - unfold csv_line. simpl.
    rewrite read_csv_text by by apply at_record_end_boundary.
    by apply close_field_record_end.
  - unfold csv_line in *. change (map csv_text (c :: c' :: cells))
      with (csv_text c :: map csv_text (c' :: cells)).
    change (join comma (csv_text c :: map csv_text (c' :: cells)))
      with (csv_text c +:+ String comma (join comma (map csv_text (c' :: cells)))).
    rewrite append_assoc, append_cons.
    rewrite read_csv_text by done. simpl close_field.
    rewrite IH by (simpl; lia || done).
    by rewrite <- app_assoc.
Qed.

(** Reading the lines of a text gives back its records. *)
Lemma read_csv_lines (rows : list (list string)) (records : list (list string)) :
  (1 <= length rows)%nat -> Forall (fun cells => (1 <= length cells)%nat) rows ->
  read Field_start EmptyString [] records (join newline (map csv_line rows))
  = records ++ rows.
Proof.
  revert records. induction rows as [|r rows IH]; intros records Hlen Hrows;
    [simpl in Hlen; lia|].
  apply Forall_cons in Hrows as [Hr Hrows].
  destruct rows as [|r' rows].
  - simpl. rewrite <- (append_nil_r (csv_line r)).
    by rewrite read_csv_line.
  - change (join newline (map csv_line (r :: r' :: rows)))
      with (csv_line r +:+ String newline (join newline (map csv_line (r' :: rows)))).
    rewrite read_csv_line by done. simpl close_record.
    rewrite IH by (simpl; lia || done).
    by rewrite <- app_assoc.
Qed.

Lemma csv_field_text (value : option JsValue) :
  csv_field value = csv_text (cell_text value).
Proof. by destruct value as [[]|]. Qed.

Lemma csv_text_plain (headers : list string) :
  forallb plain headers = true -> map csv_text headers = headers.
Proof.
  induction headers as [|h headers IH]; simpl; [done|].
  intros H. apply andb_prop in H as [Hh H]. rewrite (IH H).
  unfold csv_text, plain in *. by destruct (needs_quoting h).
Qed.

(** The text [convertToCSV] produces, line by line. *)
Lemma convertToCSV_lines (rows : list Row) (headers : list string) :
  (1 <= length rows)%nat -> forallb plain headers = true ->
  convertToCSV (Some rows) headers
  = join newline (map csv_line (headers :: map (row_texts headers) rows)).
Proof.
  intros Hlen Hplain. destruct rows as [|row rows]; [simpl in Hlen; lia|].
  unfold convertToCSV. f_equal.
  change (map csv_line (headers :: ?l)) with (csv_line headers :: map csv_line l).
  f_equal.
  - unfold csv_line. by rewrite csv_text_plain.
  - rewrite map_map. apply map_ext. intros r.
    unfold csv_line, row_texts. rewrite map_map. f_equal.
    apply map_ext. intros h. apply csv_field_text.
Qed.

Lemma parse_csv_lines (line : string) (lines : list string) :
  (1 <= length lines)%nat ->
  parse_csv (join newline (line :: lines))
  = read Field_start EmptyString [] [] (join newline (line :: lines)).
Proof.
  intros Hlen. destruct lines as [|l lines]; [simpl in Hlen; lia|].
  change (join newline (line :: l :: lines))
    with (line +:+ String newline (join newline (l :: lines))).
  by destruct line.
Qed.

(** C9.  In every exported row a cell whose text holds a comma, a double
    quote or a line feed is written between double quotes with each double
    quote of the text doubled, and reading the produced text back gives the
    header row followed by the exact text of every cell of every row; the
    title "Breaking, fake" is written quoted and read back unchanged. *)
Theorem csv_round_trip (rows : list Row) (headers : list string) :
  (1 <= length rows)%nat -> (1 <= length headers)%nat ->
  forallb plain headers = true ->
  (forall (row : Row) (header s : string),
      row !! header = Some (Str s) -> needs_quoting s = true ->
      csv_field (row !! header)
      = String quote (double_quotes s +:+ String quote EmptyString))
  /\ parse_csv (convertToCSV (Some rows) headers)
     = headers :: map (row_texts headers) rows
  /\ csv_field (Some (Str "Breaking, fake"))
     = String quote ("Breaking, fake" +:+ String quote EmptyString)
  /\ parse_csv (convertToCSV (Some [Examples.breaking_row]) ["id"; "title"])
     = [["id"; "title"]; ["1"; "Breaking, fake"]].
Proof.
  intros Hrows Hheaders Hplain. split; [|split; [|split; reflexivity]].
  - intros row header s -> Hs. simpl. by rewrite Hs.
  - rewrite (convertToCSV_lines rows headers Hrows Hplain).
    change (map csv_line (headers :: ?l)) with (csv_line headers :: map csv_line l).
    rewrite parse_csv_lines by (by rewrite !length_map).
    change (csv_line headers :: map csv_line ?l) with (map csv_line (headers :: l)).
    rewrite read_csv_lines; [done|simpl; lia|].
    constructor; [done|]. apply Forall_forall. intros cells Hin.
    apply list_elem_of_fmap in Hin as (row & -> & _).
    unfold row_texts. by rewrite length_map.
Qed.

Lemma csv_round_trip_witness :
  (1 <= length [Examples.breaking_row])%nat
  /\ (1 <= length ["id"; "title"])%nat
  /\ forallb plain ["id"; "title"] = true
  /\ parse_csv (convertToCSV (Some [Examples.breaking_row]) ["id"; "title"])
     = ["id"; "title"] :: map (row_texts ["id"; "title"]) [Examples.breaking_row].
Proof.
  split; [simpl; lia|]. split; [simpl; lia|]. split; [reflexivity|].
  apply (csv_round_trip [Examples.breaking_row] ["id"; "title"]);
    [simpl; lia|simpl; lia|reflexivity].
Defined.

End CsvRoundTrip.

(** * Part III: further properties of the code *)

Import Notions.

(** ** Orderings *)

Lemma lex_desc_ge_spec {A : Type} (k1 k2 : A -> option Z) (a b : A) :
  lex_desc_ge k1 k2 a b = true
  <-> key_lt (k1 b) (k1 a) \/ (k1 a = k1 b /\ key_le (k2 b) (k2 a)).
Proof.
  unfold lex_desc_ge, key_lt.
  destruct (desc_ge (k1 b) (k1 a)) eqn:E1; simpl.
  - destruct (desc_ge (k1 a) (k1 b)) eqn:E2; simpl.
    + rewrite desc_ge_key_le. apply desc_ge_key_le in E1, E2.
      assert (k1 a = k1 b) as Heq.
      { destruct (k1 a), (k1 b); simpl in *; try done. f_equal. lia. }
      split; [by right|]. intros [[_ Hne]|[_ H]]; [congruence|done].
    + split; [done|]. intros [[Hle _]|[Heq _]].
      * apply desc_ge_key_le in Hle. congruence.
      * rewrite Heq, desc_ge_refl in E2. done.
  - split; [|done]. intros _. left.
    apply desc_ge_total in E1 as E2. apply desc_ge_key_le in E2.
    split; [done|]. intros Heq. rewrite Heq, desc_ge_refl in E1. done.
Qed.

Lemma sort_by_newest_first (rows : list Detection) :
  StronglySorted newest_first (sort_by (order_ge Detected_desc_confidence_desc) rows).
Proof.
  apply (StronglySorted_impl
           (fun a b => order_ge Detected_desc_confidence_desc a b = true)).
  { intros a b. apply lex_desc_ge_spec. }
  apply Sorted_StronglySorted.
  - intros a b c. apply lex_desc_ge_trans.
  - apply sort_by_Sorted. apply order_ge_total.
Qed.

Lemma StronglySorted_take {A : Type} (R : A -> A -> Prop) (n : nat) (l : list A) :
  StronglySorted R l -> StronglySorted R (take n l).
Proof.
  intros H. eapply StronglySorted_app_1_l. by rewrite take_drop.
Qed.

Lemma StronglySorted_drop {A : Type} (R : A -> A -> Prop) (n : nat) (l : list A) :
  StronglySorted R l -> StronglySorted R (drop n l).
Proof.
  intros H. rewrite <- (take_drop n l) in H.
  by apply StronglySorted_app in H as (_ & _ & H).
Qed.

(** ** The alert list *)

Lemma alerts_valid (q : Query) (v : Alerts.Value) :
  Alerts.schema q = Valid v ->
  forall s, Alerts.platforms v = Some s -> nonempty s = true.
Proof.
  intros H. unfold Alerts.schema in H. repeat valid_step H.
  injection H as <-. simpl. intros s ->.
  by apply (optional_string_nonempty _ _ _ E1).
Qed.

(** X1.  On every valid alert check answered by the backend: when
    [platforms] is given, each returned alert comes from one of its
    comma-separated platforms; when [verifiedOnly] is true, each returned
    alert is verified. *)
Theorem alerts_respect_platforms_and_verification
  (clock : Z) (q : Query) (v : Alerts.Value) (db : Backend) :
  Alerts.schema q = Valid v -> available db = true ->
  exists alerts spikeDetected spikeInfo,
    Alerts.handler clock q db
    = ([Alerts.alerts_query v; Alerts.daily_query],
       Ok (Alerts_body alerts (Z.of_nat (length alerts)) spikeDetected spikeInfo clock))
    /\ (forall s, Alerts.platforms v = Some s ->
        forall d, d ∈ alerts ->
          exists p, source_platform d = Some p /\ p ∈ Alerts.split_commas s)
    /\ (Alerts.verifiedOnly v = Some true ->
        forall d, d ∈ alerts -> is_verified d = Some true).
Proof.
  intros Hv Hup. rewrite (alerts_handler_runs clock q v db Hv Hup). cbv zeta.
  eexists _, _, _. split; [reflexivity|].
  assert (forall d,
             d ∈ paginate (Some 50%nat) 0
                   (order_rows Detected_desc_confidence_desc
                      (matching db (Alerts.alerts_preds v))) ->
             selected (now db) (Alerts.alerts_preds v) d = true) as Hsel.
  { intros d Hd. apply elem_of_paginate in Hd.
    unfold order_rows in Hd. rewrite elem_of_sort_by in Hd.
    by apply elem_of_matching in Hd as [_ Hd]. }
  split.
  - intros s Hs d Hd. specialize (Hsel d Hd).
    pose proof (alerts_valid q v Hv s Hs) as Hne.
    unfold Alerts.alerts_preds in Hsel. rewrite Hs in Hsel.
    unfold Alerts.platforms_preds in Hsel. rewrite Hne in Hsel.
    rewrite !selected_app in Hsel.
    apply andb_prop in Hsel as [Hsel _]. apply andb_prop in Hsel as [_ Hsel].
    unfold selected in Hsel. simpl in Hsel.
    destruct (source_platform d) as [p|]; simpl in Hsel; [|done].
    exists p. split; [done|].
    destruct (existsb _ _) eqn:Hex; simpl in Hsel; [|done].
    apply existsb_exists in Hex as (x & Hin & Heq).
    apply String.eqb_eq in Heq as <-.
    apply list_elem_of_In. apply in_map_iff in Hin as (y & Hy & Hin).
    apply in_map_iff in Hin as (z & <- & Hin). simpl in Hy. by subst.
  - intros Hvo d Hd. specialize (Hsel d Hd).
    unfold Alerts.alerts_preds in Hsel. rewrite Hvo in Hsel.
    rewrite !selected_app in Hsel. apply andb_prop in Hsel as [_ Hsel].
    unfold selected in Hsel. simpl in Hsel.
    by destruct (is_verified d) as [[]|].
Qed.

Lemma alerts_respect_platforms_and_verification_witness :
  Alerts.schema AlertExamples.watch_query = Valid AlertExamples.watch_value
  /\ available AlertExamples.watched_backend = true
  /\ exists alerts spikeDetected spikeInfo,
       Alerts.handler 0 AlertExamples.watch_query AlertExamples.watched_backend
       = ([Alerts.alerts_query AlertExamples.watch_value; Alerts.daily_query],
          Ok (Alerts_body alerts (Z.of_nat (length alerts)) spikeDetected spikeInfo 0))
       /\ map Data.id alerts = [6; 1]
       /\ (forall d, d ∈ alerts ->
             exists p, source_platform d = Some p
                       /\ p ∈ Alerts.split_commas "weibo,douyin")
       /\ (forall d, d ∈ alerts -> is_verified d = Some true).
Proof.
  assert (Alerts.schema AlertExamples.watch_query = Valid AlertExamples.watch_value)
    as Hv by (vm_compute; reflexivity).
  split; [exact Hv|]. split; [reflexivity|].
  destruct (alerts_respect_platforms_and_verification 0 AlertExamples.watch_query
              AlertExamples.watch_value AlertExamples.watched_backend Hv eq_refl)
    as (alerts & sd & si & Hrun & Hplatforms & Hverified).
  exists alerts, sd, si. split; [exact Hrun|].
  split; [|split; [exact (Hplatforms _ eq_refl)|exact (Hverified eq_refl)]].
  pose proof (f_equal snd Hrun) as Hbody. cbn [snd] in Hbody.
  vm_compute in Hbody. injection Hbody as Halerts _ _ _.
  rewrite <- Halerts. reflexivity.
Defined.

(** X2.  On every valid alert check answered by the backend, at most 50
    alerts are returned, [totalAlerts] is their number, and they are ordered
    by detected date descending, ties broken by confidence descending. *)
Theorem alerts_capped_and_newest_first
  (clock : Z) (q : Query) (v : Alerts.Value) (db : Backend) :
  Alerts.schema q = Valid v -> available db = true ->
  exists alerts totalAlerts spikeDetected spikeInfo,
    Alerts.handler clock q db
    = ([Alerts.alerts_query v; Alerts.daily_query],
       Ok (Alerts_body alerts totalAlerts spikeDetected spikeInfo clock))
    /\ totalAlerts = Z.of_nat (length alerts)
    /\ totalAlerts <= 50
    /\ StronglySorted newest_first alerts.
Proof.
  intros Hv Hup. rewrite (alerts_handler_runs clock q v db Hv Hup). cbv zeta.
  eexists _, _, _, _. split; [reflexivity|]. split; [done|]. split.
  - unfold paginate. rewrite length_take. lia.
  - unfold paginate, order_rows.
    apply StronglySorted_take, StronglySorted_drop, sort_by_newest_first.
Qed.

Lemma alerts_capped_and_newest_first_witness :
  Alerts.schema ∅ = Valid AlertExamples.default_value
  /\ available AlertExamples.busy_backend = true
  /\ length (table AlertExamples.busy_backend) = 60%nat
  /\ exists alerts totalAlerts spikeDetected spikeInfo,
       Alerts.handler 0 ∅ AlertExamples.busy_backend
       = ([Alerts.alerts_query AlertExamples.default_value; Alerts.daily_query],
          Ok (Alerts_body alerts totalAlerts spikeDetected spikeInfo 0))
       /\ totalAlerts = 50
       /\ map Data.id alerts = map Z.of_nat (rev (seq 11 50))
       /\ StronglySorted newest_first alerts.
Proof.
  assert (Alerts.schema ∅ = Valid AlertExamples.default_value) as Hv by reflexivity.
  split; [exact Hv|]. split; [reflexivity|]. split; [reflexivity|].
  destruct (alerts_capped_and_newest_first 0 ∅ AlertExamples.default_value
              AlertExamples.busy_backend Hv eq_refl)
    as (alerts & n & sd & si & Hrun & _ & _ & Hsorted).
  exists alerts, n, sd, si. split; [exact Hrun|].
  split; [|split; [|exact Hsorted]];
    pose proof (f_equal snd Hrun) as Hbody; cbn [snd] in Hbody;
    vm_compute in Hbody; injection Hbody as Halerts Hn _ _.
  - rewrite <- Hn. reflexivity.
  - rewrite <- Halerts. reflexivity.
Defined.

(** ** Failures of the backend *)

Lemma execute_down (db : Backend) (st : Statement) (params : list Param) :
  available db = false -> execute db st params = None.
Proof. intros H. unfold execute. by rewrite H. Qed.

Lemma exec_bind_fail {B : Type} (call : Call) (f : ResultSet -> Exec B) (db : Backend) :
  execute db (fst call) (snd call) = None ->
  (pool_execute call ≫= f) db = ([call], None).
Proof. intros H. unfold mbind, exec_bind, pool_execute. by rewrite H. Qed.

Lemma rankings_handler_runs (q : Query) (v : Rankings.Value) (db : Backend) :
  Rankings.schema q = Valid v -> available db = true ->
  Rankings.handler q db
  = ([Rankings.query v],
     Ok (Rankings_body
           (take (Z.to_nat (Rankings.limit v))
              (row_number (List.filter (rankings_filter v) (table db))))
           (Rankings.startDate v, Rankings.endDate v) (Rankings.mediaType v))).
Proof.
  intros Hv Hup. pose proof (rankings_valid q v Hv) as Hlimit.
  unfold Rankings.handler, endpoint. rewrite Hv. unfold Rankings.body.
  erewrite exec_bind_run; cycle 1.
  { unfold Rankings.query.
    apply execute_order_limit; [done|apply rankings_where_bound|].
    simpl. by destruct (Z.leb_spec 0 (Rankings.limit v)); [|lia]. }
  rewrite select_and_media_type. cbn [select select_where fst result_set].
  rewrite order_ranked_row_number. unfold paginate. rewrite drop_0.
  unfold matching.
  by rewrite (List.filter_ext _ _ (rankings_selected (now db) v)).
Qed.

Lemma search_handler_runs (q : Query) (v : Search.Value) (db : Backend) :
  Search.schema q = Valid v -> available db = true ->
  let results :=
    take (Z.to_nat (Search.limit v))
      (sort_by (order_ge Confidence_desc_detected_desc)
         (List.filter (search_filter v) (table db))) in
  Search.handler q db
  = ([Search.search_query v],
     Ok (Search_body results (Search.query v) (Z.of_nat (length results)))).
Proof.
  intros Hv Hup results.
  destruct (search_valid q v Hv) as [Hlimit Hplatform].
  unfold Search.handler, endpoint. rewrite Hv. unfold Search.body.
  erewrite exec_bind_run; cycle 1.
  { unfold Search.search_query.
    apply execute_order_limit; [done|apply search_where_bound|].
    simpl. by destruct (Z.leb_spec 0 (Search.limit v)); [|lia]. }
  rewrite select_search_where. unfold matching.
  by rewrite (List.filter_ext _ _ (fun d => search_selected (now db) v d Hplatform)).
Qed.

(** X3.  When the backend does not answer, each of the list, rankings,
    search and alert handlers answers a valid request with the 500
    response, having attempted its first statement only. *)
Theorem backend_down_gives_500 (db : Backend) :
  available db = false ->
  (forall q v, Deepfakes.dateRangeSchema q = Valid v ->
     Deepfakes.handler q db = ([Deepfakes.data_query v], Internal_server_error))
  /\ (forall q v, Rankings.schema q = Valid v ->
        Rankings.handler q db = ([Rankings.query v], Internal_server_error))
  /\ (forall q v, Search.schema q = Valid v ->
        Search.handler q db = ([Search.search_query v], Internal_server_error))
  /\ (forall clock q v, Alerts.schema q = Valid v ->
        Alerts.handler clock q db = ([Alerts.alerts_query v], Internal_server_error)).
Proof.
  intros Hdown.
  repeat split; intros;
    unfold Deepfakes.handler, Rankings.handler, Search.handler, Alerts.handler,
      endpoint, Deepfakes.body, Rankings.body, Search.body, Alerts.body;
    match goal with H : _ = Valid _ |- _ => rewrite H end;
    by rewrite exec_bind_fail by by apply execute_down.
Qed.

Lemma backend_down_gives_500_witness :
  available MoreExamples.down_backend = false
  /\ Deepfakes.handler Examples.period_query MoreExamples.down_backend
     = ([Deepfakes.data_query MoreExamples.period_value], Internal_server_error).
Proof.
  split; [reflexivity|].
  apply (backend_down_gives_500 MoreExamples.down_backend); reflexivity.
Defined.

(** X4.  When the backend answers, none of the list, rankings, search and
    alert handlers answers 500: a request is answered 400 with no statement
    executed when its validation fails, and 200 otherwise. *)
Theorem no_500_when_backend_answers (db : Backend) :
  available db = true ->
  forall (clock : Z) (q : Query) (calls : list Call) (response : Response),
    Deepfakes.handler q db = (calls, response)
    \/ Rankings.handler q db = (calls, response)
    \/ Search.handler q db = (calls, response)
    \/ Alerts.handler clock q db = (calls, response) ->
    (exists body, response = Ok body /\ calls <> [])
    \/ (exists error, response = Bad_request error /\ calls = []).
Proof.
  intros Hup clock q calls response [H|[H|[H|H]]].
  - destruct (Deepfakes.dateRangeSchema q) as [v|e] eqn:Hv.
    + rewrite (list_handler_runs q v db Hv Hup) in H. cbv zeta in H.
      injection H as <- <-. left. by eexists.
    + unfold Deepfakes.handler, endpoint in H. rewrite Hv in H.
      injection H as <- <-. right. by eexists.
  - destruct (Rankings.schema q) as [v|e] eqn:Hv.
    + rewrite (rankings_handler_runs q v db Hv Hup) in H.
      injection H as <- <-. left. by eexists.
    + unfold Rankings.handler, endpoint in H. rewrite Hv in H.
      injection H as <- <-. right. by eexists.
  - destruct (Search.schema q) as [v|e] eqn:Hv.
    + rewrite (search_handler_runs q v db Hv Hup) in H. cbv zeta in H.
      injection H as <- <-. left. by eexists.
    + unfold Search.handler, endpoint in H. rewrite Hv in H.
      injection H as <- <-. right. by eexists.
  - destruct (Alerts.schema q) as [v|e] eqn:Hv.
    + rewrite (alerts_handler_runs clock q v db Hv Hup) in H. cbv zeta in H.
      injection H as <- <-. left. by eexists.
    + unfold Alerts.handler, endpoint in H. rewrite Hv in H.
      injection H as <- <-. right. by eexists.
Qed.

Lemma no_500_when_backend_answers_witness :
  available Examples.backend = true
  /\ ((exists body,
         snd (Deepfakes.handler Examples.reversed_query Examples.backend) = Ok body
         /\ fst (Deepfakes.handler Examples.reversed_query Examples.backend) <> [])
      \/ (exists error,
            snd (Deepfakes.handler Examples.reversed_query Examples.backend)
            = Bad_request error
            /\ fst (Deepfakes.handler Examples.reversed_query Examples.backend) = [])).
Proof.
  split; [reflexivity|].
  apply (no_500_when_backend_answers Examples.backend eq_refl 0
           Examples.reversed_query).
  left. apply surjective_pairing.
Defined.

(** ** Pages of the list endpoint *)

Lemma take_nonempty {A : Type} (n k : nat) (l : list A) :
  (1 <= n)%nat -> take n (drop k l) <> [] <-> (k < length l)%nat.
Proof.
  intros Hn. split.
  - intros H. destruct (Nat.lt_ge_cases k (length l)) as [|Hge]; [done|].
    rewrite drop_ge in H by done. by destruct n.
  - intros Hk Heq. apply (f_equal length) in Heq.
    rewrite length_take, length_drop in Heq. simpl in Heq. lia.
Qed.

(** X5.  Two valid list requests with the same filters, the second
    starting where the first page ends, answered by the same backend: both
    report the same [total]; the two pages, one after the other, are the
    stretch of the ordered result (detected date descending, then confidence
    descending) that starts at the first offset; [hasMore] of the first
    response is true exactly when the second page is not empty, and then the
    first page is full. *)
Theorem list_pages_tile (q1 q2 : Query) (v : Deepfakes.Value) (limit2 : Z)
  (db : Backend) :
  Deepfakes.dateRangeSchema q1 = Valid v ->
  Deepfakes.dateRangeSchema q2
  = Valid (page_of v limit2 (Deepfakes.offset v + Deepfakes.limit v)) ->
  available db = true ->
  exists all calls1 calls2 data1 data2 p1 p2,
    Deepfakes.handler q1 db = (calls1, Ok (Deepfakes_body data1 p1))
    /\ Deepfakes.handler q2 db = (calls2, Ok (Deepfakes_body data2 p2))
    /\ StronglySorted newest_first all
    /\ total p1 = Z.of_nat (length all) /\ total p2 = Z.of_nat (length all)
    /\ data1 ++ data2
       = take (Z.to_nat (Deepfakes.limit v + limit2))
           (drop (Z.to_nat (Deepfakes.offset v)) all)
    /\ (hasMore p1 = true <-> data2 <> [])
    /\ (hasMore p1 = true -> Z.of_nat (length data1) = Deepfakes.limit v).
Proof.
  intros Hv1 Hv2 Hup.
  destruct (deepfakes_valid q1 v Hv1) as (Hl1 & Ho1 & _ & _).
  destruct (deepfakes_valid q2 _ Hv2) as (Hl2 & _ & _ & _). simpl in Hl2.
  rewrite (list_handler_runs q1 v db Hv1 Hup).
  rewrite (list_handler_runs q2 _ db Hv2 Hup). cbv zeta.
  change (list_filter (page_of v ?l ?o)) with (list_filter v).
  cbn [page_of Deepfakes.limit Deepfakes.offset].
  set (all := sort_by (order_ge Detected_desc_confidence_desc)
                (List.filter (list_filter v) (table db))).
  assert (length all = length (List.filter (list_filter v) (table db))) as Hlen
    by apply length_sort_by.
  exists all. eexists _, _, _, _, _, _.
  split; [reflexivity|]. split; [reflexivity|].
  split; [apply sort_by_newest_first|]. cbn [total hasMore].
  split; [by rewrite Hlen|]. split; [by rewrite Hlen|].
  replace (Z.to_nat (Deepfakes.offset v + Deepfakes.limit v))
    with (Z.to_nat (Deepfakes.offset v) + Z.to_nat (Deepfakes.limit v))%nat by lia.
  rewrite <- drop_drop. split; [|split].
  - rewrite take_take_drop. f_equal. lia.
  - rewrite take_nonempty by lia. rewrite length_drop, Z.ltb_lt. lia.
  - rewrite Z.ltb_lt. intros H. rewrite length_take, length_drop. lia.
Qed.

Lemma list_pages_tile_witness :
  let v := page_of MoreExamples.period_value 2 0 in
  Deepfakes.dateRangeSchema (MoreExamples.page_query 2 0) = Valid v
  /\ Deepfakes.dateRangeSchema (MoreExamples.page_query 5 2)
     = Valid (page_of v 5 (Deepfakes.offset v + Deepfakes.limit v))
  /\ available Examples.backend = true
  /\ exists calls1 calls2 data1 data2 p1 p2,
       Deepfakes.handler (MoreExamples.page_query 2 0) Examples.backend
       = (calls1, Ok (Deepfakes_body data1 p1))
       /\ Deepfakes.handler (MoreExamples.page_query 5 2) Examples.backend
          = (calls2, Ok (Deepfakes_body data2 p2))
       /\ (hasMore p1 = true <-> data2 <> []).
Proof.
  intros v. split; [reflexivity|]. split; [reflexivity|]. split; [reflexivity|].
  assert (Deepfakes.dateRangeSchema (MoreExamples.page_query 2 0) = Valid v)
    as H1 by reflexivity.
  assert (Deepfakes.dateRangeSchema (MoreExamples.page_query 5 2)
          = Valid (page_of v 5 (Deepfakes.offset v + Deepfakes.limit v)))
    as H2 by reflexivity.
  destruct (list_pages_tile _ _ v 5 Examples.backend H1 H2 eq_refl)
    as (all & c1 & c2 & d1 & d2 & p1 & p2 & Ha & Hb & _ & _ & _ & _ & Hc & _).
  exists c1, c2, d1, d2, p1, p2. split; [exact Ha|]. split; [exact Hb|exact Hc].
Defined.

(** ** What a validated list request satisfies *)

Lemma integer_between_upper (k : string) (lo hi d : Z) (q : Query) (n : Z) :
  d <= hi -> with_default k (integer_between lo (Some hi)) d q = Valid n -> n <= hi.
Proof.
  unfold with_default, integer_between. intros Hd.
  destruct (q !! k) as [x|]; [|intros [= <-]; done].
  destruct (as_number x) as [y|]; [|done].
  destruct (is_integer y); simpl; [|done].
  destruct (Qnum (Qred y) <? lo); [done|].
  destruct (Z.ltb_spec hi (Qnum (Qred y))); [done|]. by intros [= <-].
Qed.

Lemma number_between_upper (k : string) (lo hi d : Q) (q : Query) (x : Q) :
  (d <= hi)%Q -> with_default k (number_between lo hi) d q = Valid x -> (x <= hi)%Q.
Proof.
  unfold with_default, number_between. intros Hd.
  destruct (q !! k) as [y|]; [|intros [= <-]; done].
  destruct (as_number y) as [z|]; [|done].
  destruct (Qle_bool lo z); simpl; [|done].
  destruct (Qle_bool z hi) eqn:Hhi; simpl; [|done].
  intros [= <-]. by apply Qle_bool_iff.
Qed.

Lemma string_valid_allowed (k : string) (allowed : list string) (d : string)
  (q : Query) (s : string) :
  d ∈ allowed -> with_default k (string_valid allowed) d q = Valid s -> s ∈ allowed.
Proof.
  unfold with_default, string_valid. intros Hd.
  destruct (q !! k) as [x|]; [|intros [= <-]; done].
  destruct (as_string x) as [y|]; [|done].
  destruct (existsb (String.eqb y) allowed) eqn:Hex; [|done].
  intros [= <-]. apply existsb_exists in Hex as (z & Hin & Heq).
  apply String.eqb_eq in Heq as ->. by apply list_elem_of_In.
Qed.

Lemma required_date_min (k : string) (m : Z) (q : Query) (t : Z) :
  required k (date_iso_min (Some m)) q = Valid t -> m <= t.
Proof.
  unfold required, date_iso_min, date_iso.
  destruct (q !! k) as [x|]; [|done].
  destruct (as_date x) as [y|]; simpl; [|done].
  destruct (Z.leb_spec m y); [|done]. by intros [= <-].
Qed.

Lemma with_default_absent {A : Type} (k : string) (rule : Rule A) (d : A) (q : Query)
  (a : A) :
  q !! k = None -> with_default k rule d q = Valid a -> a = d.
Proof. unfold with_default. intros ->. by intros [= <-]. Qed.

(** X6.  Every list request that passes validation has [startDate] no
    later than [endDate], [limit] between 1 and 1000, [offset] at least 0,
    [minConfidence] between 0 and 1, [mediaType] one of photo, video and
    all, a [platform] that is not the empty text, and the defaults 100, 0, 0
    and all for an absent [limit], [offset], [minConfidence] and
    [mediaType]. *)
Theorem validated_list_request_in_range (q : Query) (v : Deepfakes.Value) :
  Deepfakes.dateRangeSchema q = Valid v ->
  Deepfakes.startDate v <= Deepfakes.endDate v
  /\ 1 <= Deepfakes.limit v <= 1000
  /\ 0 <= Deepfakes.offset v
  /\ (0 <= Deepfakes.minConfidence v <= 1)%Q
  /\ Deepfakes.mediaType v ∈ ["photo"; "video"; "all"]
  /\ Deepfakes.platform v <> Some EmptyString
  /\ (q !! "limit" = None -> Deepfakes.limit v = 100)
  /\ (q !! "offset" = None -> Deepfakes.offset v = 0)
  /\ (q !! "minConfidence" = None -> Deepfakes.minConfidence v = 0%Q)
  /\ (q !! "mediaType" = None -> Deepfakes.mediaType v = "all").
Proof.
  intros H. unfold Deepfakes.dateRangeSchema in H. repeat valid_step H.
  injection H as <-. simpl.
  split; [by apply (required_date_min _ _ _ _ E0)|].
  split; [split|].
  { eapply integer_between_lower; [|exact E2]; lia. }
  { eapply integer_between_upper; [|exact E2]; lia. }
  split; [eapply integer_between_lower; [|exact E3]; lia|].
  split; [split|].
  { eapply number_between_lower; [|exact E4]; done. }
  { eapply number_between_upper; [|exact E4]; done. }
  split.
  { eapply string_valid_allowed; [|exact E1]. set_solver. }
  split.
  { intros ->. by apply optional_string_nonempty in E5. }
  split; [intros Hq; by apply (with_default_absent _ _ _ _ _ Hq E2)|].
  split; [intros Hq; by apply (with_default_absent _ _ _ _ _ Hq E3)|].
  split; [intros Hq; by apply (with_default_absent _ _ _ _ _ Hq E4)|].
  intros Hq; by apply (with_default_absent _ _ _ _ _ Hq E1).
Qed.

Lemma validated_list_request_in_range_witness :
  Deepfakes.dateRangeSchema Examples.period_query = Valid MoreExamples.period_value
  /\ 1 <= Deepfakes.limit MoreExamples.period_value <= 1000.
Proof.
  split; [reflexivity|].
  apply (validated_list_request_in_range Examples.period_query
           MoreExamples.period_value).
  reflexivity.
Defined.

(** ** The platform list between client and server *)

Section PlatformList.

Import Csv.

Lemma split_commas_nonempty (s : string) : Alerts.split_commas s <> [].
Proof.
  destruct s as [|c s]; simpl; [done|].
  destruct (Ascii.eqb c ","); [done|].
  by destruct (Alerts.split_commas s).
Qed.

Lemma split_commas_plain (s : string) :
  includes s comma = false -> Alerts.split_commas s = [s].
Proof.
  induction s as [|c s IH]; simpl; [done|].
  intros H. apply orb_false_elim in H as [Hc Hs].
  unfold comma in Hc. rewrite Hc, (IH Hs). done.
Qed.

Lemma split_commas_append (s t : string) :
  includes s comma = false ->
  Alerts.split_commas (s +:+ String comma t) = s :: Alerts.split_commas t.
Proof.
  induction s as [|c s IH]; intros H.
  - rewrite append_nil_l. simpl. done.
  - simpl in H. apply orb_false_elim in H as [Hc Hs].
    rewrite append_cons. simpl. unfold comma in Hc. rewrite Hc.
    by rewrite (IH Hs).
Qed.

Lemma split_join_commas (l : list string) :
  (1 <= length l)%nat -> forallb (fun s => negb (includes s comma)) l = true ->
  Alerts.split_commas (join comma l) = l.
Proof.
  induction l as [|s l IH]; intros Hlen Hl; [simpl in Hlen; lia|].
  simpl in Hl. apply andb_prop in Hl as [Hs Hl]. apply negb_true_iff in Hs.
  destruct l as [|s' l].
  - simpl. by apply split_commas_plain.
  - change (join comma (s :: s' :: l)) with (s +:+ String comma (join comma (s' :: l))).
    rewrite split_commas_append by done.
    rewrite IH; [done|simpl; lia|done].
Qed.

Lemma join_split_commas (s : string) : join comma (Alerts.split_commas s) = s.
Proof.
  induction s as [|c s IH]; [done|]. simpl.
  destruct (Ascii.eqb_spec c ",") as [->|Hc].
  - pose proof (split_commas_nonempty s) as Hne.
    destruct (Alerts.split_commas s) as [|p ps] eqn:Hs; [done|].
    change (join comma (EmptyString :: p :: ps))
      with (EmptyString +:+ String comma (join comma (p :: ps))).
    by rewrite IH.
  - pose proof (split_commas_nonempty s) as Hne.
    destruct (Alerts.split_commas s) as [|p ps] eqn:Hs; [done|].
    destruct ps as [|p' ps].
    + simpl in *. by rewrite IH.
    + change (join comma (String c p :: p' :: ps))
        with (String c (p +:+ String comma (join comma (p' :: ps)))).
      change (join comma (p :: p' :: ps))
        with (p +:+ String comma (join comma (p' :: ps))) in IH.
      by rewrite IH.
Qed.

(** X8.  The platform list survives the trip from the client's settings to
    the alert statement: when the client has at least one platform selected,
    no platform name holds a comma and the joined text is not empty, the
    statement's [IN] list is exactly the selected platforms, in order; and
    whatever text the server receives, joining the pieces it splits it into
    gives the text back. *)
Theorem platforms_round_trip (settings : AlertClient.AlertSettings) :
  (1 <= length (AlertClient.platforms settings))%nat ->
  forallb (fun s => negb (includes s comma)) (AlertClient.platforms settings) = true ->
  nonempty (join comma (AlertClient.platforms settings)) = true ->
  Alerts.platforms_preds (AlertClient.platforms_param settings)
  = [(Source_platform_in (length (AlertClient.platforms settings)),
      map PStr (AlertClient.platforms settings))]
  /\ forall s, join comma (Alerts.split_commas s) = s.
Proof.
  intros Hlen Hplain Hne. split; [|apply join_split_commas].
  unfold AlertClient.platforms_param, Alerts.platforms_preds.
  destruct (Z.ltb_spec 0 (Z.of_nat (length (AlertClient.platforms settings))));
    [|lia].
  by rewrite Hne, split_join_commas.
Qed.

Lemma platforms_round_trip_witness :
  let settings :=
    {| AlertClient.enabled := true; AlertClient.minConfidence := of_Z 90;
       AlertClient.checkInterval := of_Z 5;
       AlertClient.platforms := ["weibo"; "douyin"];
       AlertClient.verifiedOnly := false; AlertClient.enableSound := true;
       AlertClient.enableBrowserNotifications := true;
       AlertClient.spikeDetection := true;
       AlertClient.spikeThreshold := of_Z 50 |} in
  (1 <= length (AlertClient.platforms settings))%nat
  /\ Alerts.platforms_preds (AlertClient.platforms_param settings)
     = [(Source_platform_in 2, [PStr "weibo"; PStr "douyin"])].
Proof.
  intros settings. split; [simpl; lia|].
  apply (platforms_round_trip settings); [simpl; lia|reflexivity|reflexivity].
Defined.

End PlatformList.

(** ** Keywords and [LIKE] *)

Lemma like_nil (text : string) : like EmptyString text = true <-> text = EmptyString.
Proof. by destruct text. Qed.

Lemma like_percent (p text : string) :
  like (String "%" p) text
  = like p text
    || match text with
       | EmptyString => false
       | String _ text' => like (String "%" p) text'
       end.
Proof. by destruct text. Qed.

Lemma like_percent_iff (p text : string) :
  like (String "%" p) text = true
  <-> exists before after, text = before +:+ after /\ like p after = true.
Proof.
  induction text as [|c text IH]; rewrite like_percent.
  - rewrite orb_false_r. split.
    + intros H. by exists EmptyString, EmptyString.
    + intros (b & a & Heq & H). destruct b; [|done].
      rewrite append_nil_l in Heq. by subst.
  - rewrite orb_true_iff, IH. split.
    + intros [H|(b & a & -> & H)].
      * by exists EmptyString, (String c text).
      * by exists (String c b), a.
    + intros (b & a & Heq & H). destruct b as [|c' b].
      * rewrite append_nil_l in Heq. subst. by left.
      * rewrite append_cons in Heq. injection Heq as <- ->. right. by exists b, a.
Qed.

Lemma like_everything (text : string) : like "%" text = true.
Proof.
  apply like_percent_iff. exists text, EmptyString.
  by rewrite append_nil_r.
Qed.

Lemma like_literal_cons (c : ascii) (p text : string) :
  negb (Ascii.eqb c "%") && negb (Ascii.eqb c "_") && negb (Ascii.eqb c "\") = true ->
  like (String c p) text
  = match text with
    | EmptyString => false
    | String d text' => Ascii.eqb c d && like p text'
    end.
Proof.
  intros H.
  destruct c as [[] [] [] [] [] [] [] []]; try done; by destruct text.
Qed.

Lemma like_literal_prefix (keyword p text : string) :
  literal keyword = true ->
  like (keyword +:+ p) text = true
  <-> exists rest, text = keyword +:+ rest /\ like p rest = true.
Proof.
  revert text. induction keyword as [|c keyword IH]; intros text Hk.
  - rewrite append_nil_l. split; [intros H; by exists text|].
    intros (rest & -> & H). by rewrite append_nil_l.
  - simpl in Hk. apply andb_prop in Hk as [Hc Hk].
    rewrite append_cons, (like_literal_cons _ _ _ Hc).
    destruct text as [|d text].
    + split; [done|]. by intros (rest & ? & _).
    + rewrite andb_true_iff, (IH _ Hk). split.
      * intros [Hcd (rest & -> & H)]. apply Ascii.eqb_eq in Hcd as ->.
        by exists rest.
      * intros (rest & Heq & H). rewrite append_cons in Heq.
        injection Heq as <- ->. split; [apply Ascii.eqb_refl|by exists rest].
Qed.

Lemma like_keyword (keyword text : string) :
  literal keyword = true ->
  like ("%" +:+ keyword +:+ "%") text = true <-> occurs_in keyword text.
Proof.
  intros Hk. rewrite append_cons, append_nil_l, like_percent_iff. unfold occurs_in.
  split.
  - intros (b & a & -> & H). apply (like_literal_prefix _ _ _ Hk) in H as (r & -> & _).
    by exists b, r.
  - intros (b & a & ->). exists b, (keyword +:+ a). split; [done|].
    apply (like_literal_prefix _ _ _ Hk). exists a. split; [done|].
    apply like_everything.
Qed.

Lemma mentions_occurs (keyword : string) (d : Detection) :
  literal keyword = true ->
  mentions keyword d = true <-> occurs_in_record keyword d.
Proof.
  intros Hk. unfold mentions, has_keyword, occurs_in_record.
  rewrite !orb_true_iff. split.
  - intros [[H|H]|H].
    + destruct (title d) as [t|]; [|done]. exists t. split; [auto|].
      by apply like_keyword.
    + destruct (description d) as [t|]; [|done]. exists t. split; [auto|].
      by apply like_keyword.
    + destruct (tags d) as [t|]; [|done]. exists t. split; [auto|].
      by apply like_keyword.
  - intros (t & [Ht|[Ht|Ht]] & Hocc); rewrite Ht;
      apply (like_keyword _ _ Hk) in Hocc; auto.
Qed.

(** X9.  For a keyword free of the characters [%], [_] and backslash, a
    record passes the keyword condition of the search exactly when the
    keyword occurs as a piece of its title, description or tags; in
    particular every result of a valid search answered by the backend holds
    the keyword in one of these columns. *)
Theorem search_results_hold_keyword (q : Query) (v : Search.Value) (db : Backend) :
  Search.schema q = Valid v -> available db = true ->
  literal (Search.query v) = true ->
  (forall d, mentions (Search.query v) d = true <-> occurs_in_record (Search.query v) d)
  /\ exists results total,
       Search.handler q db
       = ([Search.search_query v], Ok (Search_body results (Search.query v) total))
       /\ forall d, d ∈ results -> occurs_in_record (Search.query v) d.
Proof.
  intros Hv Hup Hk. split; [intros d; by apply mentions_occurs|].
  rewrite (search_handler_runs q v db Hv Hup). cbv zeta.
  eexists _, _. split; [reflexivity|].
  intros d Hd. apply subseteq_take in Hd. rewrite elem_of_sort_by in Hd.
  apply list_elem_of_In, filter_In in Hd as [_ Hd].
  apply (mentions_occurs _ _ Hk).
  unfold search_filter in Hd. by repeat (apply andb_prop in Hd as [Hd _]).
Qed.

Lemma search_results_hold_keyword_witness :
  let v := {| Search.query := "fake"; Search.startDate := None;
              Search.endDate := None; Search.mediaType := "all";
              Search.minConfidence := 0%Q; Search.platform := None;
              Search.verified := None; Search.limit := 1 |} in
  Search.schema Examples.search_query = Valid v
  /\ literal (Search.query v) = true
  /\ exists results total,
       Search.handler Examples.search_query Examples.backend
       = ([Search.search_query v], Ok (Search_body results "fake" total))
       /\ forall d, d ∈ results -> occurs_in_record "fake" d.
Proof.
  intros v. split; [reflexivity|]. split; [reflexivity|].
  apply (search_results_hold_keyword Examples.search_query v Examples.backend);
    reflexivity.
Defined.

(** ** [DatabaseService.getTopDeepfakes] against [GET /api/rankings] *)

Lemma imap_number_from (first : Z) (rows : list Detection) :
  imap (fun index row => (Z.of_nat index + first, row)) rows = number_from first rows.
Proof.
  revert first. induction rows as [|d rows IH]; intros first; simpl; [done|].
  f_equal. rewrite <- IH. apply imap_ext. intros i x _. simpl. f_equal. lia.
Qed.

Lemma take_number_from (n : nat) (first : Z) (rows : list Detection) :
  take n (number_from first rows) = number_from first (take n rows).
Proof.
  revert first rows. induction n as [|n IH]; intros first [|d rows]; simpl; try done.
  by rewrite IH.
Qed.

Lemma period_where_bound (s : Select) (startDate endDate : Z) (mediaType : string) :
  bound
    (and_media_type mediaType
       (select_where s [Detected_between] [PDate startDate; PDate endDate]))
    ([(Detected_between, [PDate startDate; PDate endDate])]
       ++ media_type_preds mediaType).
Proof. apply bound_and_media_type. by apply bound_select_where. Qed.

(** X10.  For the period, media type and limit of a valid rankings request,
    [DatabaseService.getTopDeepfakes] returns, from the same backend, exactly
    the ranked rows of the rankings endpoint: the rank it adds by position
    is the row number the endpoint's statement computes. *)
Theorem getTopDeepfakes_agrees_with_rankings
  (q : Query) (v : Rankings.Value) (db : Backend) :
  Rankings.schema q = Valid v -> available db = true ->
  exists rankings,
    Rankings.handler q db
    = ([Rankings.query v],
       Ok (Rankings_body rankings (Rankings.startDate v, Rankings.endDate v)
             (Rankings.mediaType v)))
    /\ TopDeepfakes.getTopDeepfakes (Rankings.startDate v) (Rankings.endDate v)
         (Some (Rankings.mediaType v)) (Some (Rankings.limit v)) db
       = ([TopDeepfakes.getTopDeepfakes_query (Rankings.startDate v)
             (Rankings.endDate v) (Some (Rankings.mediaType v))
             (Some (Rankings.limit v))],
          Some rankings).
Proof.
  intros Hv Hup. pose proof (rankings_valid q v Hv) as Hlimit.
  rewrite (rankings_handler_runs q v db Hv Hup).
  eexists. split; [reflexivity|].
  unfold TopDeepfakes.getTopDeepfakes.
  erewrite exec_bind_run; cycle 1.
  { unfold TopDeepfakes.getTopDeepfakes_query. cbv zeta.
    apply execute_order_limit; [done|apply period_where_bound|].
    simpl. by destruct (Z.leb_spec 0 (Rankings.limit v)); [|lia]. }
  rewrite select_and_media_type. cbn [select select_where fst result_set].
  unfold paginate, order_rows, TopDeepfakes.add_ranks. rewrite drop_0.
  change (fun index row => (Z.of_nat index + 1, row))
    with (fun (index : nat) (row : Detection) => (Z.of_nat index + 1, row)).
  rewrite imap_number_from, <- take_number_from.
  unfold row_number, matching. simpl default.
  fold (Rankings.preds v).
  by rewrite (List.filter_ext _ _ (rankings_selected (now db) v)).
Qed.

Lemma getTopDeepfakes_agrees_with_rankings_witness :
  let v := {| Rankings.startDate := 0; Rankings.endDate := 20 * ms_per_day;
              Rankings.mediaType := "all"; Rankings.limit := 10 |} in
  Rankings.schema Examples.period_query = Valid v
  /\ available Examples.backend = true
  /\ exists rankings,
       Rankings.handler Examples.period_query Examples.backend
       = ([Rankings.query v], Ok (Rankings_body rankings (0, 20 * ms_per_day) "all"))
       /\ TopDeepfakes.getTopDeepfakes 0 (20 * ms_per_day) (Some "all") (Some 10)
            Examples.backend
          = ([TopDeepfakes.getTopDeepfakes_query 0 (20 * ms_per_day) (Some "all")
                (Some 10)],
             Some rankings).
Proof.
  intros v. split; [reflexivity|]. split; [reflexivity|].
  apply (getTopDeepfakes_agrees_with_rankings Examples.period_query v
           Examples.backend); reflexivity.
Defined.

(** ** Stored notifications *)

Lemma map_fmap {A B : Type} (f : A -> B) (l : list A) : map f l = f <$> l.
Proof. induction l as [|x l IH]; simpl; [done|]. by rewrite IH. Qed.

Section StoredNotifications.

Import Notifications.

Lemma take_cons_take {A : Type} (n : nat) (x : A) (l : list A) :
  take (S n) (x :: take (S n) l) = take (S n) (x :: l).
Proof.
  cbn [take]. f_equal. rewrite take_take. f_equal. lia.
Qed.

Lemma store_each_snoc (ns : list Notification) (n : Notification) (storage : Storage) :
  store_each (ns ++ [n]) storage = storeNotification n (store_each ns storage).
Proof. unfold store_each. by rewrite fold_left_app. Qed.

Lemma store_each_listed (ns : list Notification) (storage : Storage)
  (before : list Notification) :
  ns <> [] -> holds_array storage = true -> loadNotifications storage = Listed before ->
  store_each ns storage = Some (Array (take 100 (rev ns ++ before))).
Proof.
  intros Hne Hok Hbefore.
  induction ns as [|n ns IH] using rev_ind; [done|].
  rewrite store_each_snoc, rev_app_distr. cbn [rev app].
  destruct ns as [|n0 ns0].
  - cbn [store_each fold_left rev app].
    destruct storage as [[l| |]|]; try done; cbn in Hbefore; by injection Hbefore as <-.
  - rewrite IH; [|done]. cbn [storeNotification]. by rewrite take_cons_take.
Qed.

(** X11.  Storing notifications one after another on a storage that is
    absent or holds an array leaves, newest first, the notifications just
    stored followed by those stored before, cut after the hundredth: the
    oldest are the ones dropped, and the storage still holds an array.  On a
    storage whose text is unparsable or parses to something that is no
    array, nothing is ever stored: the storage stays as it was. *)
Theorem store_keeps_newest_hundred (ns : list Notification) (storage : Storage)
  (before : list Notification) :
  ns <> [] ->
  (holds_array storage = true -> loadNotifications storage = Listed before ->
   holds_array (store_each ns storage) = true
   /\ loadNotifications (store_each ns storage) = Listed (take 100 (rev ns ++ before)))
  /\ (holds_array storage = false -> store_each ns storage = storage).
Proof.
  intros Hne. split.
  - intros Hok Hbefore. by rewrite (store_each_listed ns storage before).
  - intros Hbad. clear Hne. induction ns as [|n ns IH] using rev_ind; [done|].
    rewrite store_each_snoc, IH. by destruct storage as [[l| |]|].
Qed.

Lemma store_keeps_newest_hundred_witness :
  let arrived := [NotificationExamples.alert "alert-1"; NotificationExamples.alert "alert-2"] in
  exists before,
    arrived <> []
    /\ holds_array NotificationExamples.full_storage = true
    /\ loadNotifications NotificationExamples.full_storage = Listed before
    /\ length before = 100%nat
    /\ loadNotifications (store_each arrived NotificationExamples.full_storage)
       = Listed (NotificationExamples.alert "alert-2"
                 :: NotificationExamples.alert "alert-1" :: take 98 before).
Proof.
  intros arrived.
  assert (arrived <> []) as Hne by discriminate.
  eexists. split; [exact Hne|]. split; [reflexivity|]. split; [reflexivity|].
  split; [reflexivity|].
  apply (store_keeps_newest_hundred arrived NotificationExamples.full_storage _ Hne);
    reflexivity.
Defined.

(** What the hook keeps true from one callback to the next. *)
Lemma act_keeps_storage_in_step (a : Action) (st : State)
  (shown stored added : list Notification) :
  notifications st = Listed shown ->
  holds_array (Notifications.storage st) = true ->
  loadNotifications (Notifications.storage st) = Listed stored ->
  Forall2 as_added added shown ->
  take 100 stored = take 100 added ->
  exists st' shown' stored' added',
    act a st = Some st'
    /\ notifications st' = Listed shown'
    /\ holds_array (Notifications.storage st') = true
    /\ loadNotifications (Notifications.storage st') = Listed stored'
    /\ Forall2 as_added added' shown'
    /\ take 100 stored' = take 100 added'.
Proof.
  intros Hshown Hok Hstored Hadded Htake.
  destruct a as [n|target| |]; cbn [act];
    unfold addNotification, markAsRead, markAllAsRead, clearAll; rewrite ?Hshown.
  - destruct (Notifications.storage st) as [[l| |]|] eqn:Hst; try done;
      cbn in Hstored; injection Hstored as <-.
    + eexists _, _, _, (n :: added). split; [done|]. cbn.
      split; [done|]. split; [done|]. split; [done|].
      split; [constructor; [by left|done]|].
      change (take 100 (n :: ?k)) with (n :: take 99 k). f_equal.
      rewrite take_take. pose proof (f_equal (take 99) Htake) as H99.
      by rewrite !take_take in H99.
    + eexists _, _, _, (n :: added). split; [done|]. cbn.
      split; [done|]. split; [done|]. split; [done|].
      split; [constructor; [by left|done]|].
      change (take 100 (n :: ?k)) with (n :: take 99 k). f_equal.
      pose proof (f_equal (take 99) Htake) as H99.
      rewrite !take_take in H99. cbn in H99. by rewrite <- H99.
  - eexists _, _, stored, added. split; [done|]. cbn.
    split; [done|]. split; [done|]. split; [done|]. split; [|done].
    rewrite map_fmap. apply Forall2_fmap_r. eapply Forall2_impl; [exact Hadded|].
    intros x y [ -> | -> ]; unfold compose, as_added; cbv beta;
      match goal with |- context [String.eqb ?a ?b] => destruct (String.eqb a b) end;
      auto.
  - eexists _, _, stored, added. split; [done|]. cbn.
    split; [done|]. split; [done|]. split; [done|]. split; [|done].
    rewrite map_fmap. apply Forall2_fmap_r. eapply Forall2_impl; [exact Hadded|].
    intros x y [ -> | -> ]; unfold compose, as_added; cbv beta; auto.
  - eexists _, _, [], []. split; [done|]. cbn.
    split; [done|]. split; [done|]. split; [done|]. split; [constructor|done].
Qed.

(** X12.  In a session of the hook mounted on a storage that is absent or
    holds an array of notifications, no update of the shown notifications
    throws, whatever is added, marked read or cleared, and the storage
    keeps holding an array: the newest 100 of the notifications shown, each
    as it was when added.  Read marks are never written to the storage. *)
Theorem storage_holds_newest_shown (storage : Storage) (actions : list Action) :
  holds_array storage = true ->
  exists st shown stored added,
    session storage actions = Some st
    /\ notifications st = Listed shown
    /\ holds_array (Notifications.storage st) = true
    /\ loadNotifications (Notifications.storage st) = Listed stored
    /\ Forall2 as_added added shown
    /\ take 100 stored = take 100 added.
Proof.
  intros Hok. unfold session.
  assert (exists shown, notifications (mount storage) = Listed shown
                        /\ loadNotifications (Notifications.storage (mount storage))
                           = Listed shown) as (shown & Hshown & Hstored).
  { unfold mount. cbn. destruct storage as [[l| |]|]; try done; by eexists. }
  assert (holds_array (Notifications.storage (mount storage)) = true) as Hok' by done.
  assert (Forall2 as_added shown shown) as Hadded.
  { apply Forall2_same_length_lookup_2; [done|]. intros i x y Hx Hy. left. congruence. }
  assert (take 100 shown = take 100 shown) as Htake by done.
  revert Hshown Hok' Hstored Hadded Htake.
  generalize (mount storage) as st. generalize shown at 1 4 as showing.
  generalize shown at 1 3 as stored. generalize shown as added.
  clear. intros added stored showing st. revert added stored showing st.
  induction actions as [|a actions IH]; intros added stored showing st H1 H2 H3 H4 H5.
  - by exists st, showing, stored, added.
  - destruct (act_keeps_storage_in_step a st showing stored added H1 H2 H3 H4 H5)
      as (st' & shown' & stored' & added' & Hact & H1' & H2' & H3' & H4' & H5').
    cbn [run]. rewrite Hact. cbn. by apply (IH added' stored' shown' st').
Qed.

Lemma storage_holds_newest_shown_witness :
  holds_array NotificationExamples.full_storage = true
  /\ exists st shown stored added,
       session NotificationExamples.full_storage NotificationExamples.visit = Some st
       /\ notifications st = Listed shown
       /\ loadNotifications (Notifications.storage st) = Listed stored
       /\ length shown = 103%nat
       /\ length stored = 100%nat
       /\ Forall2 as_added added shown
       /\ take 100 stored = take 100 added.
Proof.
  split; [reflexivity|].
  destruct (storage_holds_newest_shown NotificationExamples.full_storage
              NotificationExamples.visit eq_refl)
    as (st & shown & stored & added & Hs & Hshown & _ & Hstored & Hadded & Htake).
  exists st, shown, stored, added.
  split; [exact Hs|]. split; [exact Hshown|]. split; [exact Hstored|].
  vm_compute in Hs. injection Hs as <-.
  injection Hshown as <-. injection Hstored as <-.
  split; [reflexivity|]. split; [reflexivity|]. split; [exact Hadded|exact Htake].
Defined.

End StoredNotifications.

(** ** Grouped statements *)

Section GroupBy.

Import Aggregates.

Context {K : Type} `{EqDecision K} (key : Detection -> K).

Lemma group_by_snoc (rows : list Detection) (d : Detection) :
  group_by key (rows ++ [d]) = group_insert_by (key d) d (group_by key rows).
Proof. unfold group_by. by rewrite fold_left_app. Qed.

Lemma group_insert_by_keys (k : K) (d : Detection) (groups : list (K * list Detection)) :
  (group_insert_by k d groups).*1
  = if bool_decide (k ∈ groups.*1) then groups.*1 else groups.*1 ++ [k].
Proof.
  induction groups as [|[k' g] groups IH]; cbn [group_insert_by fmap list_fmap fst].
  - rewrite bool_decide_eq_false_2; [done|]. by intros ?%elem_of_nil.
  - destruct (bool_decide (k = k')) eqn:Hk; cbn [fmap list_fmap fst].
    + apply bool_decide_eq_true_1 in Hk as ->.
      rewrite bool_decide_eq_true_2; [done|]. by left.
    + apply bool_decide_eq_false_1 in Hk. rewrite IH.
      destruct (bool_decide (k ∈ groups.*1)) eqn:Hin.
      * apply bool_decide_eq_true_1 in Hin.
        rewrite bool_decide_eq_true_2; [done|]. by right.
      * apply bool_decide_eq_false_1 in Hin.
        rewrite bool_decide_eq_false_2; [done|].
        intros [?|?]%elem_of_cons; done.
Qed.

Lemma elem_of_group_insert_by (k k' : K) (d : Detection) (g' : list Detection)
  (groups : list (K * list Detection)) :
  NoDup groups.*1 ->
  (k', g') ∈ group_insert_by k d groups ->
  (k' <> k /\ (k', g') ∈ groups)
  \/ (k' = k /\ exists g, (k, g) ∈ groups /\ g' = g ++ [d])
  \/ (k' = k /\ (k ∉ groups.*1) /\ g' = [d]).
Proof.
  induction groups as [|[k0 g0] groups IH]; simpl; intros Hnd Hin.
  - apply list_elem_of_singleton in Hin. injection Hin as -> ->.
    right. right. split; [done|]. split; [|done]. by intros ?%elem_of_nil.
  - apply NoDup_cons in Hnd as [Hk0 Hnd].
    destruct (bool_decide (k = k0)) eqn:Hk.
    + apply bool_decide_eq_true_1 in Hk as ->.
      apply elem_of_cons in Hin as [Hin|Hin].
      * injection Hin as -> ->. right. left. split; [done|].
        exists g0. split; [by left|done].
      * left. split; [|by right]. intros ->. apply Hk0.
        apply list_elem_of_fmap. by exists (k0, g').
    + apply bool_decide_eq_false_1 in Hk.
      apply elem_of_cons in Hin as [Hin|Hin].
      * injection Hin as -> ->. left. split; [done|by left].
      * destruct (IH Hnd Hin) as [[? ?]|[(-> & g & ? & ->)|(-> & ? & ->)]].
        -- left. split; [done|by right].
        -- right. left. split; [done|]. exists g. split; [by right|done].
        -- right. right. split; [done|]. split; [|done].
           intros [?|?]%elem_of_cons; done.
Qed.

Lemma filter_keyed_snoc (k : K) (rows : list Detection) (d : Detection) :
  List.filter (keyed key k) (rows ++ [d])
  = List.filter (keyed key k) rows ++ (if bool_decide (key d = k) then [d] else []).
Proof. rewrite List.filter_app. simpl. unfold keyed. by destruct (bool_decide _). Qed.

Lemma filter_nil_iff {A : Type} (p : A -> bool) (l : list A) :
  (forall x, x ∈ l -> p x = false) -> List.filter p l = [].
Proof.
  induction l as [|x l IH]; simpl; intros Hl; [done|].
  rewrite (Hl x); [|by left]. apply IH. intros y Hy. apply Hl. by right.
Qed.

(** The groups of [GROUP BY]: one per key that occurs, holding exactly the
    rows with that key. *)
Lemma group_by_spec (rows : list Detection) :
  NoDup (group_by key rows).*1
  /\ (forall k g, (k, g) ∈ group_by key rows ->
        g = List.filter (keyed key k) rows /\ g <> [])
  /\ (forall d, d ∈ rows -> key d ∈ (group_by key rows).*1).
Proof.
  induction rows as [|d rows (Hnd & Hg & Hk)] using rev_ind.
  - split; [constructor|]. split; [by intros k g ?%elem_of_nil|by intros d ?%elem_of_nil].
  - rewrite group_by_snoc. split; [|split].
    + rewrite group_insert_by_keys. destruct (bool_decide _) eqn:Hin; [done|].
      apply bool_decide_eq_false_1 in Hin.
      apply NoDup_app. split; [done|]. split; [|apply NoDup_singleton].
      intros x Hx ->%list_elem_of_singleton. done.
    + intros k g Hin. rewrite filter_keyed_snoc.
      destruct (elem_of_group_insert_by _ _ _ _ _ Hnd Hin)
        as [[Hne Hin']|[(-> & g0 & Hin' & ->)|(-> & Hnew & ->)]].
      * destruct (Hg _ _ Hin') as [-> ?].
        rewrite bool_decide_eq_false_2; [|done]. by rewrite app_nil_r.
      * destruct (Hg _ _ Hin') as [-> ?].
        rewrite bool_decide_eq_true_2; [|done]. split; [done|].
        by intros [? ?]%app_eq_nil.
      * rewrite bool_decide_eq_true_2; [|done]. split; [|done].
        rewrite filter_nil_iff; [done|]. intros x Hx. unfold keyed.
        apply bool_decide_eq_false_2. intros Hkx. apply Hnew. rewrite <- Hkx.
        by apply Hk.
    + intros x Hx. rewrite group_insert_by_keys.
      apply elem_of_app in Hx as [Hx|Hx%list_elem_of_singleton].
      * destruct (bool_decide _); [by apply Hk|]. apply elem_of_app. left. by apply Hk.
      * subst x. destruct (bool_decide _) eqn:Hin.
        -- by apply bool_decide_eq_true_1 in Hin.
        -- apply elem_of_app. right. by apply list_elem_of_singleton.
Qed.

(** Every key of a group is the key of a row. *)
Lemma group_by_key_occurs (rows : list Detection) (k : K) (g : list Detection) :
  (k, g) ∈ group_by key rows -> exists d, d ∈ rows /\ key d = k.
Proof.
  intros Hin. destruct (group_by_spec rows) as (_ & Hg & _).
  destruct (Hg _ _ Hin) as [-> Hne].
  destruct (List.filter (keyed key k) rows) as [|d l] eqn:Hf; [done|].
  assert (In d (List.filter (keyed key k) rows)) as Hd by (rewrite Hf; by left).
  apply List.filter_In in Hd as [Hd Hkd]. exists d. split.
  - by apply list_elem_of_In.
  - unfold keyed in Hkd. by apply bool_decide_eq_true_1 in Hkd.
Qed.

(** A count taken per group adds up to the count over all rows. *)
Lemma sum_of_group_insert_by (p : Detection -> bool) (k : K) (d : Detection)
  (groups : list (K * list Detection)) :
  sum_of (fun group => count_case p (snd group)) (group_insert_by k d groups)
  = sum_of (fun group => count_case p (snd group)) groups + (if p d then 1 else 0).
Proof.
  unfold sum_of, count_case.
  induction groups as [|[k' g] groups IH]; simpl.
  - destruct (p d); simpl; lia.
  - destruct (bool_decide (k = k')); simpl.
    + rewrite List.filter_app, length_app. simpl. destruct (p d); simpl; lia.
    + rewrite IH. lia.
Qed.

Lemma sum_of_groups (p : Detection -> bool) (rows : list Detection) :
  sum_of (fun group => count_case p (snd group)) (group_by key rows)
  = count_case p rows.
Proof.
  induction rows as [|d rows IH] using rev_ind; [done|].
  rewrite group_by_snoc, sum_of_group_insert_by, IH.
  unfold count_case. rewrite List.filter_app, length_app. simpl.
  destruct (p d); simpl; lia.
Qed.

End GroupBy.

Lemma count_case_all (g : list Detection) :
  Aggregates.count_case (fun _ => true) g = Aggregates.count_all g.
Proof.
  unfold Aggregates.count_case, Aggregates.count_all. f_equal. f_equal.
  induction g as [|d g IH]; simpl; [done|]. by rewrite IH.
Qed.

Lemma sum_of_Permutation {A : Type} (column : A -> Z) (l l' : list A) :
  l ≡ₚ l' -> Aggregates.sum_of column l = Aggregates.sum_of column l'.
Proof.
  unfold Aggregates.sum_of.
  induction 1 as [|x l l' _ IH|x y l|l l' l'' _ IH1 _ IH2]; simpl; [done|lia|lia|congruence].
Qed.

Lemma sum_of_map {A B : Type} (column : B -> Z) (f : A -> B) (l : list A) :
  Aggregates.sum_of column (map f l) = Aggregates.sum_of (fun x => column (f x)) l.
Proof. unfold Aggregates.sum_of. by rewrite map_map. Qed.

Lemma photos_and_videos (g : list Detection) :
  Aggregates.count_case Aggregates.is_photo g + Aggregates.count_case Aggregates.is_video g
  = Aggregates.count_all g.
Proof.
  unfold Aggregates.count_case, Aggregates.count_all,
    Aggregates.is_photo, Aggregates.is_video.
  induction g as [|d g IH]; simpl; [done|].
  destruct (media_type d); simpl; lia.
Qed.

Lemma count_case_bounds (p : Detection -> bool) (g : list Detection) :
  0 <= Aggregates.count_case p g <= Aggregates.count_all g.
Proof.
  unfold Aggregates.count_case, Aggregates.count_all.
  pose proof (List.filter_length_le p g). lia.
Qed.

Lemma filter_filter_andb {A : Type} (p q : A -> bool) (l : list A) :
  List.filter p (List.filter q l) = List.filter (fun x => q x && p x) l.
Proof.
  induction l as [|x l IH]; simpl; [done|].
  destruct (q x); simpl; [|done]. destruct (p x); by rewrite IH.
Qed.

Lemma matching_in_period (db : Backend) (s e : Z) :
  matching db (Aggregates.in_period s e) = List.filter (in_range s e) (table db).
Proof.
  unfold matching, Aggregates.in_period. apply List.filter_ext.
  intros d. apply selected_between.
Qed.

Lemma Sorted_impl {A : Type} (R R' : A -> A -> Prop) (l : list A) :
  (forall x y, R x y -> R' x y) -> Sorted R l -> Sorted R' l.
Proof.
  intros HR. induction 1 as [|x l Hl IH Hhd]; constructor; [done|].
  destruct Hhd; constructor. by apply HR.
Qed.

Lemma sort_by_decreasing {A : Type} (column : A -> Z) (l : list A) :
  Tally.decreasing column (sort_by (fun a b => column b <=? column a) l).
Proof.
  unfold Tally.decreasing.
  eapply Sorted_impl; [|apply sort_by_Sorted].
  - intros x y Hxy. simpl in Hxy. lia.
  - intros x y Hxy. simpl in *. lia.
Qed.

(** ** Platform statistics *)

Section PlatformStatistics.

Import Aggregates Tally.

Lemma platform_group_in_rows (rows : list Detection) (stat : PlatformStats.PlatformStat) :
  stat ∈ PlatformStats.platform_rows rows ->
  exists g,
    stat = PlatformStats.platform_stat (PlatformStats.source_platform stat, g)
    /\ g = List.filter (platform_is (PlatformStats.source_platform stat)) rows
    /\ g <> [].
Proof.
  unfold PlatformStats.platform_rows. rewrite elem_of_sort_by.
  intros ([k g] & -> & Hin)%list_elem_of_fmap.
  destruct (group_by_spec source_platform rows) as (_ & Hg & _).
  destruct (Hg _ _ Hin) as [Hgk Hne]. exists g. simpl. done.
Qed.

Lemma platform_rows_NoDup (rows : list Detection) :
  NoDup (map PlatformStats.source_platform (PlatformStats.platform_rows rows)).
Proof.
  unfold PlatformStats.platform_rows.
  rewrite (Permutation_map _ (sort_by_Permutation _ _)), map_map. simpl.
  rewrite map_fmap. apply (group_by_spec source_platform rows).
Qed.

Lemma platform_rows_sum (column : PlatformStats.PlatformStat -> Z) (p : Detection -> bool)
  (rows : list Detection) :
  (forall group, column (PlatformStats.platform_stat group) = count_case p (snd group)) ->
  sum_of column (PlatformStats.platform_rows rows) = count_case p rows.
Proof.
  intros Hc. unfold PlatformStats.platform_rows.
  rewrite (sum_of_Permutation _ _ _ (sort_by_Permutation _ _)), sum_of_map.
  rewrite <- (sum_of_groups source_platform p rows).
  unfold sum_of. f_equal. apply map_ext. intros group. apply Hc.
Qed.

(** X13.  For a valid period and a backend that answers, [/api/platforms]
    and [getPlatformStats] give the same rows: one row per platform value
    ([NULL] included) that has a record detected in the period, in
    decreasing order of [total_count].  A row's [total_count] is the number
    of records of the period on its platform, it is at least 1, it is the
    sum of [photos_count] and [videos_count] and it bounds
    [verified_count]; the [total_count]s add up to the number of records of
    the period. *)
Theorem platform_rows_count_the_period (q : Query) (startDate endDate : Z) (db : Backend) :
  DateRange.period_schema q = Valid (startDate, endDate) ->
  available db = true ->
  exists stats,
    PlatformStats.handler q db = Json (stats, (startDate, endDate))
    /\ PlatformStats.getPlatformStats startDate endDate db = Some stats
    /\ NoDup (map PlatformStats.source_platform stats)
    /\ decreasing PlatformStats.total_count stats
    /\ (forall stat, stat ∈ stats ->
          PlatformStats.total_count stat
          = tally (both (in_range startDate endDate)
                     (platform_is (PlatformStats.source_platform stat))) (table db)
          /\ 1 <= PlatformStats.total_count stat
          /\ PlatformStats.photos_count stat + PlatformStats.videos_count stat
             = PlatformStats.total_count stat
          /\ 0 <= PlatformStats.verified_count stat <= PlatformStats.total_count stat)
    /\ sum_of PlatformStats.total_count stats
       = tally (in_range startDate endDate) (table db).
Proof.
  intros Hq Hup.
  exists (PlatformStats.platform_rows (matching db (in_period startDate endDate))).
  unfold PlatformStats.handler, PlatformStats.getPlatformStats,
    PlatformStats.platform_statistics. rewrite Hq, Hup.
  split; [done|]. split; [done|]. split; [apply platform_rows_NoDup|].
  split; [apply sort_by_decreasing|]. split.
  - intros stat (g & -> & Hg & Hne)%platform_group_in_rows.
    cbn [PlatformStats.total_count PlatformStats.photos_count PlatformStats.videos_count
           PlatformStats.verified_count PlatformStats.source_platform
           PlatformStats.platform_stat fst snd] in *.
    split; [|split; [|split]].
    + rewrite Hg, matching_in_period, filter_filter_andb. done.
    + unfold count_all. destruct g; [done|]. simpl. lia.
    + apply photos_and_videos.
    + apply count_case_bounds.
  - rewrite (platform_rows_sum _ (fun _ => true)); [|intros; symmetry; apply count_case_all].
    rewrite count_case_all, matching_in_period. done.
Qed.

Lemma platform_rows_count_the_period_witness :
  DateRange.period_schema Examples.period_query
  = Valid (0, 20 * ms_per_day)
  /\ available Examples.backend = true
  /\ exists stats,
       PlatformStats.handler Examples.period_query Examples.backend
       = Json (stats, (0, 20 * ms_per_day))
       /\ sum_of PlatformStats.total_count stats
          = tally (in_range 0 (20 * ms_per_day)) (table Examples.backend).
Proof.
  assert (DateRange.period_schema Examples.period_query
          = Valid (0, 20 * ms_per_day)) as Hq by reflexivity.
  split; [exact Hq|]. split; [reflexivity|].
  destruct (platform_rows_count_the_period Examples.period_query _ _ Examples.backend
              Hq eq_refl) as (stats & Hh & _ & _ & _ & _ & Hsum).
  exists stats. split; [exact Hh|exact Hsum].
Defined.

End PlatformStatistics.

(** ** Extremes and averages of scores *)

Section Extremes.

Import Aggregates Tally.

Lemma fold_max_spec (c : Z) (l : list Z) :
  fold_right Z.max c l ∈ c :: l /\ forall x, x ∈ c :: l -> x <= fold_right Z.max c l.
Proof.
  induction l as [|y l [Hin Hle]]; simpl.
  - split; [by left|]. intros x ->%list_elem_of_singleton. lia.
  - split.
    + destruct (Z.max_spec y (fold_right Z.max c l)) as [[_ ->]|[_ ->]].
      * apply elem_of_cons in Hin as [->|Hin]; [by left|]. right. by right.
      * right. by left.
    + intros x [->|[->|Hx]%elem_of_cons]%elem_of_cons.
      * specialize (Hle c ltac:(by left)). lia.
      * lia.
      * specialize (Hle x ltac:(by right)). lia.
Qed.

Lemma fold_min_spec (c : Z) (l : list Z) :
  fold_right Z.min c l ∈ c :: l /\ forall x, x ∈ c :: l -> fold_right Z.min c l <= x.
Proof.
  induction l as [|y l [Hin Hle]]; simpl.
  - split; [by left|]. intros x ->%list_elem_of_singleton. lia.
  - split.
    + destruct (Z.min_spec y (fold_right Z.min c l)) as [[_ ->]|[_ ->]].
      * right. by left.
      * apply elem_of_cons in Hin as [->|Hin]; [by left|]. right. by right.
    + intros x [->|[->|Hx]%elem_of_cons]%elem_of_cons.
      * specialize (Hle c ltac:(by left)). lia.
      * lia.
      * specialize (Hle x ltac:(by right)). lia.
Qed.

Lemma sum_between (lo hi : Z) (l : list Z) :
  (forall x, x ∈ l -> lo <= x <= hi) ->
  Z.of_nat (length l) * lo <= fold_right Z.add 0 l <= Z.of_nat (length l) * hi.
Proof.
  induction l as [|x l IH]; intros Hl; [simpl; lia|].
  specialize (Hl x ltac:(by left)) as Hx.
  specialize (IH ltac:(intros y Hy; apply Hl; by right)).
  cbn [fold_right length]. lia.
Qed.

Lemma mean_between (sum n lo hi : Z) :
  0 < n -> n * lo <= sum <= n * hi ->
  (score_value lo <= inject_Z sum / inject_Z n / inject_Z 10000 <= score_value hi)%Q.
Proof.
  intros Hn Hsum. destruct n as [|p|p]; [lia| |lia].
  unfold score_value, Qle, Qdiv, Qmult, Qinv, inject_Z. simpl. nia.
Qed.

(** The scores of a group: with none, every aggregate of them is [NULL];
    otherwise the minimum and the maximum are scores of the group that
    bound every score, and the average lies between them. *)
Lemma score_aggregates (g : list Detection) :
  match max_score g with
  | None =>
      min_score g = None /\ avg_score g = None
      /\ forall d, d ∈ g -> confidence_score d = None
  | Some hi =>
      exists lo a,
        min_score g = Some lo /\ avg_score g = Some a
        /\ (score_value lo <= a <= score_value hi)%Q
        /\ (exists d, d ∈ g /\ confidence_score d = Some hi)
        /\ (exists d, d ∈ g /\ confidence_score d = Some lo)
        /\ forall d c, d ∈ g -> confidence_score d = Some c -> lo <= c <= hi
  end.
Proof.
  unfold max_score, min_score, avg_score.
  destruct (omap confidence_score g) as [|c scores] eqn:Hs.
  - split; [done|]. split; [done|]. intros d Hd.
    destruct (confidence_score d) as [x|] eqn:Hx; [|done].
    assert (x ∈ omap confidence_score g) as Hin
      by (apply list_elem_of_omap; by exists d).
    rewrite Hs in Hin. by apply elem_of_nil in Hin.
  - destruct (fold_max_spec c scores) as [Hmax_in Hmax].
    destruct (fold_min_spec c scores) as [Hmin_in Hmin].
    eexists _, _. split; [done|]. split; [done|].
    rewrite <- Hs in Hmax_in, Hmin_in.
    apply list_elem_of_omap in Hmax_in as (dmax & ? & ?).
    apply list_elem_of_omap in Hmin_in as (dmin & ? & ?).
    split; [|split; [by exists dmax|split; [by exists dmin|]]].
    + apply mean_between; [simpl; lia|].
      apply (sum_between _ _ (c :: scores)). intros x Hx. split; auto.
    + intros d x Hd Hx.
      assert (x ∈ c :: scores) as Hin
        by (rewrite <- Hs; apply list_elem_of_omap; by exists d).
      split; auto.
Qed.

Lemma highest_of_group (g : list Detection) :
  highest_score g (max_score g) (avg_score g).
Proof.
  unfold highest_score. pose proof (score_aggregates g) as Hagg.
  destruct (max_score g) as [hi|].
  - destruct Hagg as (lo & a & _ & Havg & [_ Hle] & Hmax & _ & Hall).
    split; [by exists a|]. split; [done|].
    intros d c Hd Hc. by apply (Hall d c).
  - destruct Hagg as (_ & Havg & Hall). done.
Qed.

Lemma lowest_of_group (g : list Detection) :
  lowest_score g (min_score g) (avg_score g).
Proof.
  unfold lowest_score. pose proof (score_aggregates g) as Hagg.
  destruct (max_score g) as [hi|].
  - destruct Hagg as (lo & a & -> & Havg & [Hle _] & _ & Hmin & Hall).
    split; [by exists a|]. split; [done|].
    intros d c Hd Hc. by apply (Hall d c).
  - destruct Hagg as (-> & Havg & Hall). done.
Qed.

(** X14.  In the rows of [/api/platforms] and [getPlatformStats],
    [max_confidence] is the highest confidence score among the records of
    the period on the row's platform: one of them has it and none has
    more, and [avg_confidence] is not above it.  Both are [NULL] when none
    of these records has a score. *)
Theorem platform_max_confidence_is_highest
  (startDate endDate : Z) (db : Backend) (stats : list PlatformStats.PlatformStat)
  (stat : PlatformStats.PlatformStat) :
  PlatformStats.getPlatformStats startDate endDate db = Some stats ->
  stat ∈ stats ->
  highest_score
    (List.filter (both (in_range startDate endDate)
                    (platform_is (PlatformStats.source_platform stat))) (table db))
    (PlatformStats.max_confidence stat) (PlatformStats.avg_confidence stat).
Proof.
  unfold PlatformStats.getPlatformStats, PlatformStats.platform_statistics.
  destruct (available db); [|done]. intros [= <-] Hin.
  apply platform_group_in_rows in Hin as (g & Hstat & Hg & _).
  rewrite matching_in_period, filter_filter_andb in Hg. fold (both (in_range startDate endDate)
    (platform_is (PlatformStats.source_platform stat))) in Hg.
  rewrite <- Hg, Hstat. apply highest_of_group.
Qed.

Lemma platform_max_confidence_is_highest_witness :
  PlatformStats.getPlatformStats 0 (20 * ms_per_day) Examples.backend
  = Some AggregateExamples.platform_rows
  /\ AggregateExamples.weibo ∈ AggregateExamples.platform_rows
  /\ highest_score
       (List.filter (both (in_range 0 (20 * ms_per_day)) (platform_is (Some "weibo")))
          (table Examples.backend))
       (Some 9500) (PlatformStats.avg_confidence AggregateExamples.weibo).
Proof.
  assert (PlatformStats.getPlatformStats 0 (20 * ms_per_day) Examples.backend
          = Some AggregateExamples.platform_rows) as Hrows by reflexivity.
  assert (AggregateExamples.weibo ∈ AggregateExamples.platform_rows) as Hin
    by (vm_compute; left).
  split; [exact Hrows|]. split; [exact Hin|].
  exact (platform_max_confidence_is_highest _ _ _ _ _ Hrows Hin).
Defined.

End Extremes.

(** ** Daily statistics of a period *)

Section RealTime.

Import Aggregates Tally.

Lemma Sorted_distinct {A B : Type} (f : A -> B) (R : A -> A -> Prop) (l : list A) :
  Sorted R l -> NoDup (map f l) -> Sorted (fun a b => R a b /\ f a <> f b) l.
Proof.
  induction 1 as [|x l Hl IH Hhd]; simpl; intros Hnd; [constructor|].
  apply NoDup_cons in Hnd as [Hx Hnd]. constructor; [by apply IH|].
  destruct Hhd as [|y l' Hxy]; constructor. split; [done|].
  intros Heq. apply Hx. simpl. rewrite Heq. by left.
Qed.

Lemma realtime_group_in_rows (rows : list Detection) (stat : RealTimeStats.RealTimeStat) :
  stat ∈ RealTimeStats.realtime_rows rows ->
  exists g,
    stat = RealTimeStats.realtime_stat (RealTimeStats.date stat, g)
    /\ g = List.filter (keyed RealTimeStats.day (RealTimeStats.date stat)) rows
    /\ (exists d, d ∈ rows /\ RealTimeStats.day d = RealTimeStats.date stat).
Proof.
  unfold RealTimeStats.realtime_rows. rewrite elem_of_sort_by.
  intros ([k g] & -> & Hin)%list_elem_of_fmap.
  destruct (group_by_spec RealTimeStats.day rows) as (_ & Hg & _).
  destruct (Hg _ _ Hin) as [Hgk Hne]. exists g. simpl.
  split; [done|]. split; [done|]. by apply (group_by_key_occurs _ _ _ _ Hin).
Qed.

Lemma realtime_rows_NoDup (rows : list Detection) :
  NoDup (map RealTimeStats.date (RealTimeStats.realtime_rows rows)).
Proof.
  unfold RealTimeStats.realtime_rows.
  rewrite (Permutation_map _ (sort_by_Permutation _ _)), map_map. simpl.
  rewrite map_fmap. apply (group_by_spec RealTimeStats.day rows).
Qed.

Lemma realtime_rows_sum (rows : list Detection) :
  sum_of RealTimeStats.total_count (RealTimeStats.realtime_rows rows) = count_all rows.
Proof.
  unfold RealTimeStats.realtime_rows.
  rewrite (sum_of_Permutation _ _ _ (sort_by_Permutation _ _)), sum_of_map.
  rewrite <- count_case_all, <- (sum_of_groups RealTimeStats.day (fun _ => true) rows).
  unfold sum_of. f_equal. apply map_ext. intros group. simpl.
  symmetry. apply count_case_all.
Qed.

Lemma asc_ge_total (a b : option Z) :
  RealTimeStats.asc_ge a b = false -> RealTimeStats.asc_ge b a = true.
Proof. destruct a, b; simpl; try done. lia. Qed.

Lemma dated_increasing (stats : list RealTimeStats.RealTimeStat) :
  (forall stat, stat ∈ stats -> is_Some (RealTimeStats.date stat)) ->
  Sorted (fun a b => RealTimeStats.asc_ge (RealTimeStats.date a) (RealTimeStats.date b) = true
                     /\ RealTimeStats.date a <> RealTimeStats.date b) stats ->
  map RealTimeStats.date stats = map Some (omap RealTimeStats.date stats)
  /\ increasing (omap RealTimeStats.date stats).
Proof.
  unfold increasing.
  induction stats as [|a stats IH]; intros Hsome Hsorted; [split; [done|constructor]|].
  apply Sorted_inv in Hsorted as [Hsorted Hhd].
  destruct IH as [IH1 IH2]; [intros; apply Hsome; by right|done|].
  destruct (Hsome a ltac:(by left)) as [x Hx].
  cbn [map omap list_omap]. rewrite Hx. cbn [map]. rewrite <- IH1.
  split; [done|]. constructor; [done|].
  destruct Hhd as [|b stats' [Hab Hne]]; [constructor|].
  destruct (Hsome b ltac:(right; by left)) as [y Hy].
  cbn [omap list_omap]. rewrite Hy. constructor.
  rewrite Hx, Hy in Hab, Hne. simpl in Hab.
  assert (x <> y) by congruence. lia.
Qed.

(** X15.  When the backend answers, [getRealTimeStats] gives one row per
    day on which a record of the period was detected, the days strictly
    increasing and none [NULL].  A row's [total_count] is the number of
    records of the period detected that day, it is at least 1 and it is
    the sum of [photos_count] and [videos_count]; the [total_count]s add
    up to the number of records of the period. *)
Theorem realtime_rows_count_each_day (startDate endDate : Z) (db : Backend) :
  available db = true ->
  exists stats days,
    RealTimeStats.getRealTimeStats startDate endDate db = Some stats
    /\ map RealTimeStats.date stats = map Some days
    /\ increasing days
    /\ (forall stat day, stat ∈ stats -> RealTimeStats.date stat = Some day ->
          RealTimeStats.total_count stat
          = tally (both (in_range startDate endDate) (detected_on day)) (table db)
          /\ 1 <= RealTimeStats.total_count stat
          /\ RealTimeStats.photos_count stat + RealTimeStats.videos_count stat
             = RealTimeStats.total_count stat)
    /\ sum_of RealTimeStats.total_count stats
       = tally (in_range startDate endDate) (table db).
Proof.
  intros Hup. unfold RealTimeStats.getRealTimeStats. rewrite Hup.
  set (rows := matching db (in_period startDate endDate)).
  assert (forall stat, stat ∈ RealTimeStats.realtime_rows rows ->
            is_Some (RealTimeStats.date stat)) as Hsome.
  { intros stat (g & _ & _ & d & Hd & <-)%realtime_group_in_rows.
    apply elem_of_matching in Hd as [_ Hd]. unfold in_period in Hd.
    rewrite selected_between in Hd. unfold in_range in Hd.
    unfold RealTimeStats.day. destruct (detected_date d); [by eexists|done]. }
  destruct (dated_increasing (RealTimeStats.realtime_rows rows) Hsome) as [Hdates Hinc].
  { apply (Sorted_distinct RealTimeStats.date); [|apply realtime_rows_NoDup].
    apply (sort_by_Sorted
             (fun a b => RealTimeStats.asc_ge (RealTimeStats.date a) (RealTimeStats.date b))).
    intros x y. apply asc_ge_total. }
  exists (RealTimeStats.realtime_rows rows), (omap RealTimeStats.date (RealTimeStats.realtime_rows rows)).
  split; [done|]. split; [done|]. split; [done|]. split.
  - intros stat day (g & Hstat & Hg & d & Hd)%realtime_group_in_rows Hday.
    rewrite Hstat.
    cbn [RealTimeStats.total_count RealTimeStats.photos_count
           RealTimeStats.videos_count RealTimeStats.realtime_stat snd].
    split; [|split].
    + rewrite Hg, Hday. unfold rows. rewrite matching_in_period, filter_filter_andb. done.
    + destruct Hd as [Hd Hk]. rewrite Hg. unfold count_all.
      destruct (List.filter _ rows) as [|? ?] eqn:Hf; [|simpl; lia].
      assert (In d (List.filter (keyed RealTimeStats.day (RealTimeStats.date stat)) rows)) as Hin.
      { apply List.filter_In. split; [by apply list_elem_of_In|].
        unfold keyed. by apply bool_decide_eq_true_2. }
      rewrite Hf in Hin. done.
    + apply photos_and_videos.
  - rewrite realtime_rows_sum. unfold rows. by rewrite matching_in_period.
Qed.

Lemma realtime_rows_count_each_day_witness :
  available Examples.backend = true
  /\ exists stats days,
       RealTimeStats.getRealTimeStats 0 (20 * ms_per_day) Examples.backend = Some stats
       /\ map RealTimeStats.date stats = map Some days
       /\ increasing days.
Proof.
  split; [reflexivity|].
  destruct (realtime_rows_count_each_day 0 (20 * ms_per_day) Examples.backend eq_refl)
    as (stats & days & Hstats & Hdates & Hinc & _).
  exists stats, days. done.
Defined.

End RealTime.

(** ** The summary of a period and the platform names *)

Section Summaries.

Import Aggregates Tally.

Lemma NoDup_omap_id {A : Type} (l : list (option A)) : NoDup l -> NoDup (omap Datatypes.id l).
Proof.
  induction 1 as [|x l Hx Hl IH]; [constructor|].
  destruct x as [a|]; cbn [omap list_omap Datatypes.id]; [|done].
  constructor; [|done]. intros (y & Hy & Hya)%list_elem_of_omap.
  simpl in Hya. subst y. done.
Qed.

Lemma omap_map_id {A B : Type} (f : A -> option B) (l : list A) :
  omap f l = omap Datatypes.id (map f l).
Proof.
  induction l as [|x l IH]; [done|].
  cbn [map omap list_omap Datatypes.id]. rewrite <- IH. done.
Qed.

Lemma platform_rows_keys (rows : list Detection) (platform : option string) :
  platform ∈ map PlatformStats.source_platform (PlatformStats.platform_rows rows)
  <-> exists d, d ∈ rows /\ source_platform d = platform.
Proof.
  unfold PlatformStats.platform_rows.
  rewrite (Permutation_map _ (sort_by_Permutation _ _)), map_map. simpl.
  rewrite map_fmap. split.
  - intros ([k g] & -> & Hin)%list_elem_of_fmap.
    by apply (group_by_key_occurs _ _ _ _ Hin).
  - intros (d & Hd & <-). by apply (group_by_spec source_platform rows).
Qed.

Lemma named_platforms (rows : list Detection) :
  SummaryStats.count_distinct_platforms rows
  = Z.of_nat (length (omap PlatformStats.source_platform (PlatformStats.platform_rows rows))).
Proof.
  unfold SummaryStats.count_distinct_platforms. f_equal.
  apply Permutation_length, NoDup_Permutation.
  - apply NoDup_remove_dups.
  - rewrite omap_map_id. apply NoDup_omap_id, platform_rows_NoDup.
  - intros x. rewrite elem_of_remove_dups, !list_elem_of_omap. split.
    + intros (d & Hd & Hx).
      assert (Some x ∈ map PlatformStats.source_platform (PlatformStats.platform_rows rows))
        as Hin by (apply platform_rows_keys; by exists d).
      rewrite map_fmap in Hin. apply list_elem_of_fmap in Hin as (stat & ? & ?).
      by exists stat.
    + intros (stat & Hstat & Hx).
      apply (platform_rows_keys rows (Some x)). rewrite map_fmap.
      apply list_elem_of_fmap. by exists stat.
Qed.

(** X16.  The row of [getSummaryStats] agrees with the rows of
    [getPlatformStats] for the same period: its totals are the sums of the
    platform rows' counts, photos and videos make up the total, and
    [platforms_count] is the number of platform rows whose platform is not
    [NULL].  Its [min_confidence] and [max_confidence] are the lowest and
    highest score among the records of the period, with [avg_confidence]
    between them. *)
Theorem summary_agrees_with_platform_rows (startDate endDate : Z) (db : Backend)
  (total : SummaryStats.Summary) (stats : list PlatformStats.PlatformStat) :
  SummaryStats.getSummaryStats startDate endDate db = Some total ->
  PlatformStats.getPlatformStats startDate endDate db = Some stats ->
  SummaryStats.total_deepfakes total = sum_of PlatformStats.total_count stats
  /\ SummaryStats.total_photos total = sum_of PlatformStats.photos_count stats
  /\ SummaryStats.total_videos total = sum_of PlatformStats.videos_count stats
  /\ SummaryStats.verified_count total = sum_of PlatformStats.verified_count stats
  /\ SummaryStats.total_photos total + SummaryStats.total_videos total
     = SummaryStats.total_deepfakes total
  /\ SummaryStats.platforms_count total
     = Z.of_nat (length (omap PlatformStats.source_platform stats))
  /\ highest_score (List.filter (in_range startDate endDate) (table db))
       (SummaryStats.max_confidence total) (SummaryStats.avg_confidence total)
  /\ lowest_score (List.filter (in_range startDate endDate) (table db))
       (SummaryStats.min_confidence total) (SummaryStats.avg_confidence total).
Proof.
  unfold SummaryStats.getSummaryStats, PlatformStats.getPlatformStats,
    PlatformStats.platform_statistics.
  destruct (available db); [|done]. intros [= <-] [= <-].
  rewrite <- matching_in_period.
  set (rows := matching db (in_period startDate endDate)).
  cbn [SummaryStats.summary SummaryStats.total_deepfakes SummaryStats.total_photos
         SummaryStats.total_videos SummaryStats.verified_count
         SummaryStats.platforms_count SummaryStats.max_confidence
         SummaryStats.min_confidence SummaryStats.avg_confidence].
  split; [|split; [|split; [|split; [|split; [|split; [|split]]]]]].
  - rewrite (platform_rows_sum _ (fun _ => true)); [|intros; symmetry; apply count_case_all].
    by rewrite count_case_all.
  - by rewrite (platform_rows_sum _ is_photo).
  - by rewrite (platform_rows_sum _ is_video).
  - by rewrite (platform_rows_sum _ verified).
  - apply photos_and_videos.
  - apply named_platforms.
  - apply highest_of_group.
  - apply lowest_of_group.
Qed.

Lemma summary_agrees_with_platform_rows_witness :
  SummaryStats.getSummaryStats 0 (20 * ms_per_day) Examples.backend
  = Some (SummaryStats.summary Examples.rows)
  /\ PlatformStats.getPlatformStats 0 (20 * ms_per_day) Examples.backend
     = Some AggregateExamples.platform_rows
  /\ SummaryStats.platforms_count (SummaryStats.summary Examples.rows)
     = Z.of_nat (length (omap PlatformStats.source_platform AggregateExamples.platform_rows)).
Proof.
  assert (SummaryStats.getSummaryStats 0 (20 * ms_per_day) Examples.backend
          = Some (SummaryStats.summary Examples.rows)) as Htotal by reflexivity.
  assert (PlatformStats.getPlatformStats 0 (20 * ms_per_day) Examples.backend
          = Some AggregateExamples.platform_rows) as Hrows by reflexivity.
  split; [exact Htotal|]. split; [exact Hrows|].
  apply (summary_agrees_with_platform_rows _ _ _ _ _ Htotal Hrows).
Defined.

Lemma leb_total (a b : string) : String.leb a b = false -> String.leb b a = true.
Proof. intros Hab. destruct (String.leb_total a b) as [H|H]; congruence. Qed.

(** X17.  When the backend answers, [/api/platforms/list] gives the names
    of the platforms of the table: every platform some record has, none
    that no record has, never [NULL], each once, in strictly ascending
    order. *)
Theorem platform_names_listed_once (db : Backend) :
  available db = true ->
  exists names,
    PlatformNames.handler db = Json names
    /\ alphabetical names
    /\ forall name, name ∈ names <-> exists d, d ∈ table db /\ source_platform d = Some name.
Proof.
  intros Hup. unfold PlatformNames.handler. rewrite Hup.
  exists (PlatformNames.platform_names (table db)). split; [done|].
  unfold PlatformNames.platform_names. split.
  - unfold alphabetical.
    apply (Sorted_distinct Datatypes.id (fun a b => String.leb a b = true)).
    + apply (sort_by_Sorted String.leb). apply leb_total.
    + rewrite map_id, sort_by_Permutation. apply NoDup_remove_dups.
  - intros name. rewrite elem_of_sort_by, elem_of_remove_dups, list_elem_of_omap. done.
Qed.

Lemma platform_names_listed_once_witness :
  available Examples.backend = true
  /\ exists names,
       PlatformNames.handler Examples.backend = Json names /\ alphabetical names.
Proof.
  split; [reflexivity|].
  destruct (platform_names_listed_once Examples.backend eq_refl)
    as (names & Hnames & Horder & _).
  exists names. done.
Defined.

End Summaries.

(** ** Recent detections *)

Section Recent.

Import Aggregates Tally.

Lemma monitoring_valid (q : Query) (hours : Z) :
  Monitoring.schema q = Valid hours ->
  with_default "hours" (integer_between 1 (Some 168)) 24 q = Valid hours.
Proof.
  intros H. unfold Monitoring.schema in H. repeat valid_step H.
  by injection H as <-.
Qed.

Lemma sum_of_app {A : Type} (column : A -> Z) (l k : list A) :
  sum_of column (l ++ k) = sum_of column l + sum_of column k.
Proof.
  unfold sum_of. induction l as [|x l IH]; simpl; [done|]. rewrite IH. lia.
Qed.

Lemma sum_of_nonneg {A : Type} (column : A -> Z) (l : list A) :
  (forall x, x ∈ l -> 0 <= column x) -> 0 <= sum_of column l.
Proof.
  unfold sum_of. induction l as [|x l IH]; simpl; intros Hl; [done|].
  specialize (Hl x ltac:(by left)) as Hx.
  specialize (IH ltac:(intros y Hy; apply Hl; by right)). lia.
Qed.

(** The rows of the breakdown before [LIMIT 5]. *)
Lemma breakdown_row (rows : list Detection) (row : Monitoring.PlatformCount) :
  row ∈ sort_by (fun a b => Monitoring.count b <=? Monitoring.count a)
          (map Monitoring.platform_count (group_by source_platform rows)) ->
  Monitoring.count row
  = count_all (List.filter (platform_is (Monitoring.source_platform row)) rows)
  /\ 1 <= Monitoring.count row.
Proof.
  rewrite elem_of_sort_by. intros ([k g] & -> & Hin)%list_elem_of_fmap.
  destruct (group_by_spec source_platform rows) as (_ & Hg & _).
  destruct (Hg _ _ Hin) as [Hgk Hne]. simpl. split.
  - by rewrite Hgk at 1.
  - unfold count_all. destruct g; [done|]. simpl. lia.
Qed.

Lemma breakdown_keys (rows : list Detection) (d : Detection) :
  d ∈ rows ->
  exists row,
    row ∈ sort_by (fun a b => Monitoring.count b <=? Monitoring.count a)
            (map Monitoring.platform_count (group_by source_platform rows))
    /\ Monitoring.source_platform row = source_platform d.
Proof.
  intros Hd. destruct (group_by_spec source_platform rows) as (_ & _ & Hk).
  apply Hk, list_elem_of_fmap in Hd as ([k g] & Hkd & Hin). simpl in Hkd.
  exists (Monitoring.platform_count (k, g)). split; [|done].
  rewrite elem_of_sort_by, map_fmap. apply list_elem_of_fmap. by eexists.
Qed.

Lemma breakdown_NoDup (rows : list Detection) :
  NoDup (map Monitoring.source_platform
           (sort_by (fun a b => Monitoring.count b <=? Monitoring.count a)
              (map Monitoring.platform_count (group_by source_platform rows)))).
Proof.
  rewrite (Permutation_map _ (sort_by_Permutation _ _)), map_map. simpl.
  rewrite map_fmap. apply (group_by_spec source_platform rows).
Qed.

Lemma breakdown_sum (rows : list Detection) :
  sum_of Monitoring.count
    (sort_by (fun a b => Monitoring.count b <=? Monitoring.count a)
       (map Monitoring.platform_count (group_by source_platform rows)))
  = count_all rows.
Proof.
  rewrite (sum_of_Permutation _ _ _ (sort_by_Permutation _ _)), sum_of_map.
  rewrite <- count_case_all, <- (sum_of_groups source_platform (fun _ => true) rows).
  unfold sum_of. f_equal. apply map_ext. intros group. simpl.
  symmetry. apply count_case_all.
Qed.

(** X18.  A monitoring request that passes validation has [hours] between
    1 and 168, 24 when absent.  When the backend answers, the summary of
    the response counts the records detected in the last [hours] hours:
    photos and videos make up [total_count], [high_confidence_count] does
    not exceed it, and [max_confidence] is the highest score among these
    records and bounds [avg_confidence]. *)
Theorem monitoring_summary_counts_window (clock : Z) (q : Query) (hours : Z)
  (db : Backend) :
  Monitoring.schema q = Valid hours ->
  available db = true ->
  1 <= hours <= 168
  /\ (q !! "hours" = None -> hours = 24)
  /\ exists body,
       Monitoring.handler clock q db = Json body
       /\ Monitoring.period body = hours
       /\ Monitoring.timestamp body = clock
       /\ Monitoring.total_count (Monitoring.summary body)
          = tally (Monitoring.recent (now db) hours) (table db)
       /\ Monitoring.photo_count (Monitoring.summary body)
          + Monitoring.video_count (Monitoring.summary body)
          = Monitoring.total_count (Monitoring.summary body)
       /\ 0 <= Monitoring.high_confidence_count (Monitoring.summary body)
          <= Monitoring.total_count (Monitoring.summary body)
       /\ highest_score (List.filter (Monitoring.recent (now db) hours) (table db))
            (Monitoring.max_confidence (Monitoring.summary body))
            (Monitoring.avg_confidence (Monitoring.summary body)).
Proof.
  intros Hq Hup. pose proof (monitoring_valid _ _ Hq) as Hhours.
  split; [split|].
  { eapply integer_between_lower; [|exact Hhours]; lia. }
  { eapply integer_between_upper; [|exact Hhours]; lia. }
  split; [intros Habs; by apply (with_default_absent _ _ _ _ _ Habs Hhours)|].
  unfold Monitoring.handler. rewrite Hq, Hup. eexists. split; [done|].
  cbn [Monitoring.period Monitoring.timestamp Monitoring.summary
         Monitoring.recent_summary Monitoring.total_count Monitoring.photo_count
         Monitoring.video_count Monitoring.high_confidence_count
         Monitoring.max_confidence Monitoring.avg_confidence].
  split; [done|]. split; [done|]. split; [done|].
  split; [apply photos_and_videos|]. split; [apply count_case_bounds|].
  apply highest_of_group.
Qed.

Lemma monitoring_summary_counts_window_witness :
  Monitoring.schema MonitoringExamples.no_parameters = Valid 24
  /\ available Examples.backend = true
  /\ 1 <= 24 <= 168
  /\ exists body,
       Monitoring.handler 0 MonitoringExamples.no_parameters Examples.backend = Json body
       /\ Monitoring.period body = 24.
Proof.
  assert (Monitoring.schema MonitoringExamples.no_parameters = Valid 24) as Hq
    by reflexivity.
  split; [exact Hq|]. split; [reflexivity|].
  destruct (monitoring_summary_counts_window 0 _ _ Examples.backend Hq eq_refl)
    as (Hhours & _ & body & Hbody & Hperiod & _).
  split; [exact Hhours|]. exists body. split; [exact Hbody|exact Hperiod].
Defined.

(** X19.  When the backend answers a valid monitoring request, [platforms]
    holds at most five rows of distinct platforms ([NULL] being one), in
    decreasing order of [count].  A row's [count] is the number of records
    of the window on its platform and is at least 1; no platform left out
    has more records in the window than a platform listed, and the
    [count]s add up to no more than the summary's [total_count]. *)
Theorem monitoring_lists_top_platforms (clock : Z) (q : Query) (hours : Z)
  (db : Backend) :
  Monitoring.schema q = Valid hours ->
  available db = true ->
  exists body,
    Monitoring.handler clock q db = Json body
    /\ (length (Monitoring.platforms body) <= 5)%nat
    /\ NoDup (map Monitoring.source_platform (Monitoring.platforms body))
    /\ decreasing Monitoring.count (Monitoring.platforms body)
    /\ (forall row, row ∈ Monitoring.platforms body ->
          Monitoring.count row
          = tally (both (Monitoring.recent (now db) hours)
                     (platform_is (Monitoring.source_platform row))) (table db)
          /\ 1 <= Monitoring.count row
          /\ forall platform,
               platform ∉ map Monitoring.source_platform (Monitoring.platforms body) ->
               tally (both (Monitoring.recent (now db) hours) (platform_is platform))
                 (table db)
               <= Monitoring.count row)
    /\ sum_of Monitoring.count (Monitoring.platforms body)
       <= Monitoring.total_count (Monitoring.summary body).
Proof.
  intros Hq Hup. unfold Monitoring.handler. rewrite Hq, Hup. eexists. split; [done|].
  cbn [Monitoring.platforms Monitoring.summary Monitoring.recent_summary
         Monitoring.total_count].
  unfold Monitoring.platform_breakdown, Monitoring.recent_rows.
  set (rows := List.filter (Monitoring.recent (now db) hours) (table db)).
  set (sorted := sort_by _ _).
  assert (StronglySorted (fun a b => Monitoring.count b <= Monitoring.count a) sorted)
    as Hsorted.
  { apply Sorted_StronglySorted; [intros x y z; lia|].
    apply (sort_by_decreasing Monitoring.count). }
  assert (forall platform,
            tally (both (Monitoring.recent (now db) hours) (platform_is platform)) (table db)
            = count_all (List.filter (platform_is platform) rows)) as Htally.
  { intros platform. unfold rows. by rewrite filter_filter_andb. }
  split; [rewrite length_take; lia|]. split; [|split; [|split]].
  - pose proof (breakdown_NoDup rows) as Hnd. fold sorted in Hnd.
    rewrite <- (take_drop 5 sorted), map_app in Hnd.
    by apply NoDup_app in Hnd as (Hnd & _).
  - apply StronglySorted_Sorted, StronglySorted_take, Hsorted.
  - intros row Hrow.
    assert (row ∈ sorted) as Hin by (eapply subseteq_take; exact Hrow).
    destruct (breakdown_row rows row Hin) as [Hcount Hpos].
    split; [by rewrite Htally|]. split; [done|].
    intros platform Hout. rewrite Htally.
    destruct (List.filter (platform_is platform) rows) as [|d l] eqn:Hf;
      [unfold count_all; simpl; lia|].
    assert (In d (List.filter (platform_is platform) rows)) as Hd by (rewrite Hf; by left).
    apply List.filter_In in Hd as [Hd Hkd]. apply list_elem_of_In in Hd.
    unfold platform_is in Hkd. apply bool_decide_eq_true_1 in Hkd.
    destruct (breakdown_keys rows d Hd) as (other & Hother & Hplatform).
    fold sorted in Hother. rewrite Hkd in Hplatform.
    destruct (breakdown_row rows other Hother) as [Hc _].
    rewrite Hplatform, Hf in Hc. rewrite <- Hc.
    rewrite <- (take_drop 5 sorted) in Hother, Hsorted.
    apply StronglySorted_app in Hsorted as (Hle & _ & _).
    apply elem_of_app in Hother as [Hother|Hother]; [|by apply Hle].
    exfalso. apply Hout. rewrite map_fmap. apply list_elem_of_fmap. by exists other.
  - pose proof (breakdown_sum rows) as Hsum. fold sorted in Hsum.
    rewrite <- (take_drop 5 sorted), sum_of_app in Hsum.
    assert (0 <= sum_of Monitoring.count (drop 5 sorted)); [|lia].
    apply sum_of_nonneg. intros x Hx.
    assert (x ∈ sorted) as Hin by (eapply subseteq_drop; exact Hx).
    destruct (breakdown_row rows x Hin). lia.
Qed.

Lemma monitoring_lists_top_platforms_witness :
  Monitoring.schema MonitoringExamples.two_days = Valid 48
  /\ available Examples.backend = true
  /\ exists body,
       Monitoring.handler 0 MonitoringExamples.two_days Examples.backend = Json body
       /\ (length (Monitoring.platforms body) <= 5)%nat.
Proof.
  assert (Monitoring.schema MonitoringExamples.two_days = Valid 48) as Hq
    by reflexivity.
  split; [exact Hq|]. split; [reflexivity|].
  destruct (monitoring_lists_top_platforms 0 _ _ Examples.backend Hq eq_refl)
    as (body & Hbody & Hlen & _).
  exists body. split; [exact Hbody|exact Hlen].
Defined.

Lemma count_case_included (p q r : Detection -> bool) (table : list Detection) :
  (forall d, q d = true -> r d = true) ->
  count_case p (List.filter q table) <= count_case p (List.filter r table).
Proof.
  intros Hqr. unfold count_case.
  induction table as [|d table IH]; simpl; [done|].
  destruct (q d) eqn:Hq.
  - rewrite (Hqr d Hq). simpl. destruct (p d); simpl; lia.
  - destruct (r d); simpl; [|done]. destruct (p d); simpl; lia.
Qed.

(** X20.  A wider window never reports less: over the same backend, the
    summary the monitoring handler computes for a larger [hours] has a
    [total_count], a [photo_count], a [video_count] and a
    [high_confidence_count] at least as large. *)
Theorem monitoring_grows_with_window (hours wider : Z) (db : Backend) :
  hours <= wider ->
  let narrow := Monitoring.recent_summary (Monitoring.recent_rows hours db) in
  let wide := Monitoring.recent_summary (Monitoring.recent_rows wider db) in
  Monitoring.total_count narrow <= Monitoring.total_count wide
  /\ Monitoring.photo_count narrow <= Monitoring.photo_count wide
  /\ Monitoring.video_count narrow <= Monitoring.video_count wide
  /\ Monitoring.high_confidence_count narrow <= Monitoring.high_confidence_count wide.
Proof.
  intros Hle.
  assert (forall d, Monitoring.recent (now db) hours d = true ->
                    Monitoring.recent (now db) wider d = true) as Hinc.
  { intros d. unfold Monitoring.recent, ms_per_hour.
    destruct (detected_date d); [|done]. lia. }
  cbn [Monitoring.recent_summary Monitoring.total_count Monitoring.photo_count
         Monitoring.video_count Monitoring.high_confidence_count].
  unfold Monitoring.recent_rows. rewrite <- !count_case_all.
  repeat split; by apply count_case_included.
Qed.

Lemma monitoring_grows_with_window_witness :
  24 <= 48
  /\ Monitoring.total_count
       (Monitoring.recent_summary (Monitoring.recent_rows 24 Examples.backend))
     <= Monitoring.total_count
          (Monitoring.recent_summary (Monitoring.recent_rows 48 Examples.backend)).
Proof.
  split; [lia|].
  apply (monitoring_grows_with_window 24 48 Examples.backend). lia.
Defined.

End Recent.
